(** * Document verification core: MRZ decoder, validation and eligibility engine

    A shallow embedding of the TypeScript sources

      - [types/document]      (records)
      - [lib/mrz-parser]      (check digits, TD3/TD1 decoding, pattern extraction)
      - [lib/validator]       (validation checks, eligibility, recommendations)
      - [lib/document-analyzer], [lib/ocr] (MRZ line selection, field merge)

    JavaScript strings are modelled as [string] (code units below 256),
    numbers that the code can turn into [NaN] as [number], thrown exceptions
    as the [Throw] outcome, and the libraries the sources import (date-fns,
    the regular-expression engine, the clock, double rounding) as the
    interface [Host]. *)

From Stdlib Require Import String Ascii List ZArith QArith Bool Lia.
From Stdlib Require Import DecimalString.
Import ListNotations.

Open Scope string_scope.
Open Scope Z_scope.

(* ================================================================= *)
(** ** Outcomes: a returned value or a thrown exception *)

Inductive outcome (A : Type) : Type :=
| Ret (a : A)
| Throw.
Arguments Ret {A} a.
Arguments Throw {A}.

Definition obind {A B} (o : outcome A) (k : A -> outcome B) : outcome B :=
  match o with
  | Ret a => k a
  | Throw => Throw
  end.

Declare Scope outcome_scope.
Delimit Scope outcome_scope with outcome.
Notation "x <- c1 ;; c2" := (obind c1 (fun x => c2))
  (at level 61, c1 at next level, right associativity) : outcome_scope.

(** Property access on a possibly [undefined] value: a [TypeError] on
    [undefined]. *)
Definition deref {A} (v : option A) : outcome A :=
  match v with
  | Some a => Ret a
  | None => Throw
  end.

(* ================================================================= *)
(** ** JavaScript numbers, as far as this code uses them: integers and NaN *)

Module Num.

Inductive number : Type :=
| NaN
| Int (z : Z).

Definition add (a b : number) : number :=
  match a, b with
  | Int x, Int y => Int (x + y)
  | _, _ => NaN
  end.

Definition mul (a b : number) : number :=
  match a, b with
  | Int x, Int y => Int (x * y)
  | _, _ => NaN
  end.

(** [a % b]: the remainder has the sign of the dividend; [x % 0] is NaN. *)
Definition rem (a b : number) : number :=
  match a, b with
  | Int x, Int y => if y =? 0 then NaN else Int (Z.rem x y)
  | _, _ => NaN
  end.

(** Comparisons with NaN are false. *)
Definition ltb (a b : number) : bool :=
  match a, b with
  | Int x, Int y => x <? y
  | _, _ => false
  end.

Definition leb (a b : number) : bool :=
  match a, b with
  | Int x, Int y => x <=? y
  | _, _ => false
  end.

Definition gtb (a b : number) : bool := ltb b a.

(** [a === b] on numbers. *)
Definition eqb (a b : number) : bool :=
  match a, b with
  | Int x, Int y => x =? y
  | _, _ => false
  end.

(** A number in a boolean position: 0 and NaN are falsy. *)
Definition truthy (a : number) : bool :=
  match a with
  | Int x => negb (x =? 0)
  | NaN => false
  end.

(** A whole number in decimal digits, which is how a template literal
    prints it up to 10^21; from there on JavaScript prints an exponent. *)
Definition Z_toString (z : Z) : string := NilZero.string_of_int (Z.to_int z).

(** Number to string, as a template literal does it. *)
Definition toString (a : number) : string :=
  match a with
  | Int x => Z_toString x
  | NaN => "NaN"
  end.

End Num.
Import Num.

(* ================================================================= *)
(** ** JavaScript string primitives *)

Module Js.

Definition code (c : ascii) : Z := Z.of_nat (nat_of_ascii c).

Definition inRange (lo hi : Z) (c : ascii) : bool :=
  (lo <=? code c) && (code c <=? hi).

(** [\d] *)
Definition isDigit (c : ascii) : bool := inRange 48 57 c.
(** [[A-Z]] and [[a-z]] *)
Definition isUpper (c : ascii) : bool := inRange 65 90 c.
Definition isLower (c : ascii) : bool := inRange 97 122 c.

(** White space and line terminators among the code units below 256:
    TAB, LF, VT, FF, CR, SP and NBSP. *)
Definition isWhiteSpace (c : ascii) : bool :=
  inRange 9 13 c || (code c =? 32) || (code c =? 160).

(** A string in a boolean position: only the empty string is falsy. *)
Definition truthy (s : string) : bool :=
  match s with
  | EmptyString => false
  | String _ _ => true
  end.

(** [s.substring(a, b)]: indices are clamped to the length and swapped when
    [a > b]. *)
Definition substring (a b : nat) (s : string) : string :=
  String.substring (Nat.min a b) (Nat.max a b - Nat.min a b) s.

(** [s.substring(a)] *)
Definition substringFrom (a : nat) (s : string) : string :=
  String.substring a (String.length s - a) s.

(** [s.replace(/<+$/, '')]: the trailing run of fill characters is removed. *)
Fixpoint stripTrailingFill (s : string) : string :=
  match s with
  | EmptyString => EmptyString
  | String c rest =>
      let r := stripTrailingFill rest in
      if Ascii.eqb c "<" && negb (truthy r) then EmptyString else String c r
  end.

(** [s.replace(/</g, ' ')] *)
Fixpoint fillToSpace (s : string) : string :=
  match s with
  | EmptyString => EmptyString
  | String c rest =>
      String (if Ascii.eqb c "<" then " "%char else c) (fillToSpace rest)
  end.

(** [s.split('<<')]: the pieces between successive occurrences of the
    separator, scanning from the left; always at least one piece. *)
Fixpoint splitFill2 (s : string) : list string :=
  match s with
  | EmptyString => [EmptyString]
  | String c rest =>
      let keep :=
        match splitFill2 rest with
        | piece :: pieces => String c piece :: pieces
        | [] => [String c EmptyString]
        end in
      match rest with
      | String c' rest' =>
          if Ascii.eqb c "<" && Ascii.eqb c' "<"
          then EmptyString :: splitFill2 rest'
          else keep
      | EmptyString => keep
      end
  end.

Fixpoint trimStart (s : string) : string :=
  match s with
  | EmptyString => EmptyString
  | String c rest => if isWhiteSpace c then trimStart rest else s
  end.

Fixpoint trimEnd (s : string) : string :=
  match s with
  | EmptyString => EmptyString
  | String c rest =>
      let r := trimEnd rest in
      if isWhiteSpace c && negb (truthy r) then EmptyString else String c r
  end.

(** [s.trim()] *)
Definition trim (s : string) : string := trimEnd (trimStart s).

(** [s.includes(t)] *)
Fixpoint includes (s t : string) : bool :=
  String.prefix t s ||
  match s with
  | EmptyString => false
  | String _ rest => includes rest t
  end.

(** [xs.join(sep)] *)
Fixpoint join (sep : string) (xs : list string) : string :=
  match xs with
  | [] => EmptyString
  | [x] => x
  | x :: rest => x ++ sep ++ join sep rest
  end.

(** *** [parseInt(s)] with no radix argument *)

Definition digitValue (radix : Z) (c : ascii) : option Z :=
  let v :=
    if isDigit c then code c - 48
    else if inRange 97 122 c then code c - 87
    else if inRange 65 90 c then code c - 55
    else 36 in
  if v <? radix then Some v else None.

(** The value of the longest prefix of digits, [None] when it is empty. *)
Fixpoint digitsPrefix (radix : Z) (s : string) (acc : option Z) : option Z :=
  match s with
  | EmptyString => acc
  | String c rest =>
      match digitValue radix c with
      | Some v =>
          digitsPrefix radix rest
            (Some (match acc with Some a => a * radix + v | None => v end))
      | None => acc
      end
  end.

Definition parseInt (input : string) : number :=
  let s := trimStart input in
  let '(sign, s) :=
    match s with
    | String "-" rest => (-1, rest)
    | String "+" rest => (1, rest)
    | _ => (1, s)
    end in
  let '(radix, s) :=
    match s with
    | String "0" (String x rest) =>
        if Ascii.eqb x "x" || Ascii.eqb x "X" then (16, rest) else (10, s)
    | _ => (10, s)
    end in
  match digitsPrefix radix s None with
  | Some v => Int (sign * v)
  | None => NaN
  end.

End Js.

(* ================================================================= *)
(** ** Records of [types/document] *)

Record ExtractedField : Type := mkField {
  value : string;
  confidence : Z
}.

Record MRZData : Type := mkMRZ {
  mrz_documentType : ExtractedField;
  mrz_issuingCountry : ExtractedField;
  mrz_lastName : ExtractedField;
  mrz_firstName : ExtractedField;
  mrz_documentNumber : ExtractedField;
  mrz_nationality : ExtractedField;
  mrz_dateOfBirth : ExtractedField;
  mrz_sex : ExtractedField;
  mrz_expiryDate : ExtractedField;
  mrz_personalNumber : ExtractedField;
  checksumValid : bool
}.

(* ================================================================= *)
(** ** What the sources import from outside the repository *)

(** A JavaScript [Date]: a time value in milliseconds, or Invalid Date. *)
Inductive Date : Type :=
| InvalidDate
| Instant (ms : Z).

(** A regular-expression literal, kept as its source text and flags. *)
Record RegExp : Type := mkRegExp {
  source : string;
  flags : string
}.

(** The date-fns functions the validator calls, the clock behind
    [new Date()], [String.prototype.match], and [Math.round(x * 100)] on
    doubles.  The validator calls date-fns inside [try] blocks, so each of
    its functions is given an outcome: it may return or throw.  date-fns
    itself reports a string it cannot parse by returning Invalid Date, on
    which [isBefore] is false and the differences are NaN. *)
Class Host : Type := {
  parseISO : string -> outcome Date;
  isBefore : Date -> Date -> outcome bool;
  differenceInMonths : Date -> Date -> outcome number;
  differenceInYears : Date -> Date -> outcome number;
  newDate : Date;
  regexMatch : string -> RegExp -> option (list (option string));
  roundTimes100 : Q -> Z
}.

(* ================================================================= *)
(** ** [lib/mrz-parser] *)

Module MrzParser.

Definition weights : list number := [Int 7; Int 3; Int 1].

(** The body of the [for] loop of [calculateCheckDigit], from index [i] with
    the running [sum]. *)
Fixpoint checkDigitLoop (input : string) (i : nat) (sum : number) : number :=
  match input with
  | EmptyString => sum
  | String c rest =>
      let value :=
        if Ascii.eqb c "<" then Int 0
        else if Js.isDigit c then Js.parseInt (String c EmptyString)
        else Int (Js.code c - 55) in
      checkDigitLoop rest (S i)
        (Num.add sum (Num.mul value (nth (i mod 3) weights NaN)))
  end.

Definition calculateCheckDigit (input : string) : number :=
  Num.rem (checkDigitLoop input 0 (Int 0)) (Int 10).

Definition validateCheckDigit (data checkDigit : string) : bool :=
  let calculated := calculateCheckDigit data in
  Num.eqb calculated (Js.parseInt checkDigit).

Definition parseDate (dateStr : string) : string :=
  if negb (String.length dateStr =? 6)%nat then EmptyString
  else
    let year := Js.parseInt (Js.substring 0 2 dateStr) in
    let month := Js.substring 2 4 dateStr in
    let day := Js.substring 4 6 dateStr in
    let fullYear :=
      if Num.leb year (Int 40) then Num.add (Int 2000) year
      else Num.add (Int 1900) year in
    Num.toString fullYear ++ "-" ++ month ++ "-" ++ day.

(** [namePart[1]?.replace(/</g, ' ').trim() || ''] *)
Definition givenNames (namePart : list string) : string :=
  match nth_error namePart 1 with
  | Some p => Js.trim (Js.fillToSpace p)
  | None => EmptyString
  end.

Definition surname (namePart : list string) : string :=
  match nth_error namePart 0 with
  | Some p => Js.trim (Js.fillToSpace p)
  | None => EmptyString
  end.

Definition parseTD3 (line1 line2 : string) : MRZData :=
  let documentType := Js.stripTrailingFill (Js.substring 0 2 line1) in
  let issuingCountry := Js.stripTrailingFill (Js.substring 2 5 line1) in
  let namePart := Js.splitFill2 (Js.substringFrom 5 line1) in
  let lastName := surname namePart in
  let firstName := givenNames namePart in
  let documentNumber := Js.stripTrailingFill (Js.substring 0 9 line2) in
  let documentNumberCheck := Js.substring 9 10 line2 in
  let nationality := Js.stripTrailingFill (Js.substring 10 13 line2) in
  let dob := Js.substring 13 19 line2 in
  let dobCheck := Js.substring 19 20 line2 in
  let sex := Js.substring 20 21 line2 in
  let expiry := Js.substring 21 27 line2 in
  let expiryCheck := Js.substring 27 28 line2 in
  let personalNumber := Js.stripTrailingFill (Js.substring 28 42 line2) in
  let checksumValid :=
    validateCheckDigit documentNumber documentNumberCheck &&
    validateCheckDigit dob dobCheck &&
    validateCheckDigit expiry expiryCheck in
  let confidence := if checksumValid then 95 else 70 in
  {| mrz_documentType := mkField documentType confidence;
     mrz_issuingCountry := mkField issuingCountry confidence;
     mrz_lastName := mkField lastName confidence;
     mrz_firstName := mkField firstName confidence;
     mrz_documentNumber := mkField documentNumber confidence;
     mrz_nationality := mkField nationality confidence;
     mrz_dateOfBirth := mkField (parseDate dob) confidence;
     mrz_sex := mkField sex confidence;
     mrz_expiryDate := mkField (parseDate expiry) confidence;
     mrz_personalNumber :=
       mkField personalNumber
         (if Js.truthy personalNumber then confidence else 0);
     checksumValid := checksumValid |}.

Definition parseTD1 (line1 line2 line3 : string) : MRZData :=
  let documentType := Js.stripTrailingFill (Js.substring 0 2 line1) in
  let issuingCountry := Js.stripTrailingFill (Js.substring 2 5 line1) in
  let documentNumber := Js.stripTrailingFill (Js.substring 5 14 line1) in
  let documentNumberCheck := Js.substring 14 15 line1 in
  let dob := Js.substring 0 6 line2 in
  let dobCheck := Js.substring 6 7 line2 in
  let sex := Js.substring 7 8 line2 in
  let expiry := Js.substring 8 14 line2 in
  let expiryCheck := Js.substring 14 15 line2 in
  let nationality := Js.stripTrailingFill (Js.substring 15 18 line2) in
  let namePart := Js.splitFill2 line3 in
  let lastName := surname namePart in
  let firstName := givenNames namePart in
  let checksumValid :=
    validateCheckDigit documentNumber documentNumberCheck &&
    validateCheckDigit dob dobCheck &&
    validateCheckDigit expiry expiryCheck in
  let confidence := if checksumValid then 95 else 70 in
  {| mrz_documentType := mkField documentType confidence;
     mrz_issuingCountry := mkField issuingCountry confidence;
     mrz_lastName := mkField lastName confidence;
     mrz_firstName := mkField firstName confidence;
     mrz_documentNumber := mkField documentNumber confidence;
     mrz_nationality := mkField nationality confidence;
     mrz_dateOfBirth := mkField (parseDate dob) confidence;
     mrz_sex := mkField sex confidence;
     mrz_expiryDate := mkField (parseDate expiry) confidence;
     mrz_personalNumber := mkField EmptyString 0;
     checksumValid := checksumValid |}.

(** [line.length] of an array element that may be [undefined]. *)
Definition lengthOf (line : option string) : outcome nat :=
  (s <- deref line ;; Ret (String.length s))%outcome.

(** [parseMRZ], with the two layout decoders it dispatches to as arguments:
    [mrzLines[i]] is [undefined] past the end of the array, and reading
    [.length] (or calling a method) of [undefined] throws. *)
Definition parseMRZ_with {R : Type}
    (td3 : string -> string -> R) (td1 : string -> string -> string -> R)
    (mrzLines : list string) : outcome (option R) :=
  if (List.length mrzLines <? 2)%nat then Ret None
  else
    let line1 := nth_error mrzLines 0 in
    let line2 := nth_error mrzLines 1 in
    (n1 <- lengthOf line1 ;;
     isTD3 <- (if (n1 =? 44)%nat
               then (n2 <- lengthOf line2 ;; Ret (n2 =? 44)%nat)
               else Ret false) ;;
     if isTD3 : bool then
       (a <- deref line1 ;;
        b <- deref line2 ;;
        Ret (Some (td3 a b)))
     else if (List.length mrzLines =? 3)%nat && (n1 =? 30)%nat then
       (a <- deref (nth_error mrzLines 0) ;;
        b <- deref (nth_error mrzLines 1) ;;
        c <- deref (nth_error mrzLines 2) ;;
        Ret (Some (td1 a b c)))
     else Ret None)%outcome.

Definition parseMRZ (mrzLines : list string) : outcome (option MRZData) :=
  parseMRZ_with parseTD3 parseTD1 mrzLines.

(** Which layout decoder [parseMRZ] hands the lines to. *)
Inductive Layout : Type := TD3 | TD1.

Definition selectedLayout (mrzLines : list string) : outcome (option Layout) :=
  parseMRZ_with (fun _ _ => TD3) (fun _ _ _ => TD1) mrzLines.

(** [match && match[1]]: the first capture group of a match, when it is a
    non-empty string. *)
Definition capture `{Host} (text : string) (pattern : RegExp) (k : nat)
  : option string :=
  match regexMatch text pattern with
  | Some groups =>
      match nth_error groups k with
      | Some (Some g) => if Js.truthy g then Some g else None
      | _ => None
      end
  | None => None
  end.

Fixpoint extractFieldFromText `{Host} (text : string) (patterns : list RegExp)
  : ExtractedField :=
  match patterns with
  | [] => mkField EmptyString 0
  | pattern :: rest =>
      match capture text pattern 1 with
      | Some g => mkField (Js.trim g) 75
      | None => extractFieldFromText text rest
      end
  end.

End MrzParser.

(* ================================================================= *)
(** ** The remaining records of [types/document] *)

Record ExtractedDocument : Type := mkDoc {
  documentType : ExtractedField;
  documentNumber : ExtractedField;
  issuingCountry : ExtractedField;
  firstName : ExtractedField;
  lastName : ExtractedField;
  dateOfBirth : ExtractedField;
  nationality : ExtractedField;
  sex : ExtractedField;
  issueDate : ExtractedField;
  expiryDate : ExtractedField;
  placeOfBirth : option ExtractedField;
  mrzData : option MRZData
}.

Inductive Status : Type := st_pass | st_fail | st_warning.

Record ValidationCheck : Type := mkCheck {
  field : string;
  status : Status;
  message : string;
  checkConfidence : Z
}.

Record ApplicantData : Type := mkApplicant {
  applicantName : string;
  applicantDateOfBirth : string;
  passportNumber : string;
  applicantNationality : string;
  visaType : string
}.

(** The policies whose numbers are whole; a policy with a fractional
    bound is not among them. *)
Record EligibilityPolicy : Type := mkPolicy {
  minPassportValidity : Z;
  allowedNationalities : option (list string);
  blockedNationalities : option (list string);
  minAge : option Z;
  maxAge : option Z;
  requireBiometric : option bool
}.

Record EligibilityResult : Type := mkEligibility {
  eligible : bool;
  reason : string;
  eligibilityConfidence : Z
}.

(* ================================================================= *)
(** ** Statements that append to a local array and may throw *)

Module Eff.

(** A computation over the array being built: its outcome and the array as
    it stands afterwards (what was pushed before a throw stays pushed). *)
Definition M (S A : Type) : Type := list S -> outcome A * list S.

Definition ret {S A} (a : A) : M S A := fun s => (Ret a, s).

Definition bind {S A B} (m : M S A) (k : A -> M S B) : M S B :=
  fun s =>
    match m s with
    | (Ret a, s') => k a s'
    | (Throw, s') => (Throw, s')
    end.

Definition call {S A} (o : outcome A) : M S A := fun s => (o, s).

Definition push {S} (x : S) : M S unit := fun s => (Ret tt, (s ++ [x])%list).

Definition pushAll {S} (xs : list S) : M S unit := fun s => (Ret tt, (s ++ xs)%list).

Definition when {S} (b : bool) (m : M S unit) : M S unit :=
  if b then m else ret tt.

(** [try { body } catch (e) { handler }] *)
Definition tryCatch {S} (body handler : M S unit) : M S unit :=
  fun s =>
    match body s with
    | (Ret a, s') => (Ret a, s')
    | (Throw, s') => handler s'
    end.

(** Run from the empty array; the array is the result unless an exception
    escaped. *)
Definition collect {S} (m : M S unit) : outcome (list S) :=
  match m [] with
  | (Ret _, s) => Ret s
  | (Throw, _) => Throw
  end.

End Eff.

Declare Scope eff_scope.
Delimit Scope eff_scope with eff.
Notation "x <- c1 ;; c2" := (Eff.bind c1 (fun x => c2))
  (at level 61, c1 at next level, right associativity) : eff_scope.
Notation "c1 ;; c2" := (Eff.bind c1 (fun _ => c2))
  (at level 61, right associativity) : eff_scope.

(* ================================================================= *)
(** ** [lib/validator] *)

Module Validator.
Import Eff.

(** [/^[A-Z0-9]{6,12}$/.test(s)] *)
Definition isDocumentNumber (s : string) : bool :=
  forallb (fun c => Js.isUpper c || Js.isDigit c) (list_ascii_of_string s)
  && (6 <=? String.length s)%nat && (String.length s <=? 12)%nat.

(** [/^[A-Z]{3}$/.test(s)] *)
Definition isNationalityCode (s : string) : bool :=
  forallb Js.isUpper (list_ascii_of_string s) && (String.length s =? 3)%nat.

(** [s.toLowerCase()] on code units below 256. *)
Definition toLowerCase (s : string) : string :=
  string_of_list_ascii
    (map (fun c =>
            if Js.isUpper c
               || (Js.inRange 192 222 c && negb (Js.code c =? 215))
            then ascii_of_nat (nat_of_ascii c + 32) else c)
         (list_ascii_of_string s)).

(** [s.toLowerCase().replace(/[^a-z]/g, '')] *)
Definition normalize (s : string) : string :=
  string_of_list_ascii (filter Js.isLower (list_ascii_of_string (toLowerCase s))).

(** The loop of [compareStrings]: positions below [shorter.length] where the
    two strings agree. *)
Fixpoint countMatches (longer shorter : string) : nat :=
  match shorter, longer with
  | String c s', String d l' =>
      ((if Ascii.eqb d c then 1 else 0) + countMatches l' s')%nat
  | _, _ => 0%nat
  end.

Definition compareStrings (a b : string) : Q :=
  let str1 := normalize a in
  let str2 := normalize b in
  if String.eqb str1 str2 then 1%Q
  else
    let longer :=
      if (String.length str2 <? String.length str1)%nat then str1 else str2 in
    let shorter :=
      if (String.length str2 <? String.length str1)%nat then str2 else str1 in
    if Js.includes longer shorter then (9 # 10)%Q
    else
      let matches := countMatches longer shorter in
      (Z.of_nat matches # Pos.of_nat (String.length longer))%Q.

(** [similarity > 0.8] *)
Definition above08 (similarity : Q) : bool := negb (Qle_bool similarity (8 # 10)).

Section WithHost.
Context `{Host}.

Definition validateMRZConsistency (doc : ExtractedDocument)
  : M ValidationCheck unit :=
  match mrzData doc with
  | None => ret tt
  | Some mrz =>
      (push {| field := "mrzChecksum";
               status := if checksumValid mrz then st_pass else st_fail;
               message := if checksumValid mrz then "MRZ checksums valid"
                          else "MRZ checksums failed";
               checkConfidence := if checksumValid mrz then 95 else 60 |} ;;
       when (Js.truthy (value (documentNumber doc))
             && Js.truthy (value (mrz_documentNumber mrz)))
         (let matches :=
            String.eqb (value (documentNumber doc))
                       (value (mrz_documentNumber mrz)) in
          push {| field := "documentNumberMatch";
                  status := if matches then st_pass else st_fail;
                  message := if matches then "Document number matches MRZ"
                             else "Document number does not match MRZ";
                  checkConfidence := 90 |}) ;;
       when (Js.truthy (value (lastName doc))
             && Js.truthy (value (mrz_lastName mrz)))
         (let similarity :=
            compareStrings (value (lastName doc)) (value (mrz_lastName mrz)) in
          push {| field := "nameMatch";
                  status := if above08 similarity then st_pass else st_warning;
                  message := if above08 similarity then "Names match MRZ"
                             else "Name mismatch with MRZ";
                  checkConfidence := roundTimes100 similarity |}))%eff
  end.

Definition checkDocumentNumber (doc : ExtractedDocument)
  : M ValidationCheck unit :=
  when (Js.truthy (value (documentNumber doc)))
    (let isValid := isDocumentNumber (value (documentNumber doc)) in
     push {| field := "documentNumber";
             status := if isValid then st_pass else st_fail;
             message := if isValid then "Document number format valid"
                        else "Invalid document number format";
             checkConfidence := confidence (documentNumber doc) |}).

Definition checkExpiryDate (doc : ExtractedDocument)
  : M ValidationCheck unit :=
  when (Js.truthy (value (expiryDate doc)))
    (tryCatch
       (expiry <- call (parseISO (value (expiryDate doc))) ;;
        let now := newDate in
        isExpired <- call (isBefore expiry now) ;;
        push {| field := "expiryDate";
                status := if isExpired : bool then st_fail else st_pass;
                message := if isExpired then "Document has expired"
                           else "Document is valid";
                checkConfidence := confidence (expiryDate doc) |} ;;
        monthsUntilExpiry <- call (differenceInMonths expiry now) ;;
        when (negb isExpired && Num.ltb monthsUntilExpiry (Int 6))
          (push {| field := "expiryDate";
                   status := st_warning;
                   message := "Document expires in "
                              ++ Num.toString monthsUntilExpiry ++ " months";
                   checkConfidence := confidence (expiryDate doc) |}))
       (push {| field := "expiryDate";
                status := st_fail;
                message := "Invalid expiry date format";
                checkConfidence := 50 |}))%eff.

Definition checkDateOfBirth (doc : ExtractedDocument)
  : M ValidationCheck unit :=
  when (Js.truthy (value (dateOfBirth doc)))
    (tryCatch
       (dob <- call (parseISO (value (dateOfBirth doc))) ;;
        let now := newDate in
        age <- call (differenceInYears now dob) ;;
        if Num.ltb age (Int 0) || Num.gtb age (Int 120)
        then push {| field := "dateOfBirth";
                     status := st_fail;
                     message := "Date of birth is invalid";
                     checkConfidence := confidence (dateOfBirth doc) |}
        else push {| field := "dateOfBirth";
                     status := st_pass;
                     message := "Age: " ++ Num.toString age ++ " years";
                     checkConfidence := confidence (dateOfBirth doc) |})
       (push {| field := "dateOfBirth";
                status := st_fail;
                message := "Invalid date of birth format";
                checkConfidence := 50 |}))%eff.

Definition checkName (doc : ExtractedDocument) : M ValidationCheck unit :=
  when (Js.truthy (value (firstName doc)) && Js.truthy (value (lastName doc)))
    (let hasValidNames :=
       (1 <? String.length (value (firstName doc)))%nat
       && (1 <? String.length (value (lastName doc)))%nat in
     push {| field := "name";
             status := if hasValidNames then st_pass else st_warning;
             message := if hasValidNames then "Name fields extracted"
                        else "Name fields may be incomplete";
             checkConfidence :=
               Z.min (confidence (firstName doc)) (confidence (lastName doc)) |}).

Definition checkNationality (doc : ExtractedDocument)
  : M ValidationCheck unit :=
  when (Js.truthy (value (nationality doc)))
    (let isValid := isNationalityCode (value (nationality doc)) in
     push {| field := "nationality";
             status := if isValid then st_pass else st_warning;
             message := if isValid then "Nationality code valid"
                        else "Nationality code format unusual";
             checkConfidence := confidence (nationality doc) |}).

(** The MRZ block: [validateMRZConsistency] builds its own array, which is
    then spread onto [checks]. *)
Definition checkMRZ (doc : ExtractedDocument) : M ValidationCheck unit :=
  match mrzData doc with
  | Some _ =>
      (mrzChecks <- call (collect (validateMRZConsistency doc)) ;;
       pushAll mrzChecks)%eff
  | None => ret tt
  end.

Definition validateDocument (doc : ExtractedDocument)
  : outcome (list ValidationCheck) :=
  collect
    (checkDocumentNumber doc ;;
     checkExpiryDate doc ;;
     checkDateOfBirth doc ;;
     checkName doc ;;
     checkNationality doc ;;
     checkMRZ doc)%eff.

(** [xs.includes(x)] on an array of strings. *)
Definition arrayIncludes (xs : list string) (x : string) : bool :=
  existsb (String.eqb x) xs.

(** An optional number in a boolean position. *)
Definition configured (bound : option Z) : bool :=
  match bound with
  | Some z => Num.truthy (Int z)
  | None => false
  end.

Definition boundOf (bound : option Z) : number :=
  match bound with
  | Some z => Int z
  | None => NaN
  end.

Definition boundText (bound : option Z) : string :=
  match bound with
  | Some z => Num.Z_toString z
  | None => "undefined"
  end.

Definition issuePassportValidity (doc : ExtractedDocument)
    (policy : EligibilityPolicy) : M string unit :=
  when (Js.truthy (value (expiryDate doc)))
    (tryCatch
       (expiry <- call (parseISO (value (expiryDate doc))) ;;
        let now := newDate in
        monthsValid <- call (differenceInMonths expiry now) ;;
        when (Num.ltb monthsValid (Int (minPassportValidity policy)))
          (push ("Passport must be valid for at least "
                 ++ Num.Z_toString (minPassportValidity policy) ++ " months")))
       (push "Cannot verify passport validity period"))%eff.

Definition nationalityIssue (doc : ExtractedDocument)
    (applicant : ApplicantData) : string :=
  "Nationality " ++ value (nationality doc)
  ++ " is not eligible for " ++ visaType applicant.

Definition issueAllowedNationality (doc : ExtractedDocument)
    (applicant : ApplicantData) (policy : EligibilityPolicy) : M string unit :=
  match allowedNationalities policy with
  | Some allowed =>
      when (0 <? List.length allowed)%nat
        (when (negb (arrayIncludes allowed (value (nationality doc))))
           (push (nationalityIssue doc applicant)))
  | None => ret tt
  end.

Definition issueBlockedNationality (doc : ExtractedDocument)
    (applicant : ApplicantData) (policy : EligibilityPolicy) : M string unit :=
  match blockedNationalities policy with
  | Some blocked =>
      when (arrayIncludes blocked (value (nationality doc)))
        (push (nationalityIssue doc applicant))
  | None => ret tt
  end.

Definition issueAge (doc : ExtractedDocument) (policy : EligibilityPolicy)
  : M string unit :=
  when (Js.truthy (value (dateOfBirth doc)))
    (tryCatch
       (dob <- call (parseISO (value (dateOfBirth doc))) ;;
        age <- call (differenceInYears newDate dob) ;;
        when (configured (minAge policy)
              && Num.ltb age (boundOf (minAge policy)))
          (push ("Applicant must be at least "
                 ++ boundText (minAge policy) ++ " years old")) ;;
        when (configured (maxAge policy)
              && Num.gtb age (boundOf (maxAge policy)))
          (push ("Applicant must be under "
                 ++ boundText (maxAge policy) ++ " years old")))
       (push "Cannot verify age requirements"))%eff.

Definition issuePassportNumber (doc : ExtractedDocument)
    (applicant : ApplicantData) : M string unit :=
  when (Js.truthy (passportNumber applicant)
        && Js.truthy (value (documentNumber doc)))
    (when (negb (String.eqb (passportNumber applicant)
                            (value (documentNumber doc))))
       (push "Passport number does not match application")).

(** The [issues] array of [checkEligibility] as it stands before the result
    is built. *)
Definition eligibilityIssues (doc : ExtractedDocument)
    (applicant : ApplicantData) (policy : EligibilityPolicy)
  : outcome (list string) :=
  collect
    (issuePassportValidity doc policy ;;
     issueAllowedNationality doc applicant policy ;;
     issueBlockedNationality doc applicant policy ;;
     issueAge doc policy ;;
     issuePassportNumber doc applicant)%eff.

Definition checkEligibility (doc : ExtractedDocument)
    (applicant : ApplicantData) (policy : EligibilityPolicy)
  : outcome EligibilityResult :=
  (issues <- eligibilityIssues doc applicant policy ;;
   let eligible := (List.length issues =? 0)%nat in
   let confidence := if eligible then 95 else 85 in
   Ret {| eligible := eligible;
          reason := if eligible then "All eligibility requirements met"
                    else Js.join "; " issues;
          eligibilityConfidence := confidence |})%outcome.

End WithHost.

Definition isFail (c : ValidationCheck) : bool :=
  match status c with st_fail => true | _ => false end.

Definition isWarning (c : ValidationCheck) : bool :=
  match status c with st_warning => true | _ => false end.

Definition addressLine (f : ValidationCheck) : string :=
  "- Address " ++ field f ++ ": " ++ message f.

Definition reviewLine (w : ValidationCheck) : string :=
  "- Review " ++ field w ++ ": " ++ message w.

Definition generateRecommendations (validationChecks : list ValidationCheck)
    (eligibility : EligibilityResult) (overallConfidence : Z) : list string :=
  let failures := filter isFail validationChecks in
  let warnings := filter isWarning validationChecks in
  if (0 <? List.length failures)%nat then
    "REJECT: Critical validation failures detected" :: map addressLine failures
  else if negb (eligible eligibility) then
    ["REJECT: Applicant does not meet eligibility requirements";
     "- " ++ reason eligibility]
  else if overallConfidence <? 70 then
    ["MANUAL REVIEW: Low confidence in document extraction";
     "- Request higher quality document scan";
     "- Verify extracted information manually"]
  else if (0 <? List.length warnings)%nat then
    "MANUAL REVIEW: Warnings detected" :: map reviewLine warnings
  else if 90 <=? overallConfidence then
    ["APPROVE: All checks passed with high confidence";
     "- Proceed with visa application processing"]
  else
    ["MANUAL REVIEW: Standard verification recommended";
     "- Verify key details before approval"].

(** [s || fallback] on strings. *)
Definition orDefault (s fallback : string) : string :=
  if Js.truthy s then s else fallback.

Definition countText (n : nat) : string := Num.Z_toString (Z.of_nat n).

Definition generateSummary (doc : ExtractedDocument)
    (validationChecks : list ValidationCheck) (eligibility : EligibilityResult)
  : string :=
  let docType := orDefault (value (documentType doc)) "Document" in
  let name :=
    orDefault (Js.trim (value (firstName doc) ++ " " ++ value (lastName doc)))
              "Unknown" in
  let nationality := orDefault (value (nationality doc)) "Unknown" in
  let failures := List.length (filter isFail validationChecks) in
  let warnings := List.length (filter isWarning validationChecks) in
  let summary := docType ++ " for " ++ name ++ " (" ++ nationality ++ "). " in
  let summary :=
    if (0 <? failures)%nat
    then summary ++ countText failures ++ " validation failure(s) detected. "
    else summary in
  let summary :=
    if (0 <? warnings)%nat
    then summary ++ countText warnings ++ " warning(s) noted. "
    else summary in
  let summary :=
    if (failures =? 0)%nat && (warnings =? 0)%nat
    then summary ++ "All validation checks passed. "
    else summary in
  if eligible eligibility
  then summary ++ "Applicant is eligible for visa application."
  else summary ++ "Visa eligibility: NOT ELIGIBLE. " ++ reason eligibility.

End Validator.

(* ================================================================= *)
(** ** [lib/ocr] and [lib/document-analyzer] *)

Module Analyzer.
Import MrzParser.

(** [text.split('\n')] *)
Fixpoint splitLines (text : string) : list string :=
  match text with
  | EmptyString => [EmptyString]
  | String c rest =>
      if Ascii.eqb c "010" then EmptyString :: splitLines rest
      else
        match splitLines rest with
        | line :: lines => String c line :: lines
        | [] => [String c EmptyString]
        end
  end.

(** [[A-Z0-9<]] *)
Definition isMrzChar (c : ascii) : bool :=
  Js.isUpper c || Js.isDigit c || Ascii.eqb c "<".

(** [line.trim().replace(/[^A-Z0-9<]/g, '')] *)
Definition cleanLine (line : string) : string :=
  string_of_list_ascii (filter isMrzChar (list_ascii_of_string (Js.trim line))).

(** [/^[A-Z0-9<]{30,}$/.test(s)] *)
Definition mrzPattern (s : string) : bool :=
  forallb isMrzChar (list_ascii_of_string s) && (30 <=? String.length s)%nat.

Definition extractMRZ (text : string) : list string :=
  filter (fun cleaned => mrzPattern cleaned && (30 <=? String.length cleaned)%nat)
         (map cleanLine (splitLines text)).

(** [s.toUpperCase()] on code units below 256; the two letters whose upper
    case lies above 255 are left as they are, which no comparison with an
    ASCII word can tell apart. *)
Definition toUpperCase (s : string) : string :=
  string_of_list_ascii
    (flat_map (fun c =>
                 if Js.isLower c
                    || (Js.inRange 224 254 c && negb (Js.code c =? 247))
                 then [ascii_of_nat (nat_of_ascii c - 32)]
                 else if Js.code c =? 223 then ["S"%char; "S"%char]
                 else [c])
              (list_ascii_of_string s)).

Definition extractDocumentType (text : string) : ExtractedField :=
  let upperText := toUpperCase text in
  if Js.includes upperText "PASSPORT" then mkField "P" 85
  else if Js.includes upperText "IDENTITY CARD" || Js.includes upperText "ID CARD"
  then mkField "ID" 85
  else if Js.includes upperText "VISA" then mkField "V" 85
  else if Js.includes upperText "DRIVING"
          && (Js.includes upperText "LICENSE" || Js.includes upperText "LICENCE")
  then mkField "DL" 85
  else mkField "UNKNOWN" 40.

(** [s.padStart(2, '0')] *)
Definition padStart2 (s : string) : string :=
  match String.length s with
  | 0%nat => "00"
  | 1%nat => "0" ++ s
  | _ => s
  end.

(** A capture group inside a template literal. *)
Definition interpolate (g : option string) : string :=
  match g with
  | Some s => s
  | None => "undefined"
  end.

Section WithHost.
Context `{Host}.

Definition group (groups : list (option string)) (k : nat) : option string :=
  match nth_error groups k with
  | Some g => g
  | None => None
  end.

Definition dateFormats : list RegExp :=
  [ mkRegExp "^(\d{2})[\/\-](\d{2})[\/\-](\d{4})$" "";
    mkRegExp "^(\d{4})[\/\-](\d{2})[\/\-](\d{2})$" "";
    mkRegExp "^(\d{1})[\/\-](\d{1,2})[\/\-](\d{4})$" "" ].

(** The loop of [normalizeDateToISO] over the formats from position [i]. *)
Fixpoint normalizeLoop (dateStr : string) (formats : list RegExp) (i : nat)
  : outcome string :=
  match formats with
  | [] => Ret EmptyString
  | format :: rest =>
      match regexMatch dateStr format with
      | Some m =>
          if (i =? 1)%nat then
            (g2 <- deref (group m 2) ;;
             g3 <- deref (group m 3) ;;
             Ret (interpolate (group m 1) ++ "-" ++ padStart2 g2
                  ++ "-" ++ padStart2 g3))%outcome
          else
            (g1 <- deref (group m 1) ;;
             let day := padStart2 g1 in
             g2 <- deref (group m 2) ;;
             let month := padStart2 g2 in
             let year := group m 3 in
             Ret (interpolate year ++ "-" ++ month ++ "-" ++ day))%outcome
      | None => normalizeLoop dateStr rest (S i)
      end
  end.

Definition normalizeDateToISO (dateStr : string) : outcome string :=
  normalizeLoop dateStr dateFormats 0.

Fixpoint extractDateField (text : string) (patterns : list RegExp)
  : outcome ExtractedField :=
  match patterns with
  | [] => Ret (mkField EmptyString 0)
  | pattern :: rest =>
      match capture text pattern 1 with
      | Some g =>
          (normalized <- normalizeDateToISO (Js.trim g) ;;
           if Js.truthy normalized then Ret (mkField normalized 75)
           else extractDateField text rest)%outcome
      | None => extractDateField text rest
      end
  end.

(** [mrzData?.f || fallback]: a field object is truthy whatever it holds. *)
Definition orElse {A} (mrzField : option A) (fallback : A) : A :=
  match mrzField with
  | Some f => f
  | None => fallback
  end.

(** [analyzeDocument] from the point where [performOCR] has resolved to
    [ocrText]. *)
Definition analyzeDocument (ocrText : string) : outcome ExtractedDocument :=
  let mrzLines := extractMRZ ocrText in
  (mrzData <- (if (0 <? List.length mrzLines)%nat then parseMRZ mrzLines
               else Ret None) ;;
   let mrz {A} (f : MRZData -> A) : option A := option_map f mrzData in
   dob <- match mrzData with
          | Some m => Ret (mrz_dateOfBirth m)
          | None =>
              extractDateField ocrText
                [ mkRegExp "(?:date\s*of\s*birth|dob)[:\s]*(\d{1,2}[\/\-]\d{1,2}[\/\-]\d{4})" "i";
                  mkRegExp "(?:date\s*of\s*birth|dob)[:\s]*(\d{4}[\/\-]\d{1,2}[\/\-]\d{1,2})" "i" ]
          end ;;
   issue <- extractDateField ocrText
              [ mkRegExp "(?:date\s*of\s*issue|issue\s*date)[:\s]*(\d{1,2}[\/\-]\d{1,2}[\/\-]\d{4})" "i";
                mkRegExp "(?:date\s*of\s*issue|issue\s*date)[:\s]*(\d{4}[\/\-]\d{1,2}[\/\-]\d{1,2})" "i" ] ;;
   expiry <- match mrzData with
             | Some m => Ret (mrz_expiryDate m)
             | None =>
                 extractDateField ocrText
                   [ mkRegExp "(?:date\s*of\s*expir(?:y|ation)|expir(?:y|ation)\s*date)[:\s]*(\d{1,2}[\/\-]\d{1,2}[\/\-]\d{4})" "i";
                     mkRegExp "(?:date\s*of\s*expir(?:y|ation)|expir(?:y|ation)\s*date)[:\s]*(\d{4}[\/\-]\d{1,2}[\/\-]\d{1,2})" "i" ]
             end ;;
   Ret {| documentType :=
            orElse (mrz mrz_documentType) (extractDocumentType ocrText);
          documentNumber :=
            orElse (mrz mrz_documentNumber)
              (extractFieldFromText ocrText
                 [ mkRegExp "(?:passport|document|card)\s*(?:no|number|#)[:\s]*([A-Z0-9]{6,12})" "i";
                   mkRegExp "\b([A-Z]{1,2}\d{7,9})\b" "" ]);
          issuingCountry :=
            orElse (mrz mrz_issuingCountry)
              (extractFieldFromText ocrText
                 [ mkRegExp "(?:issuing\s*country|country\s*of\s*issue)[:\s]*([A-Z]{2,3})" "i";
                   mkRegExp "\b(USA|GBR|CAN|AUS|IND|CHN|JPN|DEU|FRA|ITA|ESP|BRA)\b" "" ]);
          firstName :=
            orElse (mrz mrz_firstName)
              (extractFieldFromText ocrText
                 [ mkRegExp "(?:given\s*names?|first\s*name)[:\s]*([A-Z\s]+)" "i";
                   mkRegExp "surname[:\s]*[A-Z\s]+[,\s]+([A-Z\s]+)" "i" ]);
          lastName :=
            orElse (mrz mrz_lastName)
              (extractFieldFromText ocrText
                 [ mkRegExp "(?:surname|last\s*name|family\s*name)[:\s]*([A-Z\s]+)" "i";
                   mkRegExp "^([A-Z\s]+),\s*[A-Z]" "m" ]);
          dateOfBirth := dob;
          nationality :=
            orElse (mrz mrz_nationality)
              (extractFieldFromText ocrText
                 [ mkRegExp "nationality[:\s]*([A-Z]{2,3})" "i";
                   mkRegExp "citizen\s*of[:\s]*([A-Z\s]+)" "i" ]);
          sex :=
            orElse (mrz mrz_sex)
              (extractFieldFromText ocrText
                 [ mkRegExp "(?:sex|gender)[:\s]*([MF])" "i" ]);
          issueDate := issue;
          expiryDate := expiry;
          placeOfBirth :=
            Some (extractFieldFromText ocrText
                    [ mkRegExp "(?:place\s*of\s*birth)[:\s]*([A-Z\s,]+)" "i" ]);
          mrzData := mrzData |})%outcome.

End WithHost.

End Analyzer.

(* ================================================================= *)
(** ** [app/api/verify/route] *)

Module Route.
Import Validator Analyzer.

Record VerificationResult : Type := mkResult {
  overallConfidence : Z;
  extractedFields : ExtractedDocument;
  validationChecks : list ValidationCheck;
  eligibility : EligibilityResult;
  recommendedActions : list string;
  summary : string
}.

(** [Math.round(scores.reduce((a, b) => a + b, 0) / scores.length)] on a
    non-empty array of integers: the quotient rounded to the nearest
    integer, a half rounded up.  (On integers of the size of a confidence
    the double quotient rounds as the exact one does.) *)
Definition roundedMean (scores : list Z) : Z :=
  let total := fold_left Z.add scores 0 in
  let n := Z.of_nat (List.length scores) in
  (2 * total + n) / (2 * n).

(** The overall confidence the handler computes from the document. *)
Definition overallConfidenceOf (extractedDoc : ExtractedDocument) : Z :=
  let confidenceScores :=
    filter (fun c => 0 <? c)
      [ confidence (documentNumber extractedDoc);
        confidence (firstName extractedDoc);
        confidence (lastName extractedDoc);
        confidence (dateOfBirth extractedDoc);
        confidence (expiryDate extractedDoc);
        confidence (nationality extractedDoc) ] in
  if (0 <? List.length confidenceScores)%nat
  then roundedMean confidenceScores
  else 50.

(** A member of the request body as [request.json()] delivers it.  The
    handler tests it for truth and hands it to [checkEligibility] under an
    [as] cast, without validating it. *)
Inductive Received (A : Type) : Type :=
| Missing : Received A          (* absent, [null] or another falsy value *)
| Typed (a : A) : Received A    (* an object of the declared type, its
                                   numbers whole *)
| Untyped : Received A.         (* any other truthy value *)

Arguments Missing {A}.
Arguments Typed {A} a.
Arguments Untyped {A}.

(** The body leads to no call of [checkEligibility] on a value that is not
    of its declared type. *)
Definition declaredShape {A B} (a : Received A) (b : Received B) : bool :=
  match a, b with
  | Missing, _ | _, Missing => true
  | Typed _, Typed _ => true
  | _, _ => false
  end.

(** The [POST] handler from the point where the image has been read to
    [ocrText] until the response body is built; a thrown exception is what
    the handler answers with status 500.  [unchecked] is what
    [checkEligibility] does with the document when a truthy member of the
    body is not of its declared type: it returns a result or throws (a
    [blockedNationalities] that has no [includes], for one). *)
Definition POST `{Host}
    (unchecked : ExtractedDocument -> outcome EligibilityResult)
    (ocrText : string)
    (applicantData : Received ApplicantData)
    (eligibilityPolicy : Received EligibilityPolicy)
  : outcome VerificationResult :=
  (extractedDoc <- analyzeDocument ocrText ;;
   validationChecks <- validateDocument extractedDoc ;;
   eligibility <-
     match applicantData, eligibilityPolicy with
     | Missing, _ | _, Missing =>
         Ret {| eligible := true;
                reason := "No eligibility policy provided";
                eligibilityConfidence := 100 |}
     | Typed applicant, Typed policy =>
         checkEligibility extractedDoc applicant policy
     | _, _ => unchecked extractedDoc
     end ;;
   let overallConfidence := overallConfidenceOf extractedDoc in
   let summary := generateSummary extractedDoc validationChecks eligibility in
   let recommendedActions :=
     generateRecommendations validationChecks eligibility overallConfidence in
   Ret {| overallConfidence := overallConfidence;
          extractedFields := extractedDoc;
          validationChecks := validationChecks;
          eligibility := eligibility;
          recommendedActions := recommendedActions;
          summary := summary |})%outcome.

End Route.

(* ================================================================= *)
(** ** A reference host, to run the model on concrete inputs

    Calendar dates [YYYY-MM-DD] at UTC midnight; anything else parses to
    Invalid Date, as date-fns does (it reports failure through the value,
    not by throwing).  Differences are whole months and years, truncated
    toward zero, NaN on an invalid date.  The pattern engine is an argument;
    rounding is exact. *)

Module RefHost.

Definition msPerDay : Z := 86400000.

(** Days since 1970-01-01 of a date of the proleptic Gregorian calendar. *)
Definition daysFromCivil (y m d : Z) : Z :=
  let y' := if m <=? 2 then y - 1 else y in
  let era := y' / 400 in
  let yoe := y' - era * 400 in
  let doy := (153 * (if 2 <? m then m - 3 else m + 9) + 2) / 5 + d - 1 in
  let doe := yoe * 365 + yoe / 4 - yoe / 100 + doy in
  era * 146097 + doe - 719468.

Definition civilFromDays (days : Z) : Z * Z * Z :=
  let z := days + 719468 in
  let era := z / 146097 in
  let doe := z - era * 146097 in
  let yoe := (doe - doe / 1460 + doe / 36524 - doe / 146096) / 365 in
  let doy := doe - (365 * yoe + yoe / 4 - yoe / 100) in
  let mp := (5 * doy + 2) / 153 in
  let d := doy - (153 * mp + 2) / 5 + 1 in
  let m := if mp <? 10 then mp + 3 else mp - 9 in
  ((if m <=? 2 then yoe + era * 400 + 1 else yoe + era * 400), m, d).

Definition isLeap (y : Z) : bool :=
  ((y mod 4 =? 0) && negb (y mod 100 =? 0)) || (y mod 400 =? 0).

Definition daysInMonth (y m : Z) : Z :=
  if m =? 2 then (if isLeap y then 29 else 28)
  else if (m =? 4) || (m =? 6) || (m =? 9) || (m =? 11) then 30
  else 31.

Definition digits (s : string) : option Z :=
  if forallb Js.isDigit (list_ascii_of_string s)
  then Js.digitsPrefix 10 s None else None.

Definition parseCalendarDate (s : string) : Date :=
  if negb (String.length s =? 10)%nat then InvalidDate
  else if negb (String.eqb (Js.substring 4 5 s) "-"
                && String.eqb (Js.substring 7 8 s) "-") then InvalidDate
  else
    match digits (Js.substring 0 4 s), digits (Js.substring 5 7 s),
          digits (Js.substring 8 10 s) with
    | Some y, Some m, Some d =>
        if (1 <=? m) && (m <=? 12) && (1 <=? d) && (d <=? daysInMonth y m)
        then Instant (daysFromCivil y m d * msPerDay)
        else InvalidDate
    | _, _, _ => InvalidDate
    end.

Definition before (a b : Date) : bool :=
  match a, b with
  | Instant x, Instant y => x <? y
  | _, _ => false
  end.

(** Whole units ([perYear] to the year: 12 for months, 1 for years) between
    two instants, truncated toward zero. *)
Definition wholeUnits (perYear : Z) (a b : Z) : Z :=
  let '(ya, ma, da) := civilFromDays (a / msPerDay) in
  let '(yb, mb, db) := civilFromDays (b / msPerDay) in
  let monthsA := ya * 12 + (ma - 1) in
  let monthsB := yb * 12 + (mb - 1) in
  let step := 12 / perYear in
  let restA := (monthsA mod step) * 32 * msPerDay + da * msPerDay + a mod msPerDay in
  let restB := (monthsB mod step) * 32 * msPerDay + db * msPerDay + b mod msPerDay in
  let diff := monthsA / step - monthsB / step in
  if (0 <? diff) && (restA <? restB) then diff - 1
  else if (diff <? 0) && (restB <? restA) then diff + 1
  else diff.

Definition difference (perYear : Z) (a b : Date) : number :=
  match a, b with
  | Instant x, Instant y => Int (wholeUnits perYear x y)
  | _, _ => NaN
  end.

(** [Math.round(x * 100)] on an exact rational. *)
Definition roundPercent (x : Q) : Z :=
  (2 * 100 * Qnum x + Z.pos (Qden x)) / (2 * Z.pos (Qden x)).

(** An engine that finds no match: free-text extraction comes back empty. *)
Definition noMatch (text : string) (pattern : RegExp)
  : option (list (option string)) := None.

(** An engine that matches the given-name pattern only, capturing [JOHN]:
    free-text extraction has a given name to offer. *)
Definition givenNameOnly (text : string) (pattern : RegExp)
  : option (list (option string)) :=
  if Js.includes (source pattern) "given"
  then Some [Some "Given names: JOHN"; Some "JOHN"]
  else None.

(** [(\d{lo,hi})] at the head of [s]: the digits taken, at most [hi], and
    what follows them.  What follows a group in the date formats is a
    separator or the end of the string, so the longest run is the only one
    that can match. *)
Fixpoint digitRun (hi : nat) (s : string) : string * string :=
  match hi, s with
  | S k, String c rest =>
      if Js.isDigit c
      then let (taken, tail) := digitRun k rest in (String c taken, tail)
      else (EmptyString, s)
  | _, _ => (EmptyString, s)
  end.

(** [[\/\-]] *)
Definition isSeparator (c : ascii) : bool :=
  Ascii.eqb c "/" || Ascii.eqb c "-".

Definition separated (s : string) : option string :=
  match s with
  | String c rest => if isSeparator c then Some rest else None
  | EmptyString => None
  end.

(** [s.match(/^(\d{lo1,hi1})[\/\-](\d{lo2,hi2})[\/\-](\d{lo3,hi3})$/)] *)
Definition matchDate (lo1 hi1 lo2 hi2 lo3 hi3 : nat) (s : string)
  : option (list (option string)) :=
  let (g1, r1) := digitRun hi1 s in
  if (String.length g1 <? lo1)%nat then None
  else
    match separated r1 with
    | None => None
    | Some r2 =>
        let (g2, r3) := digitRun hi2 r2 in
        if (String.length g2 <? lo2)%nat then None
        else
          match separated r3 with
          | None => None
          | Some r4 =>
              let (g3, r5) := digitRun hi3 r4 in
              if (String.length g3 <? lo3)%nat then None
              else
                match r5 with
                | EmptyString => Some [Some s; Some g1; Some g2; Some g3]
                | String _ _ => None
                end
          end
    end.

(** An engine that reads the three date formats of [normalizeDateToISO],
    and the day-first pattern of the date of birth on a text that is the
    one line [Date of birth: <date>]. *)
Definition datesEngine (text : string) (pattern : RegExp)
  : option (list (option string)) :=
  if String.eqb (source pattern) "^(\d{2})[\/\-](\d{2})[\/\-](\d{4})$"
  then matchDate 2 2 2 2 4 4 text
  else if String.eqb (source pattern) "^(\d{4})[\/\-](\d{2})[\/\-](\d{2})$"
  then matchDate 4 4 2 2 2 2 text
  else if String.eqb (source pattern) "^(\d{1})[\/\-](\d{1,2})[\/\-](\d{4})$"
  then matchDate 1 1 1 2 4 4 text
  else if String.eqb (source pattern)
            "(?:date\s*of\s*birth|dob)[:\s]*(\d{1,2}[\/\-]\d{1,2}[\/\-]\d{4})"
          && String.prefix "Date of birth: " text
  then
    let date := Js.substringFrom 15 text in
    match matchDate 1 2 1 2 4 4 date with
    | Some _ => Some [Some text; Some date]
    | None => None
    end
  else None.

(** The host whose clock reads [today] (a calendar date). *)
Definition hostAt (today : string)
    (engine : string -> RegExp -> option (list (option string))) : Host :=
  {| parseISO := fun s => Ret (parseCalendarDate s);
     isBefore := fun a b => Ret (before a b);
     differenceInMonths := fun a b => Ret (difference 12 a b);
     differenceInYears := fun a b => Ret (difference 1 a b);
     newDate := parseCalendarDate today;
     regexMatch := engine;
     roundTimes100 := roundPercent |}.

End RefHost.

(* ================================================================= *)
(** ** Vocabulary of the statements *)

(** The check digit as the specification words it: a table of character
    values, the weight cycle indexed by position, the sum of the products. *)
Module CheckDigitSpec.

Definition charValue (c : ascii) : Z :=
  if Ascii.eqb c "<" then 0
  else if Js.isDigit c then Js.code c - 48
  else Js.code c - 55.

Definition weight (i : nat) : Z := nth (i mod 3) [7; 3; 1] 0.

Definition weightedSum (data : string) : Z :=
  let chars := list_ascii_of_string data in
  fold_right Z.add 0
    (map (fun i => charValue (nth i chars "<"%char) * weight i)
         (seq 0 (List.length chars))).

(** The alphabet of an MRZ: fill character, digits and capital letters. *)
Definition inAlphabet (data : string) : bool :=
  forallb (fun c => Ascii.eqb c "<" || Js.isDigit c || Js.isUpper c)
          (list_ascii_of_string data).

End CheckDigitSpec.

(** The length of line [i] of a candidate MRZ, when there is such a line. *)
Definition lineLength (mrzLines : list string) (i : nat) : option nat :=
  option_map String.length (nth_error mrzLines i).

(** The ten fields of a decoded record. *)
Definition mrzFields (m : MRZData) : list ExtractedField :=
  [ mrz_documentType m; mrz_issuingCountry m; mrz_lastName m; mrz_firstName m;
    mrz_documentNumber m; mrz_nationality m; mrz_dateOfBirth m; mrz_sex m;
    mrz_expiryDate m; mrz_personalNumber m ].

(** The confidence a decoded record gives its fields. *)
Definition recordConfidence (m : MRZData) : Z :=
  if checksumValid m then 95 else 70.

(** The fields the core's producers emit. *)
Inductive Produced `{Host} : ExtractedField -> Prop :=
| produced_TD3 (line1 line2 : string) (f : ExtractedField) :
    In f (mrzFields (MrzParser.parseTD3 line1 line2)) -> Produced f
| produced_TD1 (line1 line2 line3 : string) (f : ExtractedField) :
    In f (mrzFields (MrzParser.parseTD1 line1 line2 line3)) -> Produced f
| produced_text (text : string) (patterns : list RegExp) :
    Produced (MrzParser.extractFieldFromText text patterns).

(** Every field of the merged document holds a value. *)
Definition populated (doc : ExtractedDocument) : bool :=
  forallb (fun f => Js.truthy (value f))
    [ documentType doc; documentNumber doc; issuingCountry doc; firstName doc;
      lastName doc; dateOfBirth doc; nationality doc; sex doc; issueDate doc;
      expiryDate doc ].

(** A computation that, from any array, ends with outcome [o] having
    appended [xs]. *)
Definition runs {S A} (m : Eff.M S A) (o : outcome A) (xs : list S) : Prop :=
  forall s, m s = (o, (s ++ xs)%list).

(** What a computation appends when started from the empty array. *)
Definition emitted {S A} (m : Eff.M S A) : list S := snd (m []).

(** The checks of a sequence that are about one field. *)
Definition checksFor (name : string) (checks : list ValidationCheck)
  : list ValidationCheck :=
  filter (fun c => String.eqb (field c) name) checks.

(** The policy [{minPassportValidity: 6, blockedNationalities: ["XXX"]}]. *)
Definition blockXXXPolicy : EligibilityPolicy :=
  {| minPassportValidity := 6;
     allowedNationalities := None;
     blockedNationalities := Some ["XXX"];
     minAge := None;
     maxAge := None;
     requireBiometric := None |}.

(** A check about one of the document's own fields (not an MRZ-consistency
    check). *)
Definition ownField (c : ValidationCheck) : Prop :=
  In (field c) ["documentNumber"; "expiryDate"; "dateOfBirth"; "name"; "nationality"].

(** The lines that only the branches of [generateRecommendations] after the
    first can produce. *)
Definition laterBranchLines : list string :=
  [ "REJECT: Applicant does not meet eligibility requirements";
    "MANUAL REVIEW: Low confidence in document extraction";
    "- Request higher quality document scan";
    "- Verify extracted information manually";
    "MANUAL REVIEW: Warnings detected";
    "APPROVE: All checks passed with high confidence";
    "- Proceed with visa application processing";
    "MANUAL REVIEW: Standard verification recommended";
    "- Verify key details before approval" ].

(** The ICAO 9303 specimen passport. *)
Definition specimenLine1 : string := "P<UTOERIKSSON<<ANNA<MARIA<<<<<<<<<<<<<<<<<<<".
Definition specimenLine2 : string := "L898902C36UTO7408122F1204159ZE184226B<<<<<10".

(** The same passport issued to a holder with a single name. *)
Definition mononymLine1 : string := "P<UTOERIKSSON<<<<<<<<<<<<<<<<<<<<<<<<<<<<<<<".

(** The specimen as a merged document, every field populated. *)
Definition specimenDocument : ExtractedDocument :=
  let m := MrzParser.parseTD3 specimenLine1 specimenLine2 in
  {| documentType := mrz_documentType m;
     documentNumber := mrz_documentNumber m;
     issuingCountry := mrz_issuingCountry m;
     firstName := mrz_firstName m;
     lastName := mrz_lastName m;
     dateOfBirth := mrz_dateOfBirth m;
     nationality := mrz_nationality m;
     sex := mrz_sex m;
     issueDate := mkField "2007-04-16" 75;
     expiryDate := mrz_expiryDate m;
     placeOfBirth := Some (mkField "ZENITH" 75);
     mrzData := Some m |}.

(** The specimen document over an MRZ record whose surname is empty. *)
Definition specimenOverNamelessMrz : ExtractedDocument :=
  let m := MrzParser.parseTD3 specimenLine1 specimenLine2 in
  {| documentType := documentType specimenDocument;
     documentNumber := documentNumber specimenDocument;
     issuingCountry := issuingCountry specimenDocument;
     firstName := firstName specimenDocument;
     lastName := lastName specimenDocument;
     dateOfBirth := dateOfBirth specimenDocument;
     nationality := nationality specimenDocument;
     sex := sex specimenDocument;
     issueDate := issueDate specimenDocument;
     expiryDate := expiryDate specimenDocument;
     placeOfBirth := placeOfBirth specimenDocument;
     mrzData :=
       Some {| mrz_documentType := mrz_documentType m;
               mrz_issuingCountry := mrz_issuingCountry m;
               mrz_lastName := mkField EmptyString 95;
               mrz_firstName := mrz_firstName m;
               mrz_documentNumber := mrz_documentNumber m;
               mrz_nationality := mrz_nationality m;
               mrz_dateOfBirth := mrz_dateOfBirth m;
               mrz_sex := mrz_sex m;
               mrz_expiryDate := mrz_expiryDate m;
               mrz_personalNumber := mrz_personalNumber m;
               checksumValid := checksumValid m |} |}.

(** A document read from free text only, with the given nationality, date
    of birth and expiry date. *)
Definition textDocument (nationalityCode dob expiry : string) : ExtractedDocument :=
  {| documentType := mkField "P" 85;
     documentNumber := mkField "L898902C3" 75;
     issuingCountry := mkField "UTO" 75;
     firstName := mkField "ANNA MARIA" 75;
     lastName := mkField "ERIKSSON" 75;
     dateOfBirth := mkField dob 75;
     nationality := mkField nationalityCode 75;
     sex := mkField "F" 75;
     issueDate := mkField EmptyString 0;
     expiryDate := mkField expiry 75;
     placeOfBirth := None;
     mrzData := None |}.

Definition touristApplicant : ApplicantData :=
  {| applicantName := "ANNA MARIA ERIKSSON";
     applicantDateOfBirth := "1974-08-12";
     passportNumber := "L898902C3";
     applicantNationality := "UTO";
     visaType := "tourist" |}.

(** The reference host on 1 November 2026. *)
Definition host2026 : Host := RefHost.hostAt "2026-11-01" RefHost.noMatch.

(** The same day, with an engine for which free-text extraction of the
    given name finds [JOHN]. *)
Definition host2026Matching : Host :=
  RefHost.hostAt "2026-11-01" RefHost.givenNameOnly.

(** OCR text of the single-name passport: a heading and the two MRZ lines. *)
Definition mononymText : string :=
  Js.join (String "010" EmptyString)
    ["PASSPORT"; " " ++ mononymLine1 ++ " "; specimenLine2].

(** The year the specification's century rule assigns to a two-digit year. *)
Definition centuryRule (yy : Z) : Z := if yy <=? 40 then 2000 + yy else 1900 + yy.

(** A six-character date string. *)
Definition yymmdd (y1 y2 m1 m2 d1 d2 : ascii) : string :=
  String y1 (String y2 (String m1 (String m2 (String d1 (String d2 EmptyString))))).

(** A run of fill characters. *)
Fixpoint fill (n : nat) : string :=
  match n with
  | O => EmptyString
  | S k => String "<" (fill k)
  end.

(** The characters of a string. *)
Definition chars (s : string) : list ascii := list_ascii_of_string s.

(** What holds of the values of every decoded record: the names hold no
    fill character and no white space at either end, the codes and numbers
    do not end with a fill character. *)
Definition cleanRecord (m : MRZData) : Prop :=
  ~ In "<"%char (chars (value (mrz_lastName m)))
  /\ ~ In "<"%char (chars (value (mrz_firstName m)))
  /\ Js.trim (value (mrz_lastName m)) = value (mrz_lastName m)
  /\ Js.trim (value (mrz_firstName m)) = value (mrz_firstName m)
  /\ Forall (fun f => Js.stripTrailingFill (value f) = value f)
        [ mrz_documentType m; mrz_issuingCountry m; mrz_documentNumber m;
          mrz_nationality m; mrz_personalNumber m ].

(** Whether the allow list, respectively the block list, of a policy
    excludes a nationality. *)
Definition notAllowed (policy : EligibilityPolicy) (code : string) : bool :=
  match allowedNationalities policy with
  | Some allowed =>
      (0 <? List.length allowed)%nat && negb (Validator.arrayIncludes allowed code)
  | None => false
  end.

Definition isBlocked (policy : EligibilityPolicy) (code : string) : bool :=
  match blockedNationalities policy with
  | Some blocked => Validator.arrayIncludes blocked code
  | None => false
  end.

(** The opening sentence of a summary. *)
Definition summaryHeader (doc : ExtractedDocument) : string :=
  Validator.orDefault (value (documentType doc)) "Document" ++ " for "
  ++ Validator.orDefault
       (Js.trim (value (firstName doc) ++ " " ++ value (lastName doc))) "Unknown"
  ++ " (" ++ Validator.orDefault (value (nationality doc)) "Unknown" ++ "). ".

(** The second line of a TD3 record, assembled from its columns. *)
Definition td3Line2 (number c1 nat dob c2 sx expiry c3 personal c4 c5 : string)
  : string :=
  number ++ c1 ++ nat ++ dob ++ c2 ++ sx ++ expiry ++ c3 ++ personal ++ c4 ++ c5.

(** The first two lines of a TD1 record, assembled from their columns. *)
Definition td1Line1 (ty country number c1 optional : string) : string :=
  ty ++ country ++ number ++ c1 ++ optional.

Definition td1Line2 (dob c2 sx expiry c3 nat optional : string) : string :=
  dob ++ c2 ++ sx ++ expiry ++ c3 ++ nat ++ optional.

(** A string that [trimStart] leaves as it is. *)
Definition startsClean (s : string) : Prop := Js.trimStart s = s.

(** The reference host on 1 November 2026 with the engine that reads
    dates. *)
Definition host2026Dates : Host :=
  RefHost.hostAt "2026-11-01" RefHost.datesEngine.

(** The regular-expression engine reads the three date formats of
    [normalizeDateToISO] as they are written. *)
Definition readsDates `{Host} : Prop :=
  forall s,
    map (regexMatch s) Analyzer.dateFormats
    = [ RefHost.matchDate 2 2 2 2 4 4 s;
        RefHost.matchDate 4 4 2 2 2 2 s;
        RefHost.matchDate 1 1 1 2 4 4 s ].


(** [YYYY-MM-DD]: four digits, two digits and two digits between hyphens. *)
Definition isoDate (s : string) : bool :=
  match chars s with
  | [y1; y2; y3; y4; h1; m1; m2; h2; d1; d2] =>
      forallb Js.isDigit [y1; y2; y3; y4; m1; m2; d1; d2]
      && Ascii.eqb h1 "-" && Ascii.eqb h2 "-"
  | _ => false
  end.

(** The string of the given characters. *)
Definition written (cs : list ascii) : string := string_of_list_ascii cs.

(** A whole number that JavaScript holds exactly and prints in decimal
    digits: at most 2^53 - 1 in absolute value. *)
Definition safeInteger (z : Z) : Prop :=
  - 9007199254740991 <= z <= 9007199254740991.

(** An optional bound of a policy that, when set, is such a number. *)
Definition safeBound (bound : option Z) : Prop :=
  match bound with
  | Some z => safeInteger z
  | None => True
  end.

(** The specimen identity card of ICAO Doc 9303, part 5. *)
Definition cardLine1 : string := "I<UTOD231458907<<<<<<<<<<<<<<<".
Definition cardLine2 : string := "7408122F1204159UTO<<<<<<<<<<<6".
Definition cardLine3 : string := "ERIKSSON<<ANNA<MARIA<<<<<<<<<<".

(** The second line of the specimen passport with a wrong check digit
    after the document number, and the text of that passport. *)
Definition tamperedLine2 : string := "L898902C30UTO7408122F1204159ZE184226B<<<<<10".

Definition tamperedText : string :=
  Js.join (String "010" EmptyString) [specimenLine1; tamperedLine2].

(** A policy with the two age bounds and a six-month validity. *)
Definition agePolicy : EligibilityPolicy :=
  {| minPassportValidity := 6;
     allowedNationalities := None;
     blockedNationalities := None;
     minAge := Some 18;
     maxAge := Some 65;
     requireBiometric := None |}.

(* ================================================================= *)
(** * Properties of the MRZ decoder *)

Import Js MrzParser.

Lemma isDigit_cases (c : ascii) :
  isDigit c = true ->
  In c ["0"; "1"; "2"; "3"; "4"; "5"; "6"; "7"; "8"; "9"]%char.
Proof.
  destruct c as [[] [] [] [] [] [] [] []]; intro H;
    solve [ discriminate H | simpl; auto 12 ].
Qed.

Ltac each_digit H :=
  apply isDigit_cases in H; cbn [In] in H;
  repeat (destruct H as [H | H]; [subst|]); [.. | contradiction].

Lemma parseInt_digit (c : ascii) :
  isDigit c = true -> parseInt (String c EmptyString) = Int (code c - 48).
Proof.
  intro H. each_digit H; reflexivity.
Qed.

Lemma weights_nth (i : nat) :
  nth (i mod 3) weights NaN = Int (CheckDigitSpec.weight i).
Proof.
  unfold CheckDigitSpec.weight, weights.
  pose proof (Nat.mod_upper_bound i 3 ltac:(discriminate)) as Hlt.
  destruct (i mod 3)%nat as [|[|[|k]]]; try reflexivity; lia.
Qed.

Lemma loop_value (c : ascii) :
  (if Ascii.eqb c "<" then Int 0
   else if isDigit c then parseInt (String c EmptyString)
   else Int (code c - 55)) = Int (CheckDigitSpec.charValue c).
Proof.
  unfold CheckDigitSpec.charValue.
  destruct (Ascii.eqb c "<"); [reflexivity|].
  destruct (isDigit c) eqn:D; [now apply parseInt_digit | reflexivity].
Qed.

(** The loop adds, to the running sum, the products from its position on. *)
Lemma checkDigitLoop_sum (input : string) : forall (i : nat) (acc : Z),
  checkDigitLoop input i (Int acc) =
  Int (acc + fold_right Z.add 0
               (map (fun k => CheckDigitSpec.charValue
                                (nth k (list_ascii_of_string input) "<"%char)
                              * CheckDigitSpec.weight (i + k))
                    (seq 0 (String.length input)))).
Proof.
  induction input as [|c rest IH]; intros i acc.
  - simpl. f_equal. lia.
  - cbn [checkDigitLoop String.length seq map fold_right list_ascii_of_string nth].
    rewrite loop_value, weights_nth. cbn [Num.mul Num.add].
    rewrite IH. f_equal.
    rewrite <- seq_shift, map_map, Nat.add_0_r.
    rewrite Z.add_assoc. f_equal.
    f_equal. apply map_ext. intro k. now rewrite Nat.add_succ_r.
Qed.

Lemma length_list_ascii (s : string) :
  List.length (list_ascii_of_string s) = String.length s.
Proof. induction s; simpl; congruence. Qed.

Lemma calculateCheckDigit_rem (data : string) :
  calculateCheckDigit data = Int (Z.rem (CheckDigitSpec.weightedSum data) 10).
Proof.
  unfold calculateCheckDigit, CheckDigitSpec.weightedSum.
  rewrite checkDigitLoop_sum, length_list_ascii. reflexivity.
Qed.

Lemma charValue_nonneg (c : ascii) :
  (Ascii.eqb c "<" || isDigit c || isUpper c) = true ->
  0 <= CheckDigitSpec.charValue c.
Proof.
  unfold CheckDigitSpec.charValue, isDigit, isUpper, inRange.
  destruct (Ascii.eqb c "<"); [lia|]. simpl.
  destruct ((48 <=? code c) && (code c <=? 57)) eqn:D; simpl; lia.
Qed.

Lemma weight_nonneg (i : nat) : 0 <= CheckDigitSpec.weight i.
Proof.
  unfold CheckDigitSpec.weight.
  pose proof (Nat.mod_upper_bound i 3 ltac:(discriminate)) as Hlt.
  destruct (i mod 3)%nat as [|[|[|k]]]; simpl; lia.
Qed.

Lemma weightedSum_from_nonneg (chars : list ascii) : forall i,
  forallb (fun c => Ascii.eqb c "<" || isDigit c || isUpper c) chars = true ->
  0 <= fold_right Z.add 0
         (map (fun k => CheckDigitSpec.charValue (nth k chars "<"%char)
                        * CheckDigitSpec.weight (i + k))
              (seq 0 (List.length chars))).
Proof.
  induction chars as [|c rest IH]; intros i Hall; [simpl; lia|].
  cbn [forallb] in Hall. apply andb_prop in Hall as [Hc Hrest].
  cbn [List.length seq map fold_right nth].
  rewrite <- seq_shift, map_map.
  pose proof (charValue_nonneg c Hc). pose proof (weight_nonneg (i + 0)).
  specialize (IH (S i) Hrest).
  rewrite (map_ext _ (fun k => CheckDigitSpec.charValue (nth k rest "<"%char)
                               * CheckDigitSpec.weight (S i + k))).
  - nia.
  - intro k. cbn [nth]. now rewrite Nat.add_succ_r.
Qed.

Lemma weightedSum_nonneg (data : string) :
  CheckDigitSpec.inAlphabet data = true -> 0 <= CheckDigitSpec.weightedSum data.
Proof.
  intro H. exact (weightedSum_from_nonneg _ 0%nat H).
Qed.

(** C2: the check digit is the weighted sum of the character values
    (['<'] is 0, a digit its value, any other character its code minus 55,
    so ['A'] is 10 and ['Z'] 35) with the weights 7, 3, 1 cycling by
    position, reduced modulo 10; on ["123456789"] it is 7, and
    [validateCheckDigit] accepts the check digit ["7"] and rejects the nine
    other digits. *)
Theorem check_digit_is_weighted_sum_mod_10 :
  (CheckDigitSpec.charValue "<" = 0
   /\ (forall c, isDigit c = true ->
         CheckDigitSpec.charValue c = code c - 48
         /\ 0 <= CheckDigitSpec.charValue c <= 9)
   /\ (forall c, isUpper c = true \/ isLower c = true ->
         CheckDigitSpec.charValue c = code c - 55)
   /\ CheckDigitSpec.charValue "A" = 10 /\ CheckDigitSpec.charValue "Z" = 35)
  /\ (forall i, CheckDigitSpec.weight i = nth (i mod 3) [7; 3; 1] 0)
  /\ (forall data,
        calculateCheckDigit data
        = Int (Z.rem (CheckDigitSpec.weightedSum data) 10))
  /\ (forall data, CheckDigitSpec.inAlphabet data = true ->
        calculateCheckDigit data = Int (CheckDigitSpec.weightedSum data mod 10)
        /\ 0 <= CheckDigitSpec.weightedSum data mod 10 <= 9)
  /\ calculateCheckDigit "123456789" = Int 7
  /\ validateCheckDigit "123456789" "7" = true
  /\ (forall d, isDigit d = true -> d <> "7"%char ->
        validateCheckDigit "123456789" (String d EmptyString) = false).
Proof.
  split; [|split; [|split; [|split; [|split; [|split]]]]].
  - split; [reflexivity|]. split; [|split; [|split; reflexivity]].
    + intros c H. unfold CheckDigitSpec.charValue. rewrite H.
      destruct (Ascii.eqb c "<") eqn:E.
      { apply Ascii.eqb_eq in E. subst c. discriminate H. }
      unfold isDigit, inRange in H. lia.
    + intros c H. unfold CheckDigitSpec.charValue.
      destruct (Ascii.eqb c "<") eqn:E.
      { apply Ascii.eqb_eq in E. subst c. destruct H as [H|H]; discriminate H. }
      destruct (isDigit c) eqn:D; [|reflexivity].
      unfold isDigit, isUpper, isLower, inRange in *. lia.
  - reflexivity.
  - apply calculateCheckDigit_rem.
  - intros data H.
    pose proof (Z.mod_pos_bound (CheckDigitSpec.weightedSum data) 10).
    split; [|lia].
    rewrite calculateCheckDigit_rem.
    rewrite Z.rem_mod_nonneg; [reflexivity | now apply weightedSum_nonneg | lia].
  - reflexivity.
  - reflexivity.
  - intros d Hd Hne. unfold validateCheckDigit.
    rewrite (parseInt_digit d Hd).
    change (calculateCheckDigit "123456789") with (Int 7).
    cbn [Num.eqb]. apply Z.eqb_neq. intro E. apply Hne.
    assert (Hc : nat_of_ascii d = nat_of_ascii "7")
      by (unfold code in E; change (nat_of_ascii "7") with 55%nat; lia).
    rewrite <- (ascii_nat_embedding d), Hc. reflexivity.
Qed.

(** The check digits printed on the ICAO 9303 specimen, and its decoding. *)
Example specimen_check_digits :
  calculateCheckDigit "L898902C3" = Int 6
  /\ calculateCheckDigit "740812" = Int 2
  /\ calculateCheckDigit "120415" = Int 9
  /\ calculateCheckDigit "ZE184226B<<<<<" = Int 1.
Proof. repeat split. Qed.

Example numbers_print_in_decimal :
  Num.toString (Int 2040) = "2040"
  /\ Num.toString (Int 0) = "0"
  /\ Num.toString (Int (-3)) = "-3"
  /\ Num.toString NaN = "NaN".
Proof. repeat split. Qed.

Example specimen_decodes :
  parseMRZ [specimenLine1; specimenLine2]
  = Ret (Some {| mrz_documentType := mkField "P" 95;
                 mrz_issuingCountry := mkField "UTO" 95;
                 mrz_lastName := mkField "ERIKSSON" 95;
                 mrz_firstName := mkField "ANNA MARIA" 95;
                 mrz_documentNumber := mkField "L898902C3" 95;
                 mrz_nationality := mkField "UTO" 95;
                 mrz_dateOfBirth := mkField "1974-08-12" 95;
                 mrz_sex := mkField "F" 95;
                 mrz_expiryDate := mkField "2012-04-15" 95;
                 mrz_personalNumber := mkField "ZE184226B" 95;
                 checksumValid := true |}).
Proof. reflexivity. Qed.

(** C8: [parseDate] maps a six-character string that starts with two
    digits YY to [YYYY-MM-DD], the four-digit year being 2000 + YY when
    YY is at most 40 and 1900 + YY otherwise, and maps every string whose
    length is not 6 to the empty string. *)
Theorem parseDate_century_rule :
  (forall dateStr, String.length dateStr <> 6%nat -> parseDate dateStr = EmptyString)
  /\ (forall y1 y2 m1 m2 d1 d2 : ascii,
        isDigit y1 = true -> isDigit y2 = true ->
        let yy := 10 * (code y1 - 48) + (code y2 - 48) in
        parseDate (yymmdd y1 y2 m1 m2 d1 d2)
        = Num.Z_toString (centuryRule yy) ++ "-" ++ String m1 (String m2 EmptyString)
          ++ "-" ++ String d1 (String d2 EmptyString)
        /\ String.length (Num.Z_toString (centuryRule yy)) = 4%nat
        /\ (yy <= 40 -> centuryRule yy = 2000 + yy)
        /\ (40 < yy -> centuryRule yy = 1900 + yy)).
Proof.
  split.
  - intros dateStr Hlen. unfold parseDate.
    destruct (Nat.eqb_spec (String.length dateStr) 6); [contradiction | reflexivity].
  - intros y1 y2 m1 m2 d1 d2 H1 H2 yy.
    split; [|split].
    + subst yy. each_digit H1; each_digit H2; reflexivity.
    + subst yy. each_digit H1; each_digit H2; reflexivity.
    + unfold centuryRule. destruct (Z.leb_spec yy 40); lia.
Qed.

Ltac by_length n :=
  match goal with
  | |- context [(String.length ?s =? n)%nat] =>
      destruct (Nat.eqb_spec (String.length s) n)
  end.

(** C1, as the code has it: [parseMRZ] decodes as TD3 exactly when there are
    at least two lines and the first two both have length 44 (further lines
    are ignored), as TD1 exactly when there are exactly three lines and the
    first has length 30, returns [null] for every other shape, and never
    throws. *)
Theorem parseMRZ_layout_selection (mrzLines : list string) :
  (selectedLayout mrzLines = Ret (Some TD3)
   <-> lineLength mrzLines 0 = Some 44%nat /\ lineLength mrzLines 1 = Some 44%nat)
  /\ (selectedLayout mrzLines = Ret (Some TD1)
      <-> List.length mrzLines = 3%nat /\ lineLength mrzLines 0 = Some 30%nat)
  /\ (selectedLayout mrzLines = Ret None
      <-> ~ (lineLength mrzLines 0 = Some 44%nat /\ lineLength mrzLines 1 = Some 44%nat)
          /\ ~ (List.length mrzLines = 3%nat /\ lineLength mrzLines 0 = Some 30%nat))
  /\ parseMRZ mrzLines
     = match selectedLayout mrzLines with
       | Ret (Some TD3) =>
           Ret (Some (parseTD3 (nth 0 mrzLines EmptyString)
                               (nth 1 mrzLines EmptyString)))
       | Ret (Some TD1) =>
           Ret (Some (parseTD1 (nth 0 mrzLines EmptyString)
                               (nth 1 mrzLines EmptyString)
                               (nth 2 mrzLines EmptyString)))
       | Ret None => Ret None
       | Throw => Throw
       end
  /\ selectedLayout mrzLines <> Throw
  /\ parseMRZ mrzLines <> Throw.
Proof.
  unfold selectedLayout, parseMRZ, parseMRZ_with, lengthOf, lineLength.
  destruct mrzLines as [|a [|b [|c [|d rest]]]]; cbn;
    try by_length 44%nat; cbn; try by_length 44%nat; cbn;
    try by_length 30%nat; cbn;
    repeat split; intros; try discriminate; try congruence;
    repeat match goal with
           | H : _ /\ _ |- _ => destruct H
           | H : Some _ = Some _ |- _ => injection H as H
           | |- ~ _ => intros [? ?]
           end;
    try discriminate; try congruence; try lia;
    solve [ exfalso;
            match goal with
            | H : ~ (_ /\ _) |- _ => apply H; split; congruence
            end ].
Qed.

(** C1 as stated fails: three candidate lines whose first two are the 44
    columns of a passport are decoded as TD3, not rejected. *)
Lemma parseMRZ_td3_with_a_third_line :
  let mrzLines := [specimenLine1; specimenLine2; specimenLine2] in
  List.length mrzLines = 3%nat
  /\ selectedLayout mrzLines = Ret (Some TD3)
  /\ parseMRZ mrzLines = Ret (Some (parseTD3 specimenLine1 specimenLine2))
  /\ value (mrz_documentNumber (parseTD3 specimenLine1 specimenLine2)) = "L898902C3".
Proof. repeat split. Qed.

Section ProducedFields.
Context `{Host}.

Lemma extractFieldFromText_confidence (text : string) (patterns : list RegExp) :
  extractFieldFromText text patterns = mkField EmptyString 0
  \/ confidence (extractFieldFromText text patterns) = 75.
Proof.
  induction patterns as [|pattern rest IH]; simpl.
  - now left.
  - destruct (capture text pattern 1); [now right | exact IH].
Qed.

(** The confidence of a record is never 0. *)
Lemma mrz_confidence_positive (b : bool) : (if b then 95 else 70) <> 0.
Proof. destruct b; discriminate. Qed.

(** C3, as the code has it: a field that a producer emits with confidence 0
    has an empty value.  The converse holds for the personal number of a
    TD3 record (confidence 0 exactly when empty) and of a TD1 record (always
    empty, confidence 0), and for no other field of a record: the nine
    others carry the record's confidence, 95 or 70, whatever their value;
    the text extractor gives confidence 75 to whatever it captures. *)
Theorem zero_confidence_has_empty_value :
  (forall f, Produced f -> confidence f = 0 -> value f = EmptyString)
  /\ (forall line1 line2,
        let p := mrz_personalNumber (parseTD3 line1 line2) in
        confidence p = 0 <-> value p = EmptyString)
  /\ (forall line1 line2 line3,
        mrz_personalNumber (parseTD1 line1 line2 line3) = mkField EmptyString 0)
  /\ (forall line1 line2,
        let m := parseTD3 line1 line2 in
        Forall (fun f => confidence f = recordConfidence m)
               (removelast (mrzFields m)))
  /\ (forall line1 line2 line3,
        let m := parseTD1 line1 line2 line3 in
        Forall (fun f => confidence f = recordConfidence m)
               (removelast (mrzFields m)))
  /\ (forall text patterns,
        extractFieldFromText text patterns = mkField EmptyString 0
        \/ confidence (extractFieldFromText text patterns) = 75).
Proof.
  assert (Hpn : forall line1 line2,
             confidence (mrz_personalNumber (parseTD3 line1 line2)) = 0
             <-> value (mrz_personalNumber (parseTD3 line1 line2)) = EmptyString).
  { intros line1 line2. unfold parseTD3. cbn [mrz_personalNumber confidence value].
    destruct (stripTrailingFill (substring 28 42 line2)) as [|c s];
      cbn [truthy]; split; intro E; try reflexivity; try discriminate E.
    exfalso. exact (mrz_confidence_positive _ E). }
  split; [|split; [|split; [|split; [|split]]]].
  - intros f Hf Hzero.
    destruct Hf as [line1 line2 f Hin | line1 line2 line3 f Hin | text patterns].
    + unfold mrzFields in Hin. cbn [In] in Hin.
      destruct Hin as [E|[E|[E|[E|[E|[E|[E|[E|[E|[E|[]]]]]]]]]]]; subst f;
        try (exfalso; exact (mrz_confidence_positive _ Hzero)).
      now apply Hpn.
    + unfold mrzFields in Hin. cbn [In] in Hin.
      destruct Hin as [E|[E|[E|[E|[E|[E|[E|[E|[E|[E|[]]]]]]]]]]]; subst f;
        try (exfalso; exact (mrz_confidence_positive _ Hzero)).
      reflexivity.
    + destruct (extractFieldFromText_confidence text patterns) as [E|E].
      * now rewrite E.
      * rewrite E in Hzero. discriminate Hzero.
  - exact Hpn.
  - reflexivity.
  - intros line1 line2 m. subst m. unfold mrzFields, recordConfidence.
    cbn [removelast]. repeat (apply Forall_cons || apply Forall_nil); reflexivity.
  - intros line1 line2 line3 m. subst m. unfold mrzFields, recordConfidence.
    cbn [removelast]. repeat (apply Forall_cons || apply Forall_nil); reflexivity.
  - apply extractFieldFromText_confidence.
Qed.

End ProducedFields.

(** C3 as stated fails: the passport of a holder with a single name decodes
    (all check digits valid) to a record whose given-name field is empty and
    has confidence 95. *)
Lemma empty_given_name_has_confidence_95 :
  let m := parseTD3 mononymLine1 specimenLine2 in
  parseMRZ [mononymLine1; specimenLine2] = Ret (Some m)
  /\ In (mrz_firstName m) (mrzFields m)
  /\ value (mrz_firstName m) = EmptyString
  /\ confidence (mrz_firstName m) = 95.
Proof.
  cbv zeta. split; [reflexivity|]. split; [|split; reflexivity].
  unfold mrzFields. cbn [In]. auto.
Qed.

(* ================================================================= *)
(** * Properties of the validation and eligibility engine *)

Import Validator.

Section Runs.
Context {T : Type}.

Lemma runs_bind {A B} (m : Eff.M T A) (k : A -> Eff.M T B) a o xs ys :
  runs m (Ret a) xs -> runs (k a) o ys -> runs (Eff.bind m k) o (xs ++ ys)%list.
Proof.
  intros Hm Hk s. unfold Eff.bind. rewrite Hm, Hk, app_assoc. reflexivity.
Qed.

Lemma runs_seq (m k : Eff.M T unit) xs ys :
  runs m (Ret tt) xs -> runs k (Ret tt) ys ->
  runs (Eff.bind m (fun _ => k)) (Ret tt) (xs ++ ys)%list.
Proof. intros Hm Hk. exact (runs_bind m (fun _ => k) tt (Ret tt) xs ys Hm Hk). Qed.

Lemma runs_collect (m : Eff.M T unit) xs :
  runs m (Ret tt) xs -> Eff.collect m = Ret xs.
Proof. intro Hm. unfold Eff.collect. rewrite Hm. reflexivity. Qed.

End Runs.

(** One step of a block: unfold the statement combinators, then split on the
    outcome of each host call and on each condition. *)
Ltac block_cases :=
  unfold runs, emitted, Eff.collect, Eff.when, Eff.tryCatch, Eff.bind,
    Eff.call, Eff.push, Eff.pushAll, Eff.ret;
  intro s;
  repeat (cbv beta iota zeta;
          match goal with
          | |- context [if ?b then _ else _] => destruct b eqn:?
          | |- context [match ?o with Some _ => _ | None => _ end] =>
              destruct o eqn:?
          | |- context [match ?o with Ret _ => _ | Throw => _ end] =>
              destruct o eqn:?
          end);
  cbv beta iota zeta; cbn [fst snd app];
  rewrite ?app_nil_r, <- ?app_assoc; cbn [app]; try reflexivity.

Section Blocks.
Context `{Host}.

Lemma checkDocumentNumber_runs doc :
  runs (checkDocumentNumber doc) (Ret tt) (emitted (checkDocumentNumber doc)).
Proof. unfold checkDocumentNumber. block_cases. Qed.

Lemma checkExpiryDate_runs doc :
  runs (checkExpiryDate doc) (Ret tt) (emitted (checkExpiryDate doc)).
Proof. unfold checkExpiryDate. block_cases. Qed.

Lemma checkDateOfBirth_runs doc :
  runs (checkDateOfBirth doc) (Ret tt) (emitted (checkDateOfBirth doc)).
Proof. unfold checkDateOfBirth. block_cases. Qed.

Lemma checkName_runs doc :
  runs (checkName doc) (Ret tt) (emitted (checkName doc)).
Proof. unfold checkName. block_cases. Qed.

Lemma checkNationality_runs doc :
  runs (checkNationality doc) (Ret tt) (emitted (checkNationality doc)).
Proof. unfold checkNationality. block_cases. Qed.

Lemma checkMRZ_runs doc :
  runs (checkMRZ doc) (Ret tt) (emitted (checkMRZ doc)).
Proof. unfold checkMRZ, validateMRZConsistency. block_cases. Qed.

(** [validateDocument] always returns: the checks of the six blocks, in the
    order of the blocks. *)
Lemma validateDocument_blocks doc :
  validateDocument doc
  = Ret (emitted (checkDocumentNumber doc) ++ emitted (checkExpiryDate doc)
         ++ emitted (checkDateOfBirth doc) ++ emitted (checkName doc)
         ++ emitted (checkNationality doc) ++ emitted (checkMRZ doc))%list.
Proof.
  unfold validateDocument. apply runs_collect.
  repeat (apply runs_seq;
          [ first [ apply checkDocumentNumber_runs | apply checkExpiryDate_runs
                  | apply checkDateOfBirth_runs | apply checkName_runs
                  | apply checkNationality_runs ] | ]).
  apply checkMRZ_runs.
Qed.

End Blocks.

(** Split on every host outcome and condition met while a block runs from
    the empty array. *)
Ltac emitted_cases :=
  unfold emitted, Eff.collect, Eff.when, Eff.tryCatch, Eff.bind,
    Eff.call, Eff.push, Eff.pushAll, Eff.ret;
  repeat (cbv beta iota zeta;
          match goal with
          | |- context [if ?b then _ else _] => destruct b eqn:?
          | |- context [match ?o with Some _ => _ | None => _ end] =>
              destruct o eqn:?
          | |- context [match ?o with Ret _ => _ | Throw => _ end] =>
              destruct o eqn:?
          end);
  cbv beta iota zeta; cbn [fst snd app].

Section BlockFields.
Context `{Host}.

Lemma checkDocumentNumber_fields doc :
  Forall (fun c => field c = "documentNumber") (emitted (checkDocumentNumber doc)).
Proof. unfold checkDocumentNumber. emitted_cases; repeat constructor. Qed.

Lemma checkExpiryDate_fields doc :
  Forall (fun c => field c = "expiryDate") (emitted (checkExpiryDate doc)).
Proof. unfold checkExpiryDate. emitted_cases; repeat constructor. Qed.

Lemma checkDateOfBirth_fields doc :
  Forall (fun c => field c = "dateOfBirth") (emitted (checkDateOfBirth doc)).
Proof. unfold checkDateOfBirth. emitted_cases; repeat constructor. Qed.

Lemma checkName_fields doc :
  Forall (fun c => field c = "name") (emitted (checkName doc)).
Proof. unfold checkName. emitted_cases; repeat constructor. Qed.

Lemma checkNationality_fields doc :
  Forall (fun c => field c = "nationality") (emitted (checkNationality doc)).
Proof. unfold checkNationality. emitted_cases; repeat constructor. Qed.

Lemma own_blocks_fields doc :
  Forall ownField
    (emitted (checkDocumentNumber doc) ++ emitted (checkExpiryDate doc)
     ++ emitted (checkDateOfBirth doc) ++ emitted (checkName doc)
     ++ emitted (checkNationality doc))%list.
Proof.
  repeat (apply Forall_app; split);
    [ generalize (checkDocumentNumber_fields doc)
    | generalize (checkExpiryDate_fields doc)
    | generalize (checkDateOfBirth_fields doc)
    | generalize (checkName_fields doc)
    | generalize (checkNationality_fields doc) ];
    apply Forall_impl; intros c E; unfold ownField; rewrite E; cbn [In]; auto 6.
Qed.

Lemma populated_fields doc :
  populated doc = true ->
  Js.truthy (value (documentNumber doc)) = true
  /\ Js.truthy (value (lastName doc)) = true.
Proof.
  unfold populated. cbn [forallb]. intro Hdoc.
  repeat (apply andb_prop in Hdoc as [? Hdoc]).
  split; assumption.
Qed.

(** C5, as the code has it: for a document whose fields are all populated
    and whose MRZ record is present, the checks begin with the
    [documentNumber] check and end with the MRZ-consistency checks, in the
    order [mrzChecksum], [documentNumberMatch], [nameMatch], where
    [documentNumberMatch] is emitted only if the MRZ record holds a document
    number and [nameMatch] only if it holds a surname; no check before them
    is an MRZ-consistency check.  When the record holds both, the checks
    end with exactly the three. *)
Theorem validation_checks_order (doc : ExtractedDocument) (mrz : MRZData) :
  populated doc = true ->
  mrzData doc = Some mrz ->
  exists first middle last,
    validateDocument doc = Ret (first :: middle ++ last)%list
    /\ field first = "documentNumber"
    /\ Forall ownField (first :: middle)
    /\ map field last
       = ("mrzChecksum"
          :: (if Js.truthy (value (mrz_documentNumber mrz))
              then ["documentNumberMatch"] else [])
          ++ (if Js.truthy (value (mrz_lastName mrz))
              then ["nameMatch"] else []))%list
    /\ (Js.truthy (value (mrz_documentNumber mrz)) = true ->
        Js.truthy (value (mrz_lastName mrz)) = true ->
        exists c1 c2 c3,
          last = [c1; c2; c3]
          /\ field c1 = "mrzChecksum"
          /\ field c2 = "documentNumberMatch"
          /\ field c3 = "nameMatch").
Proof.
  intros Hp Hmrz.
  destruct (populated_fields doc Hp) as (Hnum & Hlast).
  pose proof (own_blocks_fields doc) as Hown.
  rewrite validateDocument_blocks.
  assert (Hfirst : exists c, emitted (checkDocumentNumber doc) = [c]
                             /\ field c = "documentNumber").
  { unfold checkDocumentNumber, emitted, Eff.when. rewrite Hnum.
    eexists. split; reflexivity. }
  assert (Hblock :
    map field (emitted (checkMRZ doc))
    = ("mrzChecksum"
       :: (if Js.truthy (value (mrz_documentNumber mrz))
           then ["documentNumberMatch"] else [])
       ++ (if Js.truthy (value (mrz_lastName mrz))
           then ["nameMatch"] else []))%list
    /\ (Js.truthy (value (mrz_documentNumber mrz)) = true ->
        Js.truthy (value (mrz_lastName mrz)) = true ->
        exists c1 c2 c3,
          emitted (checkMRZ doc) = [c1; c2; c3]
          /\ field c1 = "mrzChecksum"
          /\ field c2 = "documentNumberMatch"
          /\ field c3 = "nameMatch")).
  { unfold checkMRZ, validateMRZConsistency, emitted. rewrite Hmrz.
    unfold Eff.collect, Eff.when, Eff.bind, Eff.call, Eff.push, Eff.pushAll.
    rewrite Hnum, Hlast. cbn [andb].
    destruct (Js.truthy (value (mrz_documentNumber mrz)));
      destruct (Js.truthy (value (mrz_lastName mrz)));
      (split; [reflexivity|]); intros Hmnum Hmlast;
      try discriminate Hmnum; try discriminate Hmlast.
    do 3 eexists. split; [reflexivity|]. repeat split. }
  destruct Hfirst as (c & Ec & Fc).
  destruct Hblock as (Hfields & Hthree).
  rewrite Ec in *.
  exists c,
    (emitted (checkExpiryDate doc) ++ emitted (checkDateOfBirth doc)
     ++ emitted (checkName doc) ++ emitted (checkNationality doc))%list,
    (emitted (checkMRZ doc)).
  split; [|split; [exact Fc | split; [exact Hown | split; [exact Hfields | exact Hthree]]]].
  cbn [app]. f_equal. f_equal. now rewrite <- !app_assoc.
Qed.

(** Whatever the document holds, the checks are those about its own fields
    followed, when an MRZ record is present, by [mrzChecksum], then
    [documentNumberMatch] if both document numbers are non-empty, then
    [nameMatch] if both surnames are non-empty. *)
Lemma validation_checks_shape (doc : ExtractedDocument) :
  exists own tail,
    validateDocument doc = Ret (own ++ tail)%list
    /\ Forall ownField own
    /\ map field tail
       = match mrzData doc with
         | None => []
         | Some mrz =>
             ("mrzChecksum"
              :: (if Js.truthy (value (documentNumber doc))
                     && Js.truthy (value (mrz_documentNumber mrz))
                  then ["documentNumberMatch"] else [])
              ++ (if Js.truthy (value (lastName doc))
                     && Js.truthy (value (mrz_lastName mrz))
                  then ["nameMatch"] else []))%list
         end.
Proof.
  exists (emitted (checkDocumentNumber doc) ++ emitted (checkExpiryDate doc)
          ++ emitted (checkDateOfBirth doc) ++ emitted (checkName doc)
          ++ emitted (checkNationality doc))%list,
         (emitted (checkMRZ doc)).
  split; [|split].
  - rewrite validateDocument_blocks. now rewrite <- !app_assoc.
  - apply own_blocks_fields.
  - unfold checkMRZ, validateMRZConsistency.
    destruct (mrzData doc) as [mrz|]; [|reflexivity].
    unfold emitted, Eff.collect, Eff.when, Eff.bind, Eff.call, Eff.push,
      Eff.pushAll, Eff.ret.
    destruct (Js.truthy (value (documentNumber doc))
              && Js.truthy (value (mrz_documentNumber mrz)));
      destruct (Js.truthy (value (lastName doc))
                && Js.truthy (value (mrz_lastName mrz)));
      reflexivity.
Qed.

End BlockFields.

Section ChecksPerField.
Context `{Host}.

Lemma checkMRZ_fields doc :
  Forall (fun c => In (field c) ["mrzChecksum"; "documentNumberMatch"; "nameMatch"])
         (emitted (checkMRZ doc)).
Proof.
  unfold checkMRZ, validateMRZConsistency.
  emitted_cases; repeat (apply Forall_cons || apply Forall_nil);
    cbn [field In]; auto.
Qed.

Lemma checksFor_app name xs ys :
  checksFor name (xs ++ ys) = (checksFor name xs ++ checksFor name ys)%list.
Proof. apply filter_app. Qed.

Lemma checksFor_same name xs :
  Forall (fun c => field c = name) xs -> checksFor name xs = xs.
Proof.
  induction 1 as [|c xs Hc _ IH]; [reflexivity|].
  unfold checksFor in *. cbn [filter]. rewrite Hc, String.eqb_refl, IH. reflexivity.
Qed.

Lemma checksFor_other name xs (P : ValidationCheck -> Prop) :
  Forall P xs -> (forall c, P c -> field c <> name) -> checksFor name xs = [].
Proof.
  intros Hall Hne. induction Hall as [|c xs Hc _ IH]; [reflexivity|].
  unfold checksFor in *. cbn [filter].
  destruct (String.eqb_spec (field c) name) as [E|_]; [|exact IH].
  exfalso. exact (Hne c Hc E).
Qed.

(** The checks about the expiry date are those of the expiry block. *)
Lemma expiry_checks_of_validateDocument doc :
  exists checks,
    validateDocument doc = Ret checks
    /\ checksFor "expiryDate" checks = emitted (checkExpiryDate doc).
Proof.
  eexists. split; [apply validateDocument_blocks|].
  rewrite !checksFor_app.
  rewrite (checksFor_same _ _ (checkExpiryDate_fields doc)).
  rewrite (checksFor_other _ _ _ (checkDocumentNumber_fields doc)),
          (checksFor_other _ _ _ (checkDateOfBirth_fields doc)),
          (checksFor_other _ _ _ (checkName_fields doc)),
          (checksFor_other _ _ _ (checkNationality_fields doc)),
          (checksFor_other _ _ _ (checkMRZ_fields doc));
    try (intros c E; try rewrite E; discriminate).
  - now rewrite app_nil_r.
  - intros c. cbn [In]. intros [E|[E|[E|[]]]]; rewrite <- E; discriminate.
Qed.

(** C4, the code at the failing input: when date-fns cannot parse the
    expiry date it returns Invalid Date without throwing, and [isBefore] is
    then false; the first check [validateDocument] emits for the expiry date
    is a pass, "Document is valid", with the field's own confidence, and
    with [differenceInMonths] NaN it is the only one: the fail check with
    confidence 50 is not emitted. *)
Theorem unparseable_expiry_date_passes (doc : ExtractedDocument) :
  Js.truthy (value (expiryDate doc)) = true ->
  parseISO (value (expiryDate doc)) = Ret InvalidDate ->
  isBefore InvalidDate newDate = Ret false ->
  exists checks rest,
    validateDocument doc = Ret checks
    /\ checksFor "expiryDate" checks
       = {| field := "expiryDate";
            status := st_pass;
            message := "Document is valid";
            checkConfidence := confidence (expiryDate doc) |} :: rest
    /\ (differenceInMonths InvalidDate newDate = Ret NaN -> rest = []).
Proof.
  intros Hval Hparse Hbefore.
  destruct (expiry_checks_of_validateDocument doc) as (checks & Hrun & Hexp).
  exists checks. rewrite Hexp.
  unfold checkExpiryDate, emitted, Eff.when, Eff.tryCatch, Eff.bind, Eff.call,
    Eff.push, Eff.ret.
  rewrite Hval, Hparse. cbv beta iota. rewrite Hbefore. cbv beta iota.
  destruct (differenceInMonths InvalidDate newDate) as [months|];
    cbv beta iota.
  - destruct (negb false && Num.ltb months (Int 6)) eqn:Hlt; cbn [snd app];
      eexists; (split; [exact Hrun|]); (split; [reflexivity|]);
      intro E; injection E as ->; solve [discriminate Hlt | reflexivity].
  - cbn [snd app]. eexists. split; [exact Hrun|]. split; [reflexivity|].
    intro E. discriminate E.
Qed.

(** What the expiry block does on the other outcomes of the host: a fail
    check with confidence 50 when [parseISO] throws; on a date, a check that
    passes exactly when the date is not before now, followed by a warning
    with the month count exactly when it is not expired and fewer than 6
    months remain. *)
Lemma expiry_checks_by_outcome (doc : ExtractedDocument) :
  Js.truthy (value (expiryDate doc)) = true ->
  (parseISO (value (expiryDate doc)) = Throw ->
   emitted (checkExpiryDate doc)
   = [ {| field := "expiryDate"; status := st_fail;
          message := "Invalid expiry date format"; checkConfidence := 50 |} ])
  /\ (forall expiry isExpired months,
        parseISO (value (expiryDate doc)) = Ret expiry ->
        isBefore expiry newDate = Ret isExpired ->
        differenceInMonths expiry newDate = Ret months ->
        emitted (checkExpiryDate doc)
        = ({| field := "expiryDate";
              status := if isExpired then st_fail else st_pass;
              message := if isExpired then "Document has expired"
                         else "Document is valid";
              checkConfidence := confidence (expiryDate doc) |}
           :: (if negb isExpired && Num.ltb months (Int 6)
               then [ {| field := "expiryDate"; status := st_warning;
                         message := "Document expires in "
                                    ++ Num.toString months ++ " months";
                         checkConfidence := confidence (expiryDate doc) |} ]
               else []))%list).
Proof.
  intro Hval.
  unfold checkExpiryDate, emitted, Eff.when, Eff.tryCatch, Eff.bind, Eff.call,
    Eff.push, Eff.ret.
  rewrite Hval. split.
  - intros ->. reflexivity.
  - intros expiry isExpired months -> -> ->. cbv beta iota.
    destruct (negb isExpired && Num.ltb months (Int 6)); reflexivity.
Qed.

End ChecksPerField.

Section Eligibility.
Context `{Host}.

Lemma issuePassportValidity_runs doc policy :
  runs (issuePassportValidity doc policy) (Ret tt)
       (emitted (issuePassportValidity doc policy)).
Proof. unfold issuePassportValidity. block_cases. Qed.

Lemma issueAllowedNationality_runs doc applicant policy :
  runs (issueAllowedNationality doc applicant policy) (Ret tt)
       (emitted (issueAllowedNationality doc applicant policy)).
Proof. unfold issueAllowedNationality. block_cases. Qed.

Lemma issueBlockedNationality_runs doc applicant policy :
  runs (issueBlockedNationality doc applicant policy) (Ret tt)
       (emitted (issueBlockedNationality doc applicant policy)).
Proof. unfold issueBlockedNationality. block_cases. Qed.

Lemma issueAge_runs doc policy :
  runs (issueAge doc policy) (Ret tt) (emitted (issueAge doc policy)).
Proof. unfold issueAge. block_cases. Qed.

Lemma issuePassportNumber_runs doc applicant :
  runs (issuePassportNumber doc applicant) (Ret tt)
       (emitted (issuePassportNumber doc applicant)).
Proof. unfold issuePassportNumber. block_cases. Qed.

(** [eligibilityIssues] always returns: the issues of the five rules, in the
    order of the rules. *)
Lemma eligibilityIssues_blocks doc applicant policy :
  eligibilityIssues doc applicant policy
  = Ret (emitted (issuePassportValidity doc policy)
         ++ emitted (issueAllowedNationality doc applicant policy)
         ++ emitted (issueBlockedNationality doc applicant policy)
         ++ emitted (issueAge doc policy)
         ++ emitted (issuePassportNumber doc applicant))%list.
Proof.
  unfold eligibilityIssues. apply runs_collect.
  repeat (apply runs_seq;
          [ first [ apply issuePassportValidity_runs
                  | apply issueAllowedNationality_runs
                  | apply issueBlockedNationality_runs
                  | apply issueAge_runs ] | ]).
  apply issuePassportNumber_runs.
Qed.

Lemma join_head (sep x : string) (rest : list string) :
  exists tail, Js.join sep (x :: rest) = x ++ tail.
Proof.
  destruct rest as [|y rest]; cbn [Js.join].
  - exists EmptyString. induction x; simpl; congruence.
  - eexists. reflexivity.
Qed.

(** C6: [checkEligibility] always returns a result; [eligible] is true
    exactly when no issue was accumulated; [reason] is the fixed success
    message when eligible and the issues joined with ["; "] otherwise;
    [confidence] is 95 when eligible and 85 otherwise, however many issues
    there are.  With the policy [{minPassportValidity: 6,
    blockedNationalities: ["XXX"]}], a document of nationality ["XXX"] and
    an expiry date 12 months ahead, the result is not eligible and its
    reason contains ["Nationality XXX is not eligible"]. *)
Theorem checkEligibility_result :
  (forall doc applicant policy,
     exists issues r,
       eligibilityIssues doc applicant policy = Ret issues
       /\ checkEligibility doc applicant policy = Ret r
       /\ (eligible r = true <-> issues = [])
       /\ (issues = [] -> reason r = "All eligibility requirements met"
                          /\ eligibilityConfidence r = 95)
       /\ (issues <> [] -> reason r = Js.join "; " issues
                           /\ eligibilityConfidence r = 85))
  /\ (forall doc applicant expiry,
        value (nationality doc) = "XXX" ->
        parseISO (value (expiryDate doc)) = Ret expiry ->
        differenceInMonths expiry newDate = Ret (Int 12) ->
        exists r,
          checkEligibility doc applicant blockXXXPolicy = Ret r
          /\ eligible r = false
          /\ Js.includes (reason r) "Nationality XXX is not eligible" = true).
Proof.
  split.
  - intros doc applicant policy.
    unfold checkEligibility. rewrite eligibilityIssues_blocks.
    eexists. eexists. split; [reflexivity|]. split; [reflexivity|].
    cbn [obind eligible reason eligibilityConfidence].
    match goal with |- context [List.length ?l] => destruct l as [|i issues] end;
      cbn [List.length Nat.eqb]; repeat split; intros; congruence.
  - intros doc applicant expiry Hnat Hparse Hmonths.
    unfold checkEligibility. rewrite eligibilityIssues_blocks.
    assert (Hvalid : emitted (issuePassportValidity doc blockXXXPolicy) = []).
    { unfold issuePassportValidity, emitted, Eff.when, Eff.tryCatch, Eff.bind,
        Eff.call, Eff.push, Eff.ret.
      destruct (Js.truthy (value (expiryDate doc))); [|reflexivity].
      rewrite Hparse. cbv beta iota. rewrite Hmonths. reflexivity. }
    assert (Hallowed : emitted (issueAllowedNationality doc applicant blockXXXPolicy) = [])
      by reflexivity.
    assert (Hblocked : emitted (issueBlockedNationality doc applicant blockXXXPolicy)
                       = [nationalityIssue doc applicant]).
    { unfold issueBlockedNationality, emitted, Eff.when, arrayIncludes.
      cbn [blockedNationalities blockXXXPolicy existsb]. rewrite Hnat. reflexivity. }
    rewrite Hvalid, Hallowed, Hblocked. cbn [app obind List.length Nat.eqb].
    eexists. split; [reflexivity|]. cbn [eligible reason]. split; [reflexivity|].
    destruct (join_head "; " (nationalityIssue doc applicant)
                (emitted (issueAge doc blockXXXPolicy)
                 ++ emitted (issuePassportNumber doc applicant))%list) as [tail ->].
    unfold nationalityIssue. rewrite Hnat. reflexivity.
Qed.

(** C9, the code at the failing input: when date-fns cannot parse the date
    of birth it returns Invalid Date without throwing and the age is NaN, so
    neither bound is found violated and the age rule adds no issue; "Cannot
    verify age requirements" is not among the issues. *)
Theorem unparseable_birth_date_adds_no_issue
    (doc : ExtractedDocument) (applicant : ApplicantData)
    (policy : EligibilityPolicy) :
  Js.truthy (value (dateOfBirth doc)) = true ->
  parseISO (value (dateOfBirth doc)) = Ret InvalidDate ->
  differenceInYears newDate InvalidDate = Ret NaN ->
  emitted (issueAge doc policy) = []
  /\ exists issues,
       eligibilityIssues doc applicant policy = Ret issues
       /\ ~ In "Cannot verify age requirements" issues.
Proof.
  intros Hval Hparse Hyears.
  assert (Hage : emitted (issueAge doc policy) = []).
  { unfold issueAge, emitted, Eff.when, Eff.tryCatch, Eff.bind, Eff.call,
      Eff.push, Eff.ret.
    rewrite Hval, Hparse. cbv beta iota. rewrite Hyears. cbv beta iota.
    unfold Num.gtb, Num.ltb. destruct (boundOf (maxAge policy));
      rewrite !andb_false_r; reflexivity. }
  split; [exact Hage|].
  eexists. split; [apply eligibilityIssues_blocks|].
  rewrite Hage. cbn [app]. rewrite !in_app_iff. intros [Hin|[Hin|[Hin|Hin]]];
    revert Hin.
  - unfold issuePassportValidity. emitted_cases; cbn [In]; intros [E|[]] || intros [];
      discriminate E.
  - unfold issueAllowedNationality, nationalityIssue.
    emitted_cases; cbn [In]; intros [E|[]] || intros []; discriminate E.
  - unfold issueBlockedNationality, nationalityIssue.
    emitted_cases; cbn [In]; intros [E|[]] || intros []; discriminate E.
  - unfold issuePassportNumber.
    emitted_cases; cbn [In]; intros [E|[]] || intros []; discriminate E.
Qed.

(** The age rule on the other outcomes of the host: the generic issue when
    [parseISO] throws; on an age, one issue per bound that is set to a
    non-zero number and violated. *)
Lemma age_issues_by_outcome (doc : ExtractedDocument) (policy : EligibilityPolicy) :
  Js.truthy (value (dateOfBirth doc)) = true ->
  (parseISO (value (dateOfBirth doc)) = Throw ->
   emitted (issueAge doc policy) = ["Cannot verify age requirements"])
  /\ (forall dob age,
        parseISO (value (dateOfBirth doc)) = Ret dob ->
        differenceInYears newDate dob = Ret age ->
        emitted (issueAge doc policy)
        = List.app
            (if configured (minAge policy) && Num.ltb age (boundOf (minAge policy))
             then ["Applicant must be at least "
                   ++ boundText (minAge policy) ++ " years old"]
             else [])
            (if configured (maxAge policy) && Num.gtb age (boundOf (maxAge policy))
             then ["Applicant must be under "
                   ++ boundText (maxAge policy) ++ " years old"]
             else [])).
Proof.
  intro Hval.
  unfold issueAge, emitted, Eff.when, Eff.tryCatch, Eff.bind, Eff.call,
    Eff.push, Eff.ret.
  rewrite Hval. split.
  - intros ->. reflexivity.
  - intros dob age -> ->. cbv beta iota.
    destruct (configured (minAge policy) && Num.ltb age (boundOf (minAge policy)));
      destruct (configured (maxAge policy) && Num.gtb age (boundOf (maxAge policy)));
      reflexivity.
Qed.

End Eligibility.

(* ================================================================= *)
(** * Recommendations *)

Lemma failures_nonempty (checks : list ValidationCheck) :
  (exists c, In c checks /\ status c = st_fail) ->
  (0 <? List.length (filter isFail checks))%nat = true.
Proof.
  intros (c & Hin & Hst).
  assert (Hf : In c (filter isFail checks)).
  { apply filter_In. split; [exact Hin|]. unfold isFail. now rewrite Hst. }
  destruct (filter isFail checks); [contradiction | reflexivity].
Qed.

(** C7: as soon as one check has status fail, the recommendations are
    the line "REJECT: Critical validation failures detected" followed by
    one "- Address <field>: <message>" line per failing check, in order;
    the list is the same for every eligibility result and every overall
    confidence; each of its lines is that header or the Address line of a
    failing check, and none is a line of the eligibility-reject,
    manual-review or approve branches. *)
Theorem recommendations_reject_on_failure
    (checks : list ValidationCheck) (eligibility : EligibilityResult)
    (overallConfidence : Z) :
  (exists c, In c checks /\ status c = st_fail) ->
  let result := generateRecommendations checks eligibility overallConfidence in
  result = "REJECT: Critical validation failures detected"
           :: map addressLine (filter isFail checks)
  /\ (forall eligibility' overallConfidence',
        generateRecommendations checks eligibility' overallConfidence' = result)
  /\ (forall line, In line result ->
        (line = "REJECT: Critical validation failures detected"
         \/ exists f, In f checks /\ status f = st_fail
                      /\ line = "- Address " ++ field f ++ ": " ++ message f)
        /\ ~ In line laterBranchLines
        /\ forall w, line <> reviewLine w).
Proof.
  intros Hfail result.
  assert (Hres : forall e conf,
             generateRecommendations checks e conf
             = "REJECT: Critical validation failures detected"
               :: map addressLine (filter isFail checks)).
  { intros e conf. unfold generateRecommendations.
    now rewrite (failures_nonempty checks Hfail). }
  subst result. rewrite !Hres. split; [reflexivity|]. split.
  - intros e conf. apply Hres.
  - intros line [<- | Hin].
    + split; [now left|]. split.
      * unfold laterBranchLines. cbn [In].
        intros [E|[E|[E|[E|[E|[E|[E|[E|[E|[]]]]]]]]]]; discriminate E.
      * intros w E. discriminate E.
    + apply in_map_iff in Hin as (f & <- & Hf).
      apply filter_In in Hf as [Hin Hst]. unfold addressLine. split.
      * right. exists f. repeat split; [exact Hin|].
        unfold isFail in Hst. now destruct (status f).
      * split.
        -- unfold laterBranchLines. cbn [In].
           intros [E|[E|[E|[E|[E|[E|[E|[E|[E|[]]]]]]]]]]; discriminate E.
        -- intros w E. unfold reviewLine in E. discriminate E.
Qed.

(* ================================================================= *)
(** * The merged document *)

Import Analyzer.

Section Merge.
Context `{Host}.

Lemma mrz_block_number_match doc mrz :
  mrzData doc = Some mrz ->
  documentNumber doc = mrz_documentNumber mrz ->
  Forall (fun c => field c = "documentNumberMatch" -> status c = st_pass)
         (emitted (checkMRZ doc)).
Proof.
  intros Hmrz Hnum. unfold checkMRZ, validateMRZConsistency. rewrite Hmrz, Hnum.
  rewrite String.eqb_refl.
  emitted_cases; repeat (apply Forall_cons || apply Forall_nil);
    cbn [field status]; intro E; solve [reflexivity | discriminate E].
Qed.

(** The MRZ-first merge, field by field. *)
Lemma analyzeDocument_merge
    (ocrText : string) (doc : ExtractedDocument) (mrz : MRZData) :
  analyzeDocument ocrText = Ret doc ->
  mrzData doc = Some mrz ->
  documentType doc = mrz_documentType mrz
  /\ documentNumber doc = mrz_documentNumber mrz
  /\ issuingCountry doc = mrz_issuingCountry mrz
  /\ firstName doc = mrz_firstName mrz
  /\ lastName doc = mrz_lastName mrz
  /\ dateOfBirth doc = mrz_dateOfBirth mrz
  /\ nationality doc = mrz_nationality mrz
  /\ sex doc = mrz_sex mrz
  /\ expiryDate doc = mrz_expiryDate mrz.
Proof.
  intros Hdoc Hmrz. unfold analyzeDocument in Hdoc.
  destruct (if (0 <? List.length (extractMRZ ocrText))%nat
            then parseMRZ (extractMRZ ocrText) else Ret None)
    as [[m|]|]; cbn [obind] in Hdoc; try discriminate Hdoc.
  - destruct (extractDateField ocrText _) as [issue|];
      cbn [obind] in Hdoc; try discriminate Hdoc.
    injection Hdoc as <-. cbn [mrzData] in Hmrz. injection Hmrz as <-.
    cbn. repeat split.
  - repeat (match type of Hdoc with
            | context [obind ?o _] => destruct o; cbn [obind] in Hdoc
            end; try discriminate Hdoc).
    injection Hdoc as <-. discriminate Hmrz.
Qed.

(** C10: when [analyzeDocument] decoded an MRZ, every field it merges
    MRZ-first is the field of the MRZ record, empty or not, whatever the
    free-text patterns would match; so the document number equals the
    MRZ's, and any [documentNumberMatch] check that [validateDocument] emits
    for the document has status pass. *)
Theorem analyzeDocument_prefers_mrz
    (ocrText : string) (doc : ExtractedDocument) (mrz : MRZData) :
  analyzeDocument ocrText = Ret doc ->
  mrzData doc = Some mrz ->
  (documentType doc = mrz_documentType mrz
   /\ documentNumber doc = mrz_documentNumber mrz
   /\ issuingCountry doc = mrz_issuingCountry mrz
   /\ firstName doc = mrz_firstName mrz
   /\ lastName doc = mrz_lastName mrz
   /\ dateOfBirth doc = mrz_dateOfBirth mrz
   /\ nationality doc = mrz_nationality mrz
   /\ sex doc = mrz_sex mrz
   /\ expiryDate doc = mrz_expiryDate mrz)
  /\ exists checks,
       validateDocument doc = Ret checks
       /\ forall c, In c checks ->
            field c = "documentNumberMatch" -> status c = st_pass.
Proof.
  intros Hdoc Hmrz.
  pose proof (analyzeDocument_merge ocrText doc mrz Hdoc Hmrz) as Hfields.
  split; [exact Hfields|].
  destruct Hfields as (_ & Hnum & _).
  eexists. split; [apply validateDocument_blocks|].
  intros c Hin Hfield.
  rewrite !app_assoc in Hin. apply in_app_or in Hin as [Hin|Hin].
  - rewrite <- !app_assoc in Hin.
    pose proof (own_blocks_fields doc) as Hown.
    rewrite Forall_forall in Hown. specialize (Hown c Hin).
    unfold ownField in Hown. rewrite Hfield in Hown. cbn [In] in Hown.
    destruct Hown as [E|[E|[E|[E|[E|[]]]]]]; discriminate E.
  - pose proof (mrz_block_number_match doc mrz Hmrz Hnum) as Hall.
    rewrite Forall_forall in Hall. exact (Hall c Hin Hfield).
Qed.

(** A document built by [analyzeDocument] around an MRZ record shares the
    record's document number and surname: when its own are populated, so are
    the record's. *)
Lemma analyzed_mrz_populated
    (ocrText : string) (doc : ExtractedDocument) (mrz : MRZData) :
  analyzeDocument ocrText = Ret doc ->
  mrzData doc = Some mrz ->
  populated doc = true ->
  Js.truthy (value (mrz_documentNumber mrz)) = true
  /\ Js.truthy (value (mrz_lastName mrz)) = true.
Proof.
  intros Hdoc Hmrz Hp.
  destruct (analyzeDocument_merge ocrText doc mrz Hdoc Hmrz)
    as (_ & Hnum & _ & _ & Hlast & _).
  destruct (populated_fields doc Hp) as (Hn & Hl).
  rewrite <- Hnum, <- Hlast. split; assumption.
Qed.

End Merge.

(* ================================================================= *)
(** * The theorems at concrete inputs *)

(** C5 on the specimen passport: the checks end with the three
    MRZ-consistency checks. *)
Lemma validation_checks_order_specimen :
  exists first middle c1 c2 c3,
    @validateDocument host2026 specimenDocument
    = Ret (first :: middle ++ [c1; c2; c3])%list
    /\ field first = "documentNumber"
    /\ field c1 = "mrzChecksum"
    /\ field c2 = "documentNumberMatch"
    /\ field c3 = "nameMatch"
    /\ Forall ownField (first :: middle).
Proof.
  destruct (@validation_checks_order host2026 specimenDocument
              (parseTD3 specimenLine1 specimenLine2) eq_refl eq_refl)
    as (first & middle & last & Hrun & Hfirst & Hown & _ & Hthree).
  destruct (Hthree eq_refl eq_refl) as (c1 & c2 & c3 & Hlast & F1 & F2 & F3).
  exists first, middle, c1, c2, c3.
  rewrite <- Hlast. auto 8.
Defined.

(** C5 as it is stated fails on the specimen document over an MRZ record
    with an empty surname: every field is populated and the MRZ record is
    present, yet no [nameMatch] check is emitted and the checks end with
    [documentNumberMatch]. *)
Lemma nameMatch_needs_mrz_surname :
  populated specimenOverNamelessMrz = true
  /\ (exists mrz, mrzData specimenOverNamelessMrz = Some mrz)
  /\ exists checks,
       @validateDocument host2026 specimenOverNamelessMrz = Ret checks
       /\ map field checks
          = [ "documentNumber"; "expiryDate"; "dateOfBirth"; "name";
              "nationality"; "mrzChecksum"; "documentNumberMatch" ].
Proof.
  split; [vm_compute; reflexivity|].
  split; [eexists; reflexivity|].
  eexists. split; vm_compute; reflexivity.
Qed.

(** C4 on an expiry date of 30 February: the check passes. *)
Lemma unparseable_expiry_date_passes_feb30 :
  exists checks,
    @validateDocument host2026 (textDocument "UTO" "1974-08-12" "2031-02-30")
    = Ret checks
    /\ checksFor "expiryDate" checks
       = [ {| field := "expiryDate";
              status := st_pass;
              message := "Document is valid";
              checkConfidence := 75 |} ].
Proof.
  destruct (@unparseable_expiry_date_passes host2026
              (textDocument "UTO" "1974-08-12" "2031-02-30")
              eq_refl eq_refl eq_refl)
    as (checks & rest & Hrun & Hshape & Hrest).
  exists checks. split; [exact Hrun|].
  rewrite Hshape, (Hrest eq_refl). reflexivity.
Defined.

(** C9 on a date of birth of 30 February, with both age bounds set. *)
Lemma unparseable_birth_date_adds_no_issue_feb30 :
  let doc := textDocument "UTO" "1990-02-30" "2031-03-01" in
  let policy := {| minPassportValidity := 6;
                   allowedNationalities := None;
                   blockedNationalities := None;
                   minAge := Some 18;
                   maxAge := Some 65;
                   requireBiometric := None |} in
  emitted (@issueAge host2026 doc policy) = []
  /\ exists issues,
       @eligibilityIssues host2026 doc touristApplicant policy = Ret issues
       /\ ~ In "Cannot verify age requirements" issues.
Proof.
  cbv zeta.
  apply (@unparseable_birth_date_adds_no_issue host2026); reflexivity.
Defined.

(** C6 on the scenario: today is 2026-11-01 and the passport expires on
    2027-11-01. *)
Lemma checkEligibility_blocked_nationality :
  exists r,
    @checkEligibility host2026 (textDocument "XXX" "1974-08-12" "2027-11-01")
      touristApplicant blockXXXPolicy = Ret r
    /\ eligible r = false
    /\ Js.includes (reason r) "Nationality XXX is not eligible" = true.
Proof.
  apply (proj2 (@checkEligibility_result host2026)
           (textDocument "XXX" "1974-08-12" "2027-11-01") touristApplicant
           (Instant 1825027200000)); reflexivity.
Defined.

(** C7 on the scenario: one failing expiry check, an eligible applicant,
    an overall confidence of 95. *)
Lemma recommendations_reject_expired :
  let expired := {| field := "expiryDate"; status := st_fail;
                    message := "Document has expired"; checkConfidence := 95 |} in
  let eligibility := {| eligible := true;
                        reason := "All eligibility requirements met";
                        eligibilityConfidence := 95 |} in
  generateRecommendations [expired] eligibility 95
  = [ "REJECT: Critical validation failures detected";
      "- Address expiryDate: Document has expired" ].
Proof.
  cbv zeta.
  exact (proj1 (recommendations_reject_on_failure
                  [ {| field := "expiryDate"; status := st_fail;
                       message := "Document has expired";
                       checkConfidence := 95 |} ]
                  {| eligible := true;
                     reason := "All eligibility requirements met";
                     eligibilityConfidence := 95 |}
                  95
                  (ex_intro _ _ (conj (or_introl eq_refl) eq_refl)))).
Defined.

(** C10 on the OCR text of the single-name passport, on a host whose
    free-text extraction would find a given name: the merged given name is
    the MRZ's empty one. *)
Lemma analyzeDocument_prefers_mrz_mononym :
  exists doc,
    @analyzeDocument host2026Matching mononymText = Ret doc
    /\ mrzData doc = Some (parseTD3 mononymLine1 specimenLine2)
    /\ firstName doc = mkField EmptyString 95
    /\ @extractFieldFromText host2026Matching mononymText
         [ mkRegExp "(?:given\s*names?|first\s*name)[:\s]*([A-Z\s]+)" "i";
           mkRegExp "surname[:\s]*[A-Z\s]+[,\s]+([A-Z\s]+)" "i" ]
       = mkField "JOHN" 75
    /\ documentNumber doc = mkField "L898902C3" 95
    /\ exists checks,
         @validateDocument host2026Matching doc = Ret checks
         /\ forall c, In c checks ->
              field c = "documentNumberMatch" -> status c = st_pass.
Proof.
  assert (Hrun : exists doc,
             @analyzeDocument host2026Matching mononymText = Ret doc
             /\ mrzData doc = Some (parseTD3 mononymLine1 specimenLine2)).
  { eexists. split; [vm_compute; reflexivity | reflexivity]. }
  destruct Hrun as (doc & Hdoc & Hmrz). exists doc.
  destruct (@analyzeDocument_prefers_mrz host2026Matching mononymText doc
              (parseTD3 mononymLine1 specimenLine2) Hdoc Hmrz)
    as [(_ & Hnum & _ & Hfirst & _) Hchecks].
  split; [exact Hdoc|]. split; [exact Hmrz|].
  split; [rewrite Hfirst; reflexivity|]. split; [reflexivity|].
  split; [rewrite Hnum; reflexivity | exact Hchecks].
Defined.

(* ================================================================= *)
(** * Further properties of the MRZ decoder *)

Section SubstringFacts.

Lemma substring_empty (a m : nat) : String.substring a m EmptyString = EmptyString.
Proof. destruct a, m; reflexivity. Qed.

Lemma substring_nothing (s : string) : String.substring 0 0 s = EmptyString.
Proof. destruct s; reflexivity. Qed.

Lemma substring_beyond (s : string) : forall a m,
  (String.length s <= a)%nat -> String.substring a m s = EmptyString.
Proof.
  induction s as [|c s IH]; intros a m Hlen.
  - apply substring_empty.
  - destruct a as [|a]; cbn [String.length] in Hlen; [lia|].
    cbn [String.substring]. apply IH. lia.
Qed.

Lemma substring_of_prefix (s : string) : forall a m n,
  (a + m <= n)%nat ->
  String.substring a m (String.substring 0 n s) = String.substring a m s.
Proof.
  induction s as [|c s IH]; intros a m n Hle.
  - now rewrite !substring_empty.
  - destruct n as [|n].
    + assert (a = 0%nat) by lia. assert (m = 0%nat) by lia. subst. reflexivity.
    + cbn [String.substring]. destruct a as [|a].
      * destruct m as [|m]; [reflexivity|].
        cbn [String.substring]. f_equal. apply (IH 0%nat). lia.
      * cbn [String.substring]. apply IH. lia.
Qed.

Lemma js_substring_of_prefix (s : string) (a b n : nat) :
  (a <= b)%nat -> (b <= n)%nat ->
  Js.substring a b s = Js.substring a b (Js.substring 0 n s).
Proof.
  intros Hab Hbn. unfold Js.substring.
  rewrite (Nat.min_l a b Hab), (Nat.max_r a b Hab).
  rewrite Nat.min_0_l, Nat.max_r, Nat.sub_0_r by lia.
  symmetry. apply substring_of_prefix. lia.
Qed.

Lemma substring_append_left (x y : string) : forall a m,
  (a + m <= String.length x)%nat ->
  String.substring a m (x ++ y) = String.substring a m x.
Proof.
  induction x as [|c x IH]; intros a m Hle; cbn [String.length] in Hle.
  - assert (a = 0%nat) by lia. assert (m = 0%nat) by lia. subst.
    cbn [append]. destruct y; reflexivity.
  - cbn [append]. destruct a as [|a].
    + destruct m as [|m]; [reflexivity|].
      cbn [String.substring]. f_equal. apply (IH 0%nat). lia.
    + cbn [String.substring]. apply IH. lia.
Qed.

Lemma substring_append_right (x y : string) : forall a m,
  String.substring (String.length x + a) m (x ++ y) = String.substring a m y.
Proof.
  induction x as [|c x IH]; intros a m; [reflexivity|].
  cbn [String.length append Nat.add String.substring]. apply IH.
Qed.

Lemma substring_whole (x : string) :
  String.substring 0 (String.length x) x = x.
Proof.
  induction x as [|c x IH]; [reflexivity|].
  cbn [String.length String.substring]. now rewrite IH.
Qed.

End SubstringFacts.

(** [parseInt] of one character: its value when it is a digit, NaN
    otherwise (white space, a sign and a letter alike). *)
Lemma parseInt_one_character (c : ascii) :
  parseInt (String c EmptyString)
  = if isDigit c then Int (code c - 48) else NaN.
Proof.
  destruct c as [[] [] [] [] [] [] [] []]; reflexivity.
Qed.

Lemma checkDigitLoop_append (x y : string) : forall i sum,
  checkDigitLoop (x ++ y) i sum
  = checkDigitLoop y (String.length x + i) (checkDigitLoop x i sum).
Proof.
  induction x as [|c x IH]; intros i sum; [reflexivity|].
  cbn [append checkDigitLoop String.length]. rewrite IH.
  now rewrite Nat.add_succ_r.
Qed.

Lemma checkDigitLoop_fill (n : nat) : forall i acc,
  checkDigitLoop (fill n) i (Int acc) = Int acc.
Proof.
  induction n as [|n IH]; intros i acc; [reflexivity|].
  cbn [fill checkDigitLoop]. rewrite weights_nth.
  cbn [Ascii.eqb Bool.eqb Num.mul Num.add].
  rewrite Z.mul_0_l, Z.add_0_r. apply IH.
Qed.

Lemma stripTrailingFill_fill (s : string) :
  exists n, s = stripTrailingFill s ++ fill n.
Proof.
  induction s as [|c s [n IH]].
  - exists 0%nat. reflexivity.
  - cbn [stripTrailingFill].
    destruct (Ascii.eqb c "<") eqn:Ec; cbn [andb].
    + destruct (stripTrailingFill s) as [|d r] eqn:Er; cbn [truthy negb].
      * exists (S n). apply Ascii.eqb_eq in Ec. subst c.
        cbn [append fill]. f_equal. exact IH.
      * exists n. cbn [append]. f_equal. exact IH.
    + exists n. cbn [append]. f_equal. exact IH.
Qed.

Lemma check_digit_fill (data : string) (n : nat) :
  calculateCheckDigit (data ++ fill n) = calculateCheckDigit data.
Proof.
  unfold calculateCheckDigit.
  rewrite checkDigitLoop_append, (checkDigitLoop_sum data).
  now rewrite checkDigitLoop_fill.
Qed.

Lemma check_digit_strip (data : string) :
  calculateCheckDigit (stripTrailingFill data) = calculateCheckDigit data.
Proof.
  destruct (stripTrailingFill_fill data) as [n E].
  rewrite E at 2. now rewrite check_digit_fill.
Qed.

(** The fill character counts 0 in any position, so a trailing run of it
    does not change the check digit: validating the document number after
    its trailing fill was stripped, as [parseTD3] and [parseTD1] do, accepts
    the same check digits as validating the nine printed columns. *)
Theorem check_digit_ignores_trailing_fill (data : string) :
  (forall n, calculateCheckDigit (data ++ fill n) = calculateCheckDigit data)
  /\ calculateCheckDigit (stripTrailingFill data) = calculateCheckDigit data
  /\ (forall checkDigit,
        validateCheckDigit (stripTrailingFill data) checkDigit
        = validateCheckDigit data checkDigit).
Proof.
  split; [|split].
  - intro n. apply check_digit_fill.
  - apply check_digit_strip.
  - intro checkDigit. unfold validateCheckDigit.
    now rewrite check_digit_strip.
Qed.

Lemma validateCheckDigit_empty (data : string) :
  validateCheckDigit data EmptyString = false.
Proof. unfold validateCheckDigit. rewrite calculateCheckDigit_rem. reflexivity. Qed.

(** A one-character check digit is accepted exactly when it is a decimal
    digit equal to the computed check digit; the fill character, a letter
    and the empty string (a line too short to hold the column) are always
    rejected. *)
Theorem validateCheckDigit_one_character (data : string) :
  (forall c, validateCheckDigit data (String c EmptyString) = true
             <-> isDigit c = true
                 /\ calculateCheckDigit data = Int (code c - 48))
  /\ validateCheckDigit data "<" = false
  /\ validateCheckDigit data EmptyString = false.
Proof.
  assert (Hone : forall c, validateCheckDigit data (String c EmptyString) = true
             <-> isDigit c = true
                 /\ calculateCheckDigit data = Int (code c - 48)).
  { intro c. unfold validateCheckDigit.
    rewrite parseInt_one_character, calculateCheckDigit_rem.
    destruct (isDigit c); cbn [Num.eqb].
    - rewrite Z.eqb_eq. split.
      + intro E. split; [reflexivity | now rewrite E].
      + intros [_ E]. now injection E.
    - split; [discriminate | intros [E _]; discriminate E]. }
  split; [exact Hone|]. split.
  - destruct (validateCheckDigit data "<") eqn:E; [|reflexivity].
    apply Hone in E as [E _]. discriminate E.
  - apply validateCheckDigit_empty.
Qed.

(** The validity flag and the fields of the first 28 columns of line 2 of a
    TD3 record depend on those columns only: line 1, the personal number,
    its check digit (column 43) and the composite check digit (column 44)
    are never consulted for them. *)
Theorem td3_validity_reads_28_columns (line1 line1' line2 line2' : string) :
  substring 0 28 line2 = substring 0 28 line2' ->
  let m := parseTD3 line1 line2 in
  let m' := parseTD3 line1' line2' in
  checksumValid m = checksumValid m'
  /\ mrz_documentNumber m = mrz_documentNumber m'
  /\ mrz_nationality m = mrz_nationality m'
  /\ mrz_dateOfBirth m = mrz_dateOfBirth m'
  /\ mrz_sex m = mrz_sex m'
  /\ mrz_expiryDate m = mrz_expiryDate m'.
Proof.
  intros Hpre m m'. subst m m'. unfold parseTD3.
  cbn [checksumValid mrz_documentNumber mrz_nationality mrz_dateOfBirth
       mrz_sex mrz_expiryDate].
  rewrite (js_substring_of_prefix line2 0 9 28),
          (js_substring_of_prefix line2 9 10 28),
          (js_substring_of_prefix line2 10 13 28),
          (js_substring_of_prefix line2 13 19 28),
          (js_substring_of_prefix line2 19 20 28),
          (js_substring_of_prefix line2 20 21 28),
          (js_substring_of_prefix line2 21 27 28),
          (js_substring_of_prefix line2 27 28 28) by lia.
  rewrite (js_substring_of_prefix line2' 0 9 28),
          (js_substring_of_prefix line2' 9 10 28),
          (js_substring_of_prefix line2' 10 13 28),
          (js_substring_of_prefix line2' 13 19 28),
          (js_substring_of_prefix line2' 19 20 28),
          (js_substring_of_prefix line2' 20 21 28),
          (js_substring_of_prefix line2' 21 27 28),
          (js_substring_of_prefix line2' 27 28 28) by lia.
  rewrite Hpre. repeat split.
Qed.

(** Only the length of the first line is tested before a card is decoded:
    three lines whose first has length 30 are decoded whatever the other
    two are, and when the second is too short to hold the expiry check
    digit (fewer than 15 characters) the record is flagged invalid and its
    fields get confidence 70. *)
Theorem td1_short_second_line (line1 line2 line3 : string) :
  String.length line1 = 30%nat ->
  (String.length line2 < 15)%nat ->
  parseMRZ [line1; line2; line3] = Ret (Some (parseTD1 line1 line2 line3))
  /\ checksumValid (parseTD1 line1 line2 line3) = false
  /\ recordConfidence (parseTD1 line1 line2 line3) = 70.
Proof.
  intros H1 H2.
  assert (Hvalid : checksumValid (parseTD1 line1 line2 line3) = false).
  { unfold parseTD1. cbn [checksumValid].
    assert (E : substring 14 15 line2 = EmptyString).
    { unfold substring. cbn [Nat.min Nat.max Nat.sub].
      apply substring_beyond. lia. }
    rewrite E, validateCheckDigit_empty. now rewrite andb_false_r. }
  split; [|split].
  - unfold parseMRZ, parseMRZ_with, lengthOf. cbn. rewrite H1. reflexivity.
  - exact Hvalid.
  - unfold recordConfidence. now rewrite Hvalid.
Qed.

Section CleanValues.

Lemma fillToSpace_no_fill (s : string) : ~ In "<"%char (chars (fillToSpace s)).
Proof.
  unfold chars. induction s as [|c s IH]; cbn [fillToSpace list_ascii_of_string In].
  - tauto.
  - intros [E|Hin]; [|exact (IH Hin)].
    destruct (Ascii.eqb c "<") eqn:Ec; [discriminate E|].
    apply Ascii.eqb_neq in Ec. exact (Ec E).
Qed.

Lemma trimStart_chars (s : string) (c : ascii) :
  In c (chars (trimStart s)) -> In c (chars s).
Proof.
  unfold chars. induction s as [|d s IH]; cbn [trimStart]; [tauto|].
  destruct (isWhiteSpace d); [|tauto].
  intro Hin. cbn [list_ascii_of_string In]. right. exact (IH Hin).
Qed.

Lemma trimEnd_chars (s : string) (c : ascii) :
  In c (chars (trimEnd s)) -> In c (chars s).
Proof.
  unfold chars. induction s as [|d s IH]; cbn [trimEnd]; [tauto|].
  destruct (isWhiteSpace d && negb (truthy (trimEnd s)));
    cbn [list_ascii_of_string In]; [tauto|].
  intros [E|Hin]; [now left | right; exact (IH Hin)].
Qed.

Lemma trim_chars (s : string) (c : ascii) :
  In c (chars (trim s)) -> In c (chars s).
Proof. intro Hin. apply trimStart_chars, trimEnd_chars. exact Hin. Qed.

Lemma trimEnd_idempotent (s : string) : trimEnd (trimEnd s) = trimEnd s.
Proof.
  induction s as [|c s IH]; [reflexivity|]. cbn [trimEnd].
  destruct (isWhiteSpace c && negb (truthy (trimEnd s))) eqn:E; [reflexivity|].
  cbn [trimEnd]. now rewrite IH, E.
Qed.

(** A string that does not begin with white space. *)
Lemma trimStart_startsClean (s : string) : startsClean (trimStart s).
Proof.
  unfold startsClean. induction s as [|c s IH]; [reflexivity|].
  cbn [trimStart]. destruct (isWhiteSpace c) eqn:E; [exact IH|].
  cbn [trimStart]. now rewrite E.
Qed.

Lemma trimEnd_startsClean (s : string) :
  startsClean s -> startsClean (trimEnd s).
Proof.
  unfold startsClean. destruct s as [|c s]; [reflexivity|].
  cbn [trimStart trimEnd]. destruct (isWhiteSpace c) eqn:E.
  - intro Hs. exfalso.
    assert (Hlen : (String.length (trimStart s) <= String.length s)%nat).
    { clear. induction s as [|d s IH]; [apply Nat.le_refl|].
      cbn [trimStart]. destruct (isWhiteSpace d); cbn [String.length]; lia. }
    rewrite Hs in Hlen. cbn [String.length] in Hlen. lia.
  - intros _. cbn [andb trimStart]. now rewrite E.
Qed.

Lemma trim_idempotent (s : string) : trim (trim s) = trim s.
Proof.
  unfold trim.
  rewrite (trimEnd_startsClean _ (trimStart_startsClean s)).
  apply trimEnd_idempotent.
Qed.

Lemma stripTrailingFill_idempotent (s : string) :
  stripTrailingFill (stripTrailingFill s) = stripTrailingFill s.
Proof.
  induction s as [|c s IH]; [reflexivity|]. cbn [stripTrailingFill].
  destruct (Ascii.eqb c "<" && negb (truthy (stripTrailingFill s))) eqn:E;
    [reflexivity|].
  cbn [stripTrailingFill]. now rewrite IH, E.
Qed.

Lemma name_piece_clean (piece : string) :
  ~ In "<"%char (chars (trim (fillToSpace piece)))
  /\ trim (trim (fillToSpace piece)) = trim (fillToSpace piece).
Proof.
  split; [|apply trim_idempotent].
  intro Hin. exact (fillToSpace_no_fill piece (trim_chars _ _ Hin)).
Qed.

Lemma surname_clean (namePart : list string) :
  ~ In "<"%char (chars (surname namePart))
  /\ trim (surname namePart) = surname namePart.
Proof.
  unfold surname. destruct (nth_error namePart 0) as [p|].
  - apply name_piece_clean.
  - split; [cbn; tauto | reflexivity].
Qed.

Lemma givenNames_clean (namePart : list string) :
  ~ In "<"%char (chars (givenNames namePart))
  /\ trim (givenNames namePart) = givenNames namePart.
Proof.
  unfold givenNames. destruct (nth_error namePart 1) as [p|].
  - apply name_piece_clean.
  - split; [cbn; tauto | reflexivity].
Qed.

(** Whatever the lines hold, the decoded names contain no fill character
    and neither begin nor end with white space, and the document type,
    issuing country, document number, nationality and personal number do
    not end with a fill character. *)
Theorem decoded_values_are_clean (line1 line2 line3 : string) :
  cleanRecord (parseTD3 line1 line2)
  /\ cleanRecord (parseTD1 line1 line2 line3).
Proof.
  split; unfold cleanRecord, parseTD3, parseTD1;
    cbn [mrz_lastName mrz_firstName mrz_documentType mrz_issuingCountry
         mrz_documentNumber mrz_nationality mrz_personalNumber value];
    (split; [apply surname_clean|]);
    (split; [apply givenNames_clean|]);
    (split; [apply surname_clean|]);
    (split; [apply givenNames_clean|]);
    repeat (apply Forall_cons || apply Forall_nil);
    solve [apply stripTrailingFill_idempotent | reflexivity].
Qed.

End CleanValues.

(** Destructure a string whose length is known into its characters. *)
Ltac explode H :=
  match type of H with
  | String.length ?s = O => destruct s; [clear H | discriminate H]
  | String.length ?s = S _ =>
      destruct s as [|? s];
      [ discriminate H
      | cbn [String.length] in H; injection H as H; explode H ]
  end.

(** The columns of a TD3 record: with line 1 made of a two-column type, a
    three-column country and the names, and line 2 made of the nine-column
    number, its check digit, the nationality, the date of birth and its
    check digit, the sex, the expiry date and its check digit and the
    fourteen-column personal number, each field is decoded from its own
    columns (codes and numbers without their trailing fill, dates
    normalised), and the record is valid exactly when the three check
    digits validate. *)
Theorem parseTD3_columns
    (ty country names number c1 nat dob c2 sx expiry c3 personal c4 c5 : string) :
  String.length ty = 2%nat -> String.length country = 3%nat ->
  String.length number = 9%nat -> String.length c1 = 1%nat ->
  String.length nat = 3%nat -> String.length dob = 6%nat ->
  String.length c2 = 1%nat -> String.length sx = 1%nat ->
  String.length expiry = 6%nat -> String.length c3 = 1%nat ->
  String.length personal = 14%nat ->
  let m := parseTD3 (ty ++ country ++ names)
                    (td3Line2 number c1 nat dob c2 sx expiry c3 personal c4 c5) in
  value (mrz_documentType m) = stripTrailingFill ty
  /\ value (mrz_issuingCountry m) = stripTrailingFill country
  /\ value (mrz_lastName m) = surname (splitFill2 names)
  /\ value (mrz_firstName m) = givenNames (splitFill2 names)
  /\ value (mrz_documentNumber m) = stripTrailingFill number
  /\ value (mrz_nationality m) = stripTrailingFill nat
  /\ value (mrz_dateOfBirth m) = parseDate dob
  /\ value (mrz_sex m) = sx
  /\ value (mrz_expiryDate m) = parseDate expiry
  /\ value (mrz_personalNumber m) = stripTrailingFill personal
  /\ checksumValid m
     = validateCheckDigit number c1 && validateCheckDigit dob c2
       && validateCheckDigit expiry c3.
Proof.
  intros Hty Hcountry Hnumber Hc1 Hnat Hdob Hc2 Hsx Hexpiry Hc3 Hpersonal m.
  assert (Hstrip : forall check,
             validateCheckDigit number check
             = validateCheckDigit (stripTrailingFill number) check).
  { intro check. unfold validateCheckDigit.
    now rewrite check_digit_strip. }
  rewrite Hstrip. subst m. unfold td3Line2.
  explode Hty; explode Hcountry; explode Hnumber; explode Hc1; explode Hnat;
    explode Hdob; explode Hc2; explode Hsx; explode Hexpiry; explode Hc3;
    explode Hpersonal.
  cbn [append].
  match goal with
  | |- context [parseTD3 ?l1 _] =>
      assert (Hnames : substringFrom 5 l1 = names)
        by (unfold substringFrom;
            cbn [String.length Nat.sub String.substring];
            rewrite Nat.sub_0_r; apply substring_whole)
  end.
  unfold parseTD3. rewrite Hnames. repeat split;
    cbn [value mrz_issuingCountry mrz_personalNumber];
    unfold Js.substring; cbn [Nat.min Nat.max Nat.sub String.substring];
    now rewrite substring_nothing.
Qed.

(** The columns of a TD1 record: line 1 holds the type, the country, the
    nine-column number and its check digit; line 2 the date of birth and
    its check digit, the sex, the expiry date and its check digit and the
    nationality; line 3 the names.  The personal number is always empty
    with confidence 0, and the record is valid exactly when the three check
    digits validate. *)
Theorem parseTD1_columns
    (ty country number c1 optional1 dob c2 sx expiry c3 nat optional2 names
     : string) :
  String.length ty = 2%nat -> String.length country = 3%nat ->
  String.length number = 9%nat -> String.length c1 = 1%nat ->
  String.length dob = 6%nat -> String.length c2 = 1%nat ->
  String.length sx = 1%nat -> String.length expiry = 6%nat ->
  String.length c3 = 1%nat -> String.length nat = 3%nat ->
  let m := parseTD1 (td1Line1 ty country number c1 optional1)
                    (td1Line2 dob c2 sx expiry c3 nat optional2) names in
  value (mrz_documentType m) = stripTrailingFill ty
  /\ value (mrz_issuingCountry m) = stripTrailingFill country
  /\ value (mrz_documentNumber m) = stripTrailingFill number
  /\ value (mrz_dateOfBirth m) = parseDate dob
  /\ value (mrz_sex m) = sx
  /\ value (mrz_expiryDate m) = parseDate expiry
  /\ value (mrz_nationality m) = stripTrailingFill nat
  /\ value (mrz_lastName m) = surname (splitFill2 names)
  /\ value (mrz_firstName m) = givenNames (splitFill2 names)
  /\ mrz_personalNumber m = mkField EmptyString 0
  /\ checksumValid m
     = validateCheckDigit number c1 && validateCheckDigit dob c2
       && validateCheckDigit expiry c3.
Proof.
  intros Hty Hcountry Hnumber Hc1 Hdob Hc2 Hsx Hexpiry Hc3 Hnat m.
  assert (Hstrip : forall check,
             validateCheckDigit number check
             = validateCheckDigit (stripTrailingFill number) check).
  { intro check. unfold validateCheckDigit.
    now rewrite check_digit_strip. }
  rewrite Hstrip. subst m. unfold td1Line1, td1Line2.
  explode Hty; explode Hcountry; explode Hnumber; explode Hc1; explode Hdob;
    explode Hc2; explode Hsx; explode Hexpiry; explode Hc3; explode Hnat.
  cbn [append]. unfold parseTD1. repeat split;
    cbn [value mrz_nationality];
    unfold Js.substring; cbn [Nat.min Nat.max Nat.sub String.substring];
    now rewrite substring_nothing.
Qed.

(** The first pattern, in the order given, whose first capture group is a
    non-empty string decides the field: its capture, trimmed, with
    confidence 75; when no pattern has one, the field is empty with
    confidence 0. *)
Theorem extractFieldFromText_first_match `{Host}
    (text : string) (earlier later : list RegExp) (pattern : RegExp)
    (captured : string) :
  Forall (fun p => capture text p 1 = None) earlier ->
  (capture text pattern 1 = Some captured ->
   extractFieldFromText text (earlier ++ pattern :: later)%list
   = mkField (trim captured) 75)
  /\ extractFieldFromText text earlier = mkField EmptyString 0.
Proof.
  intro Hnone. induction Hnone as [|p earlier Hp _ IH].
  - split; [|reflexivity]. intro Hcap. cbn [app extractFieldFromText].
    now rewrite Hcap.
  - destruct IH as [IHmatch IHnone]. split.
    + intro Hcap. cbn [app extractFieldFromText]. rewrite Hp. now apply IHmatch.
    + cbn [extractFieldFromText]. now rewrite Hp.
Qed.

(* ================================================================= *)
(** * Further properties of the validation engine *)

Section ValidationBlocks.
Context `{Host}.

Lemma block_lengths doc :
  (List.length (emitted (checkDocumentNumber doc)) <= 1)%nat
  /\ (List.length (emitted (checkExpiryDate doc)) <= 2)%nat
  /\ (List.length (emitted (checkDateOfBirth doc)) <= 1)%nat
  /\ (List.length (emitted (checkName doc)) <= 1)%nat
  /\ (List.length (emitted (checkNationality doc)) <= 1)%nat
  /\ (List.length (emitted (checkMRZ doc)) <= 3)%nat.
Proof.
  repeat apply conj.
  - unfold checkDocumentNumber. emitted_cases; cbn [List.length]; lia.
  - unfold checkExpiryDate. emitted_cases; cbn [List.length]; lia.
  - unfold checkDateOfBirth. emitted_cases; cbn [List.length]; lia.
  - unfold checkName. emitted_cases; cbn [List.length]; lia.
  - unfold checkNationality. emitted_cases; cbn [List.length]; lia.
  - unfold checkMRZ, validateMRZConsistency. emitted_cases; cbn [List.length]; lia.
Qed.

(** [validateDocument] returns for every document, whatever the date
    library returns or throws: at most nine checks, each about one of the
    eight check names, and without an MRZ record at most six, none of them
    an MRZ-consistency check. *)
Theorem validateDocument_always_returns (doc : ExtractedDocument) :
  exists checks,
    validateDocument doc = Ret checks
    /\ (List.length checks <= 9)%nat
    /\ Forall (fun c => ownField c
                        \/ In (field c) ["mrzChecksum"; "documentNumberMatch";
                                         "nameMatch"]) checks
    /\ (mrzData doc = None ->
        Forall ownField checks /\ (List.length checks <= 6)%nat).
Proof.
  eexists. split; [apply validateDocument_blocks|].
  destruct (block_lengths doc) as (L1 & L2 & L3 & L4 & L5 & L6).
  pose proof (own_blocks_fields doc) as Hown.
  pose proof (checkMRZ_fields doc) as Hmrz.
  split; [|split].
  - rewrite !length_app. lia.
  - rewrite !app_assoc. apply Forall_app. split.
    + rewrite <- !app_assoc. revert Hown. apply Forall_impl. intros c Hc. now left.
    + revert Hmrz. apply Forall_impl. intros c Hc. now right.
  - intro Hnone.
    assert (E : emitted (checkMRZ doc) = []).
    { unfold checkMRZ. rewrite Hnone. reflexivity. }
    rewrite E. split.
    + rewrite !app_assoc, app_nil_r, <- !app_assoc. exact Hown.
    + rewrite !length_app. cbn [List.length]. lia.
Qed.

(** The checks about the date of birth are those of the birth-date block. *)
Lemma birth_checks_of_validateDocument doc :
  exists checks,
    validateDocument doc = Ret checks
    /\ checksFor "dateOfBirth" checks = emitted (checkDateOfBirth doc).
Proof.
  eexists. split; [apply validateDocument_blocks|].
  rewrite !checksFor_app.
  rewrite (checksFor_same _ _ (checkDateOfBirth_fields doc)).
  rewrite (checksFor_other _ _ _ (checkDocumentNumber_fields doc)),
          (checksFor_other _ _ _ (checkExpiryDate_fields doc)),
          (checksFor_other _ _ _ (checkName_fields doc)),
          (checksFor_other _ _ _ (checkNationality_fields doc)),
          (checksFor_other _ _ _ (checkMRZ_fields doc));
    try (intros c E; try rewrite E; discriminate).
  - cbn [app]. now rewrite app_nil_r.
  - intros c. cbn [In]. intros [E|[E|[E|[]]]]; rewrite <- E; discriminate.
Qed.

(** The expiry check on a date the library parsed: one check with the
    field's confidence that fails with "Document has expired" when the date
    is before now and passes with "Document is valid" otherwise, followed,
    exactly when the date is not before now and fewer than 6 whole months
    remain, by a warning that states the month count; the pass check stays.
    When [parseISO] throws, the single check is the fail check with
    confidence 50. *)
Theorem expiry_checks_on_a_date (doc : ExtractedDocument) :
  Js.truthy (value (expiryDate doc)) = true ->
  exists checks,
    validateDocument doc = Ret checks
    /\ (parseISO (value (expiryDate doc)) = Throw ->
        checksFor "expiryDate" checks
        = [ {| field := "expiryDate"; status := st_fail;
               message := "Invalid expiry date format";
               checkConfidence := 50 |} ])
    /\ (forall expiry isExpired months,
          parseISO (value (expiryDate doc)) = Ret expiry ->
          isBefore expiry newDate = Ret isExpired ->
          differenceInMonths expiry newDate = Ret months ->
          checksFor "expiryDate" checks
          = {| field := "expiryDate";
               status := if isExpired then st_fail else st_pass;
               message := if isExpired then "Document has expired"
                          else "Document is valid";
               checkConfidence := confidence (expiryDate doc) |}
            :: (if negb isExpired && Num.ltb months (Int 6)
                then [ {| field := "expiryDate"; status := st_warning;
                          message := "Document expires in "
                                     ++ Num.toString months ++ " months";
                          checkConfidence := confidence (expiryDate doc) |} ]
                else [])).
Proof.
  intro Hval.
  destruct (expiry_checks_of_validateDocument doc) as (checks & Hrun & Hexp).
  exists checks. split; [exact Hrun|]. rewrite Hexp.
  unfold checkExpiryDate, emitted, Eff.when, Eff.tryCatch, Eff.bind, Eff.call,
    Eff.push, Eff.ret.
  rewrite Hval. split.
  - intros ->. reflexivity.
  - intros expiry isExpired months -> -> ->. cbv beta iota.
    destruct (negb isExpired && Num.ltb months (Int 6)); reflexivity.
Qed.

(** The birth-date check: when [parseISO] throws, a fail check with
    confidence 50; on an age of whole years from the library, a fail check
    "Date of birth is invalid" when the age is below 0 or above 120, and
    otherwise a pass check reporting the age, both with the field's
    confidence.  An age of NaN (the date was not parsed) is neither below 0
    nor above 120: the check passes and reports "Age: NaN years". *)
Theorem birth_check_by_age (doc : ExtractedDocument) :
  Js.truthy (value (dateOfBirth doc)) = true ->
  exists checks,
    validateDocument doc = Ret checks
    /\ (parseISO (value (dateOfBirth doc)) = Throw ->
        checksFor "dateOfBirth" checks
        = [ {| field := "dateOfBirth"; status := st_fail;
               message := "Invalid date of birth format";
               checkConfidence := 50 |} ])
    /\ (forall dob age,
          parseISO (value (dateOfBirth doc)) = Ret dob ->
          differenceInYears newDate dob = Ret (Int age) ->
          checksFor "dateOfBirth" checks
          = [ if (age <? 0) || (120 <? age)
              then {| field := "dateOfBirth"; status := st_fail;
                      message := "Date of birth is invalid";
                      checkConfidence := confidence (dateOfBirth doc) |}
              else {| field := "dateOfBirth"; status := st_pass;
                      message := "Age: " ++ Num.Z_toString age ++ " years";
                      checkConfidence := confidence (dateOfBirth doc) |} ])
    /\ (forall dob,
          parseISO (value (dateOfBirth doc)) = Ret dob ->
          differenceInYears newDate dob = Ret NaN ->
          checksFor "dateOfBirth" checks
          = [ {| field := "dateOfBirth"; status := st_pass;
                 message := "Age: NaN years";
                 checkConfidence := confidence (dateOfBirth doc) |} ]).
Proof.
  intro Hval.
  destruct (birth_checks_of_validateDocument doc) as (checks & Hrun & Hdob).
  exists checks. split; [exact Hrun|]. rewrite Hdob.
  unfold checkDateOfBirth, emitted, Eff.when, Eff.tryCatch, Eff.bind, Eff.call,
    Eff.push, Eff.ret.
  rewrite Hval. split; [|split].
  - intros ->. reflexivity.
  - intros dob age -> ->. cbv beta iota. unfold Num.gtb, Num.ltb.
    destruct ((age <? 0) || (120 <? age)); reflexivity.
  - intros dob -> ->. reflexivity.
Qed.

End ValidationBlocks.

Section Similarity.

Lemma substring_length_le (s : string) : forall a m,
  (String.length (String.substring a m s) <= String.length s)%nat.
Proof.
  induction s as [|c s IH]; intros a m.
  - rewrite substring_empty. apply Nat.le_refl.
  - destruct a as [|a]; cbn [String.substring].
    + destruct m as [|m]; cbn [String.length]; [lia|].
      specialize (IH 0%nat m). lia.
    + specialize (IH a m). cbn [String.length]. lia.
Qed.

Lemma prefix_length (t s : string) :
  String.prefix t s = true -> (String.length t <= String.length s)%nat.
Proof.
  intro Hp. apply prefix_correct in Hp.
  pose proof (substring_length_le s 0 (String.length t)) as Hle.
  now rewrite Hp in Hle.
Qed.

Lemma includes_length (s t : string) :
  includes s t = true -> (String.length t <= String.length s)%nat.
Proof.
  induction s as [|c s IH]; cbn [includes]; intro Hin;
    apply orb_prop in Hin as [Hp|Hr].
  - now apply prefix_length.
  - discriminate Hr.
  - now apply prefix_length.
  - specialize (IH Hr). cbn [String.length]. lia.
Qed.

Lemma includes_same_length (s t : string) :
  String.length s = String.length t -> includes s t = true -> s = t.
Proof.
  intros Hlen Hin. destruct s as [|c s]; cbn [includes] in Hin;
    apply orb_prop in Hin as [Hp|Hr].
  - destruct t; [reflexivity | discriminate Hlen].
  - discriminate Hr.
  - apply prefix_correct in Hp. rewrite <- Hlen, substring_whole in Hp.
    now symmetry.
  - apply includes_length in Hr. cbn [String.length] in Hlen. lia.
Qed.

Lemma countMatches_le (longer shorter : string) :
  (countMatches longer shorter <= String.length shorter)%nat.
Proof.
  revert longer. induction shorter as [|c s IH]; intro longer;
    [destruct longer; apply Nat.le_refl|].
  destruct longer as [|d l]; cbn [countMatches String.length]; [lia|].
  specialize (IH l). destruct (Ascii.eqb d c); lia.
Qed.

Lemma countMatches_sym (x y : string) : countMatches x y = countMatches y x.
Proof.
  revert y. induction x as [|c x IH]; intro y; destruct y as [|d y];
    cbn [countMatches]; try reflexivity.
  now rewrite IH, Ascii.eqb_sym.
Qed.

Lemma countMatches_full (x y : string) :
  String.length x = String.length y ->
  countMatches x y = String.length y -> x = y.
Proof.
  revert y. induction x as [|c x IH]; intros y Hlen Hfull;
    destruct y as [|d y]; try discriminate Hlen; [reflexivity|].
  cbn [countMatches String.length] in *.
  pose proof (countMatches_le x y) as Hle.
  destruct (Ascii.eqb_spec c d) as [->|Hne]; [|lia].
  f_equal. apply IH; lia.
Qed.

Lemma pos_of_nat_Z (n : nat) : (0 < n)%nat -> Z.pos (Pos.of_nat n) = Z.of_nat n.
Proof.
  intro Hn. rewrite <- positive_nat_Z, Nat2Pos.id; [reflexivity | lia].
Qed.

(** The similarity of two strings after normalisation (lower case, letters
    only) lies between 0 and 1, is 1 exactly when the normalised strings
    are equal, and does not depend on the order of the two strings. *)
Theorem compareStrings_range_and_symmetry (a b : string) :
  (0 <= compareStrings a b)%Q
  /\ (compareStrings a b <= 1)%Q
  /\ ((compareStrings a b == 1)%Q <-> normalize a = normalize b)
  /\ compareStrings a b = compareStrings b a.
Proof.
  unfold compareStrings.
  set (str1 := normalize a). set (str2 := normalize b).
  rewrite (String.eqb_sym str2 str1).
  destruct (String.eqb_spec str1 str2) as [E|Hne].
  { repeat split; try discriminate; auto. }
  assert (Hratio : forall longer shorter,
             (String.length shorter <= String.length longer)%nat ->
             longer <> shorter ->
             let q := (Z.of_nat (countMatches longer shorter)
                       # Pos.of_nat (String.length longer))%Q in
             (0 <= q)%Q /\ (q <= 1)%Q /\ ~ (q == 1)%Q).
  { intros longer shorter Hlen Hdiff q. subst q.
    pose proof (countMatches_le longer shorter) as Hle.
    unfold Qle, Qeq. cbn [Qnum Qden].
    destruct (String.length longer) as [|n] eqn:En.
    - destruct longer; [|discriminate En]. destruct shorter; [|cbn in Hlen; lia].
      now contradiction Hdiff.
    - rewrite pos_of_nat_Z by lia. repeat split; try lia.
      intro Heq. apply Hdiff.
      assert (Hsame : String.length longer = String.length shorter) by lia.
      apply countMatches_full; [exact Hsame | lia]. }
  assert (Hcases : forall longer shorter,
             (String.length shorter <= String.length longer)%nat ->
             longer <> shorter ->
             let q := if includes longer shorter then (9 # 10)%Q
                      else (Z.of_nat (countMatches longer shorter)
                            # Pos.of_nat (String.length longer))%Q in
             (0 <= q)%Q /\ (q <= 1)%Q /\ ~ (q == 1)%Q).
  { intros longer shorter Hlen Hdiff q. subst q.
    destruct (includes longer shorter); [|now apply Hratio].
    repeat split; discriminate. }
  destruct (Nat.ltb_spec (String.length str2) (String.length str1)) as [Hlt|Hge].
  - destruct (Hcases str1 str2) as (H0 & H1 & Hn1); [lia | exact Hne |].
    split; [exact H0|]. split; [exact H1|]. split; [tauto|].
    destruct (Nat.ltb_spec (String.length str1) (String.length str2)); [lia|].
    reflexivity.
  - destruct (Hcases str2 str1) as (H0 & H1 & Hn1); [lia | congruence |].
    split; [exact H0|]. split; [exact H1|]. split; [tauto|].
    destruct (Nat.ltb_spec (String.length str1) (String.length str2)) as [Hlt|Hge'].
    + reflexivity.
    + assert (Hsame : String.length str1 = String.length str2) by lia.
      destruct (includes str2 str1) eqn:I21.
      { exfalso. apply Hne. symmetry. now apply includes_same_length. }
      destruct (includes str1 str2) eqn:I12.
      { exfalso. apply Hne. now apply includes_same_length. }
      now rewrite (countMatches_sym str2 str1), Hsame.
Qed.

End Similarity.

(* ================================================================= *)
(** * Further properties of the eligibility engine *)

Section Includes.

Lemma includes_unfold (s t : string) :
  includes s t
  = (String.prefix t s
     || match s with
        | EmptyString => false
        | String _ rest => includes rest t
        end).
Proof. destruct s; reflexivity. Qed.

Lemma prefix_append (x s t : string) :
  String.prefix x s = true -> String.prefix x (s ++ t) = true.
Proof.
  intro Hp. pose proof (prefix_length x s Hp) as Hlen.
  apply prefix_correct in Hp. apply prefix_correct.
  rewrite substring_append_left by lia. exact Hp.
Qed.

Lemma prefix_self_append (x t : string) : String.prefix x (x ++ t) = true.
Proof.
  apply prefix_correct.
  rewrite substring_append_left by lia. apply substring_whole.
Qed.

Lemma includes_append_left (s t x : string) :
  includes s x = true -> includes (s ++ t) x = true.
Proof.
  induction s as [|c s IH]; rewrite includes_unfold; intro Hin;
    apply orb_prop in Hin as [Hp|Hr];
    rewrite includes_unfold.
  - now rewrite (prefix_append _ _ t Hp).
  - discriminate Hr.
  - now rewrite (prefix_append _ _ t Hp).
  - cbn [append]. rewrite (IH Hr). apply orb_true_r.
Qed.

Lemma includes_append_right (s t x : string) :
  includes t x = true -> includes (s ++ t) x = true.
Proof.
  intro Hin. induction s as [|c s IH]; [exact Hin|].
  cbn [append]. rewrite includes_unfold, IH. apply orb_true_r.
Qed.

Lemma includes_self_append (x t : string) : includes (x ++ t) x = true.
Proof. rewrite includes_unfold, prefix_self_append. reflexivity. Qed.

Lemma append_empty (x : string) : x ++ EmptyString = x.
Proof. induction x; cbn [append]; congruence. Qed.

Lemma append_assoc (x y z : string) : (x ++ y) ++ z = x ++ y ++ z.
Proof. induction x; cbn [append]; congruence. Qed.

(** Every string of a joined list is part of the result. *)
Lemma join_includes (sep : string) (xs : list string) (x : string) :
  In x xs -> includes (join sep xs) x = true.
Proof.
  induction xs as [|y ys IH]; [contradiction|].
  intros [->|Hin].
  - destruct ys as [|z zs]; cbn [join].
    + rewrite <- (append_empty x) at 1. apply includes_self_append.
    + apply includes_self_append.
  - destruct ys as [|z zs]; [contradiction|].
    change (join sep (y :: z :: zs)) with (y ++ sep ++ join sep (z :: zs)).
    apply includes_append_right, includes_append_right, IH, Hin.
Qed.

End Includes.

Section EligibilityRules.
Context `{Host}.

(** Each accumulated issue makes the applicant ineligible and is part of
    the reason. *)
Lemma issue_in_reason doc applicant policy issue :
  In issue (emitted (issuePassportValidity doc policy)
            ++ emitted (issueAllowedNationality doc applicant policy)
            ++ emitted (issueBlockedNationality doc applicant policy)
            ++ emitted (issueAge doc policy)
            ++ emitted (issuePassportNumber doc applicant))%list ->
  exists r,
    checkEligibility doc applicant policy = Ret r
    /\ eligible r = false
    /\ eligibilityConfidence r = 85
    /\ includes (reason r) issue = true.
Proof.
  intro Hin. unfold checkEligibility. rewrite eligibilityIssues_blocks.
  cbn [obind].
  match goal with
  | H : In issue ?l |- _ => destruct l as [|i issues] eqn:El; [contradiction|]
  end.
  eexists. split; [reflexivity|]. cbn [List.length Nat.eqb eligible reason
                                       eligibilityConfidence].
  repeat split. now apply join_includes.
Qed.

(** Whatever else holds of the document, each of these makes the applicant
    ineligible (confidence 85) with the rule's message in the reason: the
    nationality is on the block list; the allow list is non-empty and the
    nationality is not on it (an empty, unread nationality included); the
    declared passport number and the document number are both non-empty and
    differ. *)
Theorem violations_make_ineligible
    (doc : ExtractedDocument) (applicant : ApplicantData)
    (policy : EligibilityPolicy) :
  (forall blocked,
     blockedNationalities policy = Some blocked ->
     In (value (nationality doc)) blocked ->
     exists r, checkEligibility doc applicant policy = Ret r
               /\ eligible r = false /\ eligibilityConfidence r = 85
               /\ includes (reason r) (nationalityIssue doc applicant) = true)
  /\ (forall allowed,
        allowedNationalities policy = Some allowed ->
        allowed <> [] ->
        ~ In (value (nationality doc)) allowed ->
        exists r, checkEligibility doc applicant policy = Ret r
                  /\ eligible r = false /\ eligibilityConfidence r = 85
                  /\ includes (reason r) (nationalityIssue doc applicant) = true)
  /\ (passportNumber applicant <> EmptyString ->
      value (documentNumber doc) <> EmptyString ->
      passportNumber applicant <> value (documentNumber doc) ->
      exists r, checkEligibility doc applicant policy = Ret r
                /\ eligible r = false /\ eligibilityConfidence r = 85
                /\ includes (reason r)
                     "Passport number does not match application" = true).
Proof.
  assert (Hmem : forall xs x, arrayIncludes xs x = true <-> In x xs).
  { intros xs x. unfold arrayIncludes. rewrite existsb_exists. split.
    - intros (y & Hy & E). apply String.eqb_eq in E. now subst.
    - intro Hx. exists x. split; [exact Hx | apply String.eqb_refl]. }
  split; [|split].
  - intros blocked Hb Hin. apply issue_in_reason.
    apply in_or_app. right. apply in_or_app. right. apply in_or_app. left.
    unfold issueBlockedNationality, emitted, Eff.when. rewrite Hb.
    apply Hmem in Hin. rewrite Hin. now left.
  - intros allowed Ha Hne Hnot. apply issue_in_reason.
    apply in_or_app. right. apply in_or_app. left.
    unfold issueAllowedNationality, emitted, Eff.when. rewrite Ha.
    destruct allowed as [|a0 allowed]; [contradiction|]. cbn [List.length Nat.ltb Nat.leb].
    destruct (arrayIncludes (a0 :: allowed) (value (nationality doc))) eqn:E.
    + apply Hmem in E. contradiction.
    + now left.
  - intros Hp Hd Hdiff. apply issue_in_reason.
    do 4 (apply in_or_app; right).
    unfold issuePassportNumber, emitted, Eff.when.
    destruct (passportNumber applicant) as [|c p] eqn:Ep; [contradiction|].
    destruct (value (documentNumber doc)) as [|d n] eqn:Ed; [contradiction|].
    cbn [truthy andb]. apply String.eqb_neq in Hdiff. rewrite Hdiff. now left.
Qed.

End EligibilityRules.

Section MoreEligibilityRules.
Context `{Host}.

(** The passport-validity rule on a non-empty expiry date, for a policy
    whose [minPassportValidity] is a whole number of at most 2^53 - 1 in
    absolute value (which JavaScript holds exactly and prints in decimal
    digits): "Cannot verify passport validity period" when [parseISO]
    throws; on a month count from the library, the issue naming the
    required minimum exactly when the count is below [minPassportValidity];
    a count of NaN (the date was not parsed) is not below any minimum and
    adds nothing. *)
Theorem passport_validity_rule
    (doc : ExtractedDocument) (applicant : ApplicantData)
    (policy : EligibilityPolicy) :
  Js.truthy (value (expiryDate doc)) = true ->
  safeInteger (minPassportValidity policy) ->
  (parseISO (value (expiryDate doc)) = Throw ->
   exists r, checkEligibility doc applicant policy = Ret r
             /\ eligible r = false
             /\ includes (reason r) "Cannot verify passport validity period" = true)
  /\ (forall expiry months,
        parseISO (value (expiryDate doc)) = Ret expiry ->
        differenceInMonths expiry newDate = Ret (Int months) ->
        (months < minPassportValidity policy ->
         exists r, checkEligibility doc applicant policy = Ret r
                   /\ eligible r = false
                   /\ includes (reason r)
                        ("Passport must be valid for at least "
                         ++ Num.Z_toString (minPassportValidity policy)
                         ++ " months") = true)
        /\ (minPassportValidity policy <= months ->
            emitted (issuePassportValidity doc policy) = []))
  /\ (forall expiry,
        parseISO (value (expiryDate doc)) = Ret expiry ->
        differenceInMonths expiry newDate = Ret NaN ->
        emitted (issuePassportValidity doc policy) = []).
Proof.
  intros Hval _.
  assert (Hblock : forall issue,
             emitted (issuePassportValidity doc policy) = [issue] ->
             exists r, checkEligibility doc applicant policy = Ret r
                       /\ eligible r = false
                       /\ includes (reason r) issue = true).
  { intros issue E.
    destruct (issue_in_reason doc applicant policy issue) as (r & Hr & He & _ & Hi).
    - rewrite E. now left.
    - exists r. auto. }
  unfold issuePassportValidity, emitted, Eff.when, Eff.tryCatch, Eff.bind,
    Eff.call, Eff.push, Eff.ret in *.
  rewrite Hval in *. split; [|split].
  - intro Hthrow. apply Hblock. now rewrite Hthrow.
  - intros expiry months Hparse Hmonths. split.
    + intro Hlt. apply Hblock. rewrite Hparse. cbv beta iota. rewrite Hmonths.
      cbv beta iota. cbn [Num.ltb]. apply Z.ltb_lt in Hlt. now rewrite Hlt.
    + intro Hge. rewrite Hparse. cbv beta iota. rewrite Hmonths.
      cbv beta iota. cbn [Num.ltb]. apply Z.ltb_ge in Hge. now rewrite Hge.
  - intros expiry Hparse Hmonths. rewrite Hparse. cbv beta iota.
    now rewrite Hmonths.
Qed.

(** The allow list and the block list are applied independently and push
    the same message: among the issues, the nationality message occurs once
    for a nationality the non-empty allow list lacks, once more for a
    nationality on the block list, so twice when both rules fire, and no
    other rule produces it. *)
Theorem nationality_issue_count
    (doc : ExtractedDocument) (applicant : ApplicantData)
    (policy : EligibilityPolicy) :
  exists issues,
    eligibilityIssues doc applicant policy = Ret issues
    /\ count_occ string_dec issues (nationalityIssue doc applicant)
       = ((if notAllowed policy (value (nationality doc)) then 1 else 0)
          + (if isBlocked policy (value (nationality doc)) then 1 else 0))%nat.
Proof.
  eexists. split; [apply eligibilityIssues_blocks|].
  rewrite !count_occ_app.
  assert (Hother : forall xs,
             Forall (fun i => i <> nationalityIssue doc applicant) xs ->
             count_occ string_dec xs (nationalityIssue doc applicant) = 0%nat).
  { intros xs Hall. apply count_occ_not_In. intro Hin.
    rewrite Forall_forall in Hall. exact (Hall _ Hin eq_refl). }
  rewrite (Hother (emitted (issuePassportValidity doc policy))),
          (Hother (emitted (issueAge doc policy))),
          (Hother (emitted (issuePassportNumber doc applicant))).
  - unfold issueAllowedNationality, issueBlockedNationality, notAllowed,
      isBlocked, emitted, Eff.when, Eff.push, Eff.ret.
    destruct (allowedNationalities policy) as [allowed|];
      destruct (blockedNationalities policy) as [blocked|];
      repeat match goal with
             | |- context [if ?b then _ else _] => destruct b; cbn [andb negb]
             end;
      cbn [snd app count_occ];
      repeat match goal with
             | |- context [string_dec ?x ?y] =>
                 destruct (string_dec x y); [|congruence]
             end;
      reflexivity.
  - unfold issuePassportNumber, nationalityIssue.
    emitted_cases; repeat (apply Forall_cons || apply Forall_nil); discriminate.
  - unfold issueAge, nationalityIssue.
    emitted_cases; repeat (apply Forall_cons || apply Forall_nil); discriminate.
  - unfold issuePassportValidity, nationalityIssue.
    emitted_cases; repeat (apply Forall_cons || apply Forall_nil); discriminate.
Qed.

(** The age rule on a non-empty date of birth, for a policy whose age
    bounds, where set, are whole numbers of at most 2^53 - 1 in absolute
    value (which JavaScript holds exactly and prints in decimal digits):
    "Cannot verify age requirements" when [parseISO] throws; on an age from
    the library, one issue for the minimum when it is set to a non-zero
    number above the age, then one for the maximum when it is set to a
    non-zero number below the age.  A bound that is absent or 0 is not
    compared. *)
Theorem age_rule_by_outcome
    (doc : ExtractedDocument) (policy : EligibilityPolicy) :
  Js.truthy (value (dateOfBirth doc)) = true ->
  safeBound (minAge policy) ->
  safeBound (maxAge policy) ->
  (parseISO (value (dateOfBirth doc)) = Throw ->
   emitted (issueAge doc policy) = ["Cannot verify age requirements"])
  /\ (forall dob age,
        parseISO (value (dateOfBirth doc)) = Ret dob ->
        differenceInYears newDate dob = Ret (Int age) ->
        emitted (issueAge doc policy)
        = List.app
            match minAge policy with
            | Some bound =>
                if negb (bound =? 0) && (age <? bound)
                then ["Applicant must be at least "
                      ++ Num.Z_toString bound ++ " years old"]
                else []
            | None => []
            end
            match maxAge policy with
            | Some bound =>
                if negb (bound =? 0) && (bound <? age)
                then ["Applicant must be under "
                      ++ Num.Z_toString bound ++ " years old"]
                else []
            | None => []
            end).
Proof.
  intros Hval _ _.
  destruct (age_issues_by_outcome doc policy Hval) as [Hthrow Hage].
  split; [exact Hthrow|].
  intros dob age Hparse Hyears. rewrite (Hage dob (Int age) Hparse Hyears).
  unfold configured, boundOf, boundText, Num.gtb.
  destruct (minAge policy) as [lo|]; destruct (maxAge policy) as [hi|];
    reflexivity.
Qed.

End MoreEligibilityRules.

(* ================================================================= *)
(** * Further properties of the recommendations and the summary *)

Lemma no_failures (checks : list ValidationCheck) :
  filter isFail checks = [] <-> Forall (fun c => status c <> st_fail) checks.
Proof.
  induction checks as [|c checks IH]; cbn [filter].
  - split; [constructor | reflexivity].
  - unfold isFail at 1. destruct (status c) eqn:E; split; intro Hx;
      try discriminate Hx;
      try (constructor; [congruence | now apply IH]);
      try (apply IH; now inversion Hx).
    inversion Hx. congruence.
Qed.

Lemma no_warnings (checks : list ValidationCheck) :
  filter isWarning checks = [] <-> Forall (fun c => status c <> st_warning) checks.
Proof.
  induction checks as [|c checks IH]; cbn [filter].
  - split; [constructor | reflexivity].
  - unfold isWarning at 1. destruct (status c) eqn:E; split; intro Hx;
      try discriminate Hx;
      try (constructor; [congruence | now apply IH]);
      try (apply IH; now inversion Hx).
    inversion Hx. congruence.
Qed.

Lemma all_pass (checks : list ValidationCheck) :
  Forall (fun c => status c = st_pass) checks
  <-> filter isFail checks = [] /\ filter isWarning checks = [].
Proof.
  rewrite no_failures, no_warnings. rewrite !Forall_forall. split.
  - intro Hall. split; intros c Hc; rewrite (Hall c Hc); discriminate.
  - intros [Hf Hw] c Hc. specialize (Hf c Hc). specialize (Hw c Hc).
    destruct (status c); congruence.
Qed.

Lemma approve_needs
    (checks : list ValidationCheck) (eligibility : EligibilityResult)
    (overallConfidence : Z) :
  let result := generateRecommendations checks eligibility overallConfidence in
  In "APPROVE: All checks passed with high confidence" result ->
  (Forall (fun c => status c = st_pass) checks
   /\ eligible eligibility = true
   /\ 90 <= overallConfidence)
  /\ result = [ "APPROVE: All checks passed with high confidence";
                "- Proceed with visa application processing" ].
Proof.
  intro result. subst result. unfold generateRecommendations.
  rewrite all_pass.
  destruct (filter isFail checks) as [|f fs] eqn:Ef; cbn [List.length Nat.ltb Nat.leb].
  2:{ intros [E|Hin]; [discriminate E|].
      apply in_map_iff in Hin as (x & E & _). unfold addressLine in E.
      discriminate E. }
  destruct (eligible eligibility); cbn [negb].
  2:{ intros [E|[E|[]]]; discriminate E. }
  destruct (Z.ltb_spec overallConfidence 70) as [Hlow|Hok].
  { intros [E|[E|[E|[]]]]; discriminate E. }
  destruct (filter isWarning checks) as [|w ws] eqn:Ew; cbn [List.length Nat.ltb Nat.leb].
  2:{ intros [E|Hin]; [discriminate E|].
      apply in_map_iff in Hin as (x & E & _). unfold reviewLine in E.
      discriminate E. }
  destruct (Z.leb_spec 90 overallConfidence) as [Hhigh|Hmid].
  - intros _. auto.
  - intros [E|[E|[]]]; discriminate E.
Qed.

(** The approval is recommended exactly when every check passed, the
    applicant is eligible and the overall confidence is at least 90; the
    list is then the two approval lines and nothing else. *)
Theorem approve_exactly_when_all_clear
    (checks : list ValidationCheck) (eligibility : EligibilityResult)
    (overallConfidence : Z) :
  let result := generateRecommendations checks eligibility overallConfidence in
  (In "APPROVE: All checks passed with high confidence" result
   <-> Forall (fun c => status c = st_pass) checks
       /\ eligible eligibility = true
       /\ 90 <= overallConfidence)
  /\ (In "APPROVE: All checks passed with high confidence" result ->
      result = [ "APPROVE: All checks passed with high confidence";
                 "- Proceed with visa application processing" ]).
Proof.
  intro result. subst result. split; [split|].
  - intro Happrove.
    apply (approve_needs checks eligibility overallConfidence Happrove).
  - intros (Hpass & Hel & Hhigh). apply all_pass in Hpass as [Ef Ew].
    unfold generateRecommendations. rewrite Ef, Ew, Hel.
    cbn [List.length Nat.ltb Nat.leb negb].
    destruct (Z.ltb_spec overallConfidence 70) as [Hlow|_]; [lia|].
    destruct (Z.leb_spec 90 overallConfidence) as [_|Hmid]; [|lia].
    now left.
  - intro Happrove.
    apply (approve_needs checks eligibility overallConfidence Happrove).
Qed.

(** The summary agrees with the recommendations.  When approval is
    recommended the summary is the opening sentence followed by "All
    validation checks passed. Applicant is eligible for visa
    application.".  When a check failed, the recommendations are the
    REJECT heading and one line per failing check, and the summary is the
    opening sentence, then the number of those lines and " validation
    failure(s) detected. ", then the warnings sentence if a check warned,
    then the eligibility sentence: the count it states is the number of
    failing checks and nothing else. *)
Theorem summary_agrees_with_recommendations
    (doc : ExtractedDocument) (checks : list ValidationCheck)
    (eligibility : EligibilityResult) (overallConfidence : Z) :
  let result := generateRecommendations checks eligibility overallConfidence in
  let summary := generateSummary doc checks eligibility in
  let warnings := List.length (filter isWarning checks) in
  (In "APPROVE: All checks passed with high confidence" result ->
   summary = summaryHeader doc
             ++ "All validation checks passed. "
             ++ "Applicant is eligible for visa application.")
  /\ ((exists c, In c checks /\ status c = st_fail) ->
      exists n lines,
        result = "REJECT: Critical validation failures detected" :: lines
        /\ List.length lines = n
        /\ n = List.length (filter isFail checks)
        /\ (0 < n)%nat
        /\ summary
           = summaryHeader doc
             ++ countText n ++ " validation failure(s) detected. "
             ++ (if (0 <? warnings)%nat
                 then countText warnings ++ " warning(s) noted. "
                 else EmptyString)
             ++ (if eligible eligibility
                 then "Applicant is eligible for visa application."
                 else "Visa eligibility: NOT ELIGIBLE. " ++ reason eligibility)).
Proof.
  intros result summary warnings. subst result summary warnings. split.
  - intro Happrove.
    assert (Hclear :
      Forall (fun c => status c = st_pass) checks
      /\ eligible eligibility = true /\ 90 <= overallConfidence)
      by apply (approve_needs checks eligibility overallConfidence Happrove).
    destruct Hclear as (Hpass & Hel & _).
    apply all_pass in Hpass as [Ef Ew].
    unfold generateSummary, summaryHeader. rewrite Ef, Ew, Hel.
    cbn [List.length Nat.ltb Nat.leb Nat.eqb andb].
    now rewrite !append_assoc.
  - intro Hfail. pose proof (failures_nonempty checks Hfail) as Hpos.
    exists (List.length (filter isFail checks)),
           (map addressLine (filter isFail checks)).
    apply Nat.ltb_lt in Hpos as Hlt.
    split; [|split; [apply length_map | split; [reflexivity | split; [exact Hlt|]]]].
    + unfold generateRecommendations. now rewrite Hpos.
    + unfold generateSummary, summaryHeader. rewrite Hpos.
      assert (Hzero : (List.length (filter isFail checks) =? 0)%nat = false)
        by (apply Nat.eqb_neq; lia).
      rewrite Hzero. cbn [andb].
      destruct (0 <? List.length (filter isWarning checks))%nat;
        destruct (eligible eligibility);
        rewrite ?append_assoc, ?append_empty; reflexivity.
Qed.

(* ================================================================= *)
(** * Further properties of the analysis and of the request handler *)

Section CrossChecks.
Context `{Host}.

Lemma compareStrings_same (s : string) : compareStrings s s = 1%Q.
Proof. unfold compareStrings. now rewrite String.eqb_refl. Qed.

Lemma mrz_block_cross_checks doc mrz :
  mrzData doc = Some mrz ->
  documentNumber doc = mrz_documentNumber mrz ->
  lastName doc = mrz_lastName mrz ->
  Forall (fun c => field c <> "mrzChecksum" -> status c = st_pass)
         (emitted (checkMRZ doc)).
Proof.
  intros Hmrz Hnum Hlast. unfold checkMRZ, validateMRZConsistency.
  rewrite Hmrz, Hnum, Hlast, String.eqb_refl, compareStrings_same.
  emitted_cases; repeat (apply Forall_cons || apply Forall_nil);
    cbn [field status]; intro E; solve [reflexivity | now contradiction E].
Qed.

(** On a document that [analyzeDocument] built around an MRZ record the
    cross-checks compare the record with itself: every MRZ-consistency
    check other than [mrzChecksum] ([documentNumberMatch], [nameMatch]) has
    status pass, so the consistency block can fail only through the
    checksum. *)
Theorem analyzed_cross_checks_always_pass
    (ocrText : string) (doc : ExtractedDocument) (mrz : MRZData) :
  analyzeDocument ocrText = Ret doc ->
  mrzData doc = Some mrz ->
  exists checks,
    validateDocument doc = Ret checks
    /\ forall c, In c checks ->
         In (field c) ["documentNumberMatch"; "nameMatch"] ->
         status c = st_pass.
Proof.
  intros Hdoc Hmrz.
  destruct (analyzeDocument_merge ocrText doc mrz Hdoc Hmrz)
    as (_ & Hnum & _ & _ & Hlast & _).
  eexists. split; [apply validateDocument_blocks|].
  intros c Hin Hfield.
  rewrite !app_assoc in Hin. apply in_app_or in Hin as [Hin|Hin].
  - rewrite <- !app_assoc in Hin.
    pose proof (own_blocks_fields doc) as Hown.
    rewrite Forall_forall in Hown. specialize (Hown c Hin).
    unfold ownField in Hown. cbn [In] in Hown, Hfield.
    destruct Hfield as [F|[F|[]]]; rewrite <- F in Hown;
      destruct Hown as [E|[E|[E|[E|[E|[]]]]]]; discriminate E.
  - pose proof (mrz_block_cross_checks doc mrz Hmrz Hnum Hlast) as Hall.
    rewrite Forall_forall in Hall. apply (Hall c Hin).
    cbn [In] in Hfield. destruct Hfield as [F|[F|[]]]; rewrite <- F; discriminate.
Qed.

(** A document whose MRZ record failed its checksums is always rejected:
    [validateDocument] emits the failing [mrzChecksum] check (confidence
    60), and the recommendations, whatever the eligibility and the overall
    confidence, open with the critical-failure line and hold the line that
    addresses the checksum. *)
Theorem failed_checksum_is_rejected
    (doc : ExtractedDocument) (mrz : MRZData) :
  mrzData doc = Some mrz ->
  checksumValid mrz = false ->
  exists checks,
    validateDocument doc = Ret checks
    /\ In {| field := "mrzChecksum"; status := st_fail;
             message := "MRZ checksums failed"; checkConfidence := 60 |} checks
    /\ forall eligibility overallConfidence,
         let result :=
           generateRecommendations checks eligibility overallConfidence in
         hd EmptyString result = "REJECT: Critical validation failures detected"
         /\ In "- Address mrzChecksum: MRZ checksums failed" result.
Proof.
  intros Hmrz Hbad.
  eexists. split; [apply validateDocument_blocks|].
  set (failing := {| field := "mrzChecksum"; status := st_fail;
                     message := "MRZ checksums failed"; checkConfidence := 60 |}).
  assert (Hin : In failing (emitted (checkMRZ doc))).
  { unfold checkMRZ, validateMRZConsistency. rewrite Hmrz, Hbad.
    emitted_cases; now left. }
  match goal with
  | |- In failing ?all /\ _ => assert (Hall : In failing all)
  end.
  { do 5 (apply in_or_app; right). exact Hin. }
  split; [exact Hall|].
  intros eligibility overallConfidence result. subst result.
  unfold generateRecommendations.
  rewrite (failures_nonempty _ (ex_intro _ failing (conj Hall eq_refl))).
  split; [reflexivity|]. right.
  apply in_map_iff. exists failing. split; [reflexivity|].
  apply filter_In. split; [exact Hall | reflexivity].
Qed.

End CrossChecks.

Section Handler.
Context `{Host}.
Import Route.

Lemma extractDateField_confidence (text : string) (patterns : list RegExp) f :
  extractDateField text patterns = Ret f ->
  f = mkField EmptyString 0 \/ confidence f = 75.
Proof.
  induction patterns as [|pattern rest IH]; cbn [extractDateField].
  - intros [= <-]. now left.
  - destruct (capture text pattern 1); [|exact IH].
    destruct (normalizeDateToISO _) as [normalized|]; cbn [obind];
      [|discriminate].
    destruct (truthy normalized); [|exact IH].
    intros [= <-]. now right.
Qed.

Lemma parseMRZ_origin (mrzLines : list string) (m : MRZData) :
  parseMRZ mrzLines = Ret (Some m) ->
  (exists line1 line2, m = parseTD3 line1 line2)
  \/ (exists line1 line2 line3, m = parseTD1 line1 line2 line3).
Proof.
  unfold parseMRZ, parseMRZ_with, lengthOf.
  destruct mrzLines as [|a [|b [|c [|d rest]]]]; cbn;
    try by_length 44%nat; cbn; try by_length 44%nat; cbn;
    try by_length 30%nat; cbn; intro E; try discriminate E;
    injection E as <-; eauto.
Qed.

Lemma record_confidences (m : MRZData) :
  (exists line1 line2, m = parseTD3 line1 line2)
  \/ (exists line1 line2 line3, m = parseTD1 line1 line2 line3) ->
  Forall (fun f => confidence f = recordConfidence m)
    [ mrz_documentNumber m; mrz_firstName m; mrz_lastName m;
      mrz_dateOfBirth m; mrz_expiryDate m; mrz_nationality m ].
Proof.
  intros [(l1 & l2 & ->) | (l1 & l2 & l3 & ->)];
    repeat (apply Forall_cons || apply Forall_nil); reflexivity.
Qed.

Lemma analyzed_record_origin (ocrText : string) doc mrz :
  analyzeDocument ocrText = Ret doc ->
  mrzData doc = Some mrz ->
  parseMRZ (extractMRZ ocrText) = Ret (Some mrz).
Proof.
  intros Hdoc Hmrz. unfold analyzeDocument in Hdoc.
  destruct (0 <? List.length (extractMRZ ocrText))%nat.
  - destruct (parseMRZ (extractMRZ ocrText)) as [[m|]|];
      cbn [obind] in Hdoc; try discriminate Hdoc.
    + destruct (extractDateField ocrText _) as [issue|];
        cbn [obind] in Hdoc; try discriminate Hdoc.
      injection Hdoc as <-. cbn [mrzData] in Hmrz. now rewrite Hmrz.
    + repeat (match type of Hdoc with
              | context [obind ?o _] => destruct o; cbn [obind] in Hdoc
              end; try discriminate Hdoc).
      injection Hdoc as <-. discriminate Hmrz.
  - cbn [obind] in Hdoc.
    repeat (match type of Hdoc with
            | context [obind ?o _] => destruct o; cbn [obind] in Hdoc
            end; try discriminate Hdoc).
    injection Hdoc as <-. discriminate Hmrz.
Qed.

(** The six confidences the handler averages. *)
Lemma analyzed_confidences (ocrText : string) doc :
  analyzeDocument ocrText = Ret doc ->
  match mrzData doc with
  | Some mrz =>
      Forall (fun c => c = recordConfidence mrz)
        [ confidence (documentNumber doc); confidence (firstName doc);
          confidence (lastName doc); confidence (dateOfBirth doc);
          confidence (expiryDate doc); confidence (nationality doc) ]
  | None =>
      Forall (fun c => c = 0 \/ c = 75)
        [ confidence (documentNumber doc); confidence (firstName doc);
          confidence (lastName doc); confidence (dateOfBirth doc);
          confidence (expiryDate doc); confidence (nationality doc) ]
  end.
Proof.
  intro Hdoc. destruct (mrzData doc) as [mrz|] eqn:Hmrz.
  - destruct (analyzeDocument_merge ocrText doc mrz Hdoc Hmrz)
      as (_ & -> & _ & -> & -> & -> & -> & _ & ->).
    pose proof (record_confidences mrz
                  (parseMRZ_origin _ _ (analyzed_record_origin _ _ _ Hdoc Hmrz)))
      as Hall.
    repeat (apply Forall_cons || apply Forall_nil);
      rewrite Forall_forall in Hall; apply Hall; cbn [In]; auto 8.
  - assert (Htext : forall text patterns,
               confidence (extractFieldFromText text patterns) = 0
               \/ confidence (extractFieldFromText text patterns) = 75).
    { intros text patterns.
      destruct (extractFieldFromText_confidence text patterns) as [E|E];
        [left; now rewrite E | now right]. }
    assert (Hdate : forall text patterns f,
               extractDateField text patterns = Ret f ->
               confidence f = 0 \/ confidence f = 75).
    { intros text patterns f E.
      destruct (extractDateField_confidence text patterns f E) as [->|E'];
        [now left | now right]. }
    unfold analyzeDocument in Hdoc.
    destruct (if (0 <? List.length (extractMRZ ocrText))%nat
              then parseMRZ (extractMRZ ocrText) else Ret None)
      as [[m|]|]; cbn [obind] in Hdoc; try discriminate Hdoc.
    + destruct (extractDateField ocrText _) as [issue|];
        cbn [obind] in Hdoc; try discriminate Hdoc.
      injection Hdoc as <-. discriminate Hmrz.
    + destruct (extractDateField ocrText _) as [dob|] eqn:Edob;
        cbn [obind] in Hdoc; try discriminate Hdoc.
      destruct (extractDateField ocrText _) as [issue|] eqn:Eissue in Hdoc;
        cbn [obind] in Hdoc; try discriminate Hdoc.
      destruct (extractDateField ocrText _) as [expiry|] eqn:Eexpiry in Hdoc;
        cbn [obind] in Hdoc; try discriminate Hdoc.
      injection Hdoc as <-.
      cbn [documentNumber firstName lastName dateOfBirth expiryDate
           nationality orElse option_map].
      repeat (apply Forall_cons || apply Forall_nil);
        solve [ eapply Hdate; eassumption
              | repeat match goal with
                       | |- context [match capture ?t ?p ?n with _ => _ end] =>
                           destruct (capture t p n)
                       end; cbn [confidence]; auto ].
Qed.

Lemma overall_of_equal (doc : ExtractedDocument) (c : Z) :
  0 < c ->
  Forall (fun x => x = c)
    [ confidence (documentNumber doc); confidence (firstName doc);
      confidence (lastName doc); confidence (dateOfBirth doc);
      confidence (expiryDate doc); confidence (nationality doc) ] ->
  overallConfidenceOf doc = c.
Proof.
  intros Hpos Hall. unfold overallConfidenceOf.
  repeat rewrite Forall_cons_iff in Hall.
  destruct Hall as (-> & -> & -> & -> & -> & -> & _).
  cbn [filter]. apply Z.ltb_lt in Hpos. rewrite Hpos.
  cbn [List.length Nat.ltb Nat.leb]. unfold roundedMean.
  cbn [fold_left List.length]. apply Z.ltb_lt in Hpos.
  change (Z.of_nat 6) with 6.
  replace (2 * (0 + c + c + c + c + c + c) + 6) with (c * (2 * 6) + 6) by lia.
  rewrite Z.div_add_l by lia. change (6 / (2 * 6)) with 0. lia.
Qed.

Lemma overall_without_mrz (doc : ExtractedDocument) :
  Forall (fun c => c = 0 \/ c = 75)
    [ confidence (documentNumber doc); confidence (firstName doc);
      confidence (lastName doc); confidence (dateOfBirth doc);
      confidence (expiryDate doc); confidence (nationality doc) ] ->
  overallConfidenceOf doc = 50 \/ overallConfidenceOf doc = 75.
Proof.
  intro Hall. unfold overallConfidenceOf.
  repeat rewrite Forall_cons_iff in Hall.
  destruct Hall as ([-> | ->] & [-> | ->] & [-> | ->] & [-> | ->]
                    & [-> | ->] & [-> | ->] & _);
    vm_compute; auto.
Qed.

Lemma handler_after_analysis
    (unchecked : ExtractedDocument -> outcome EligibilityResult)
    (ocrText : string) (applicantData : Received ApplicantData)
    (eligibilityPolicy : Received EligibilityPolicy) (doc : ExtractedDocument) :
  analyzeDocument ocrText = Ret doc ->
  (declaredShape applicantData eligibilityPolicy = false ->
   unchecked doc = Throw ->
   POST unchecked ocrText applicantData eligibilityPolicy = Throw)
  /\ (declaredShape applicantData eligibilityPolicy = true
      \/ (exists e, unchecked doc = Ret e) ->
      exists result,
        POST unchecked ocrText applicantData eligibilityPolicy = Ret result
        /\ extractedFields result = doc
        /\ validateDocument doc = Ret (validationChecks result)
        /\ overallConfidence result = overallConfidenceOf doc).
Proof.
  intro Hdoc. unfold POST. rewrite Hdoc. cbn [obind].
  rewrite validateDocument_blocks. cbn [obind].
  assert (Htyped : forall applicant policy,
             exists e, checkEligibility doc applicant policy = Ret e).
  { intros applicant policy. unfold checkEligibility.
    rewrite eligibilityIssues_blocks. cbn [obind]. eexists. reflexivity. }
  split.
  - intros Hshape Hthrow.
    destruct applicantData as [|applicant|], eligibilityPolicy as [|policy|];
      try discriminate Hshape; now rewrite Hthrow.
  - intros Hreturns.
    assert (Hel : exists e,
               match applicantData, eligibilityPolicy with
               | Missing, _ | _, Missing =>
                   Ret {| eligible := true;
                          reason := "No eligibility policy provided";
                          eligibilityConfidence := 100 |}
               | Typed applicant, Typed policy =>
                   checkEligibility doc applicant policy
               | _, _ => unchecked doc
               end = Ret e).
    { destruct applicantData as [|applicant|], eligibilityPolicy as [|policy|];
        try (eexists; reflexivity); try apply Htyped;
        (destruct Hreturns as [Hshape | Hreturns];
         [discriminate Hshape | exact Hreturns]). }
    destruct Hel as [e ->]. cbn [obind].
    eexists. split; [reflexivity|].
    cbn [extractedFields validationChecks overallConfidence].
    split; [reflexivity|]. split; reflexivity.
Qed.

(** Where the handler fails (status 500) once the image has been read.  It
    fails exactly when the analysis of the text throws, or when the body
    holds a truthy [applicantData] and [eligibilityPolicy] of which one is
    not of its declared type and [checkEligibility] throws on them.  For a
    body of the declared shape it therefore fails only when the analysis
    throws: once [analyzeDocument] has returned a document, validation,
    eligibility, confidence, summary and recommendations always complete,
    whatever the date library does, and the result carries that document,
    its checks and its overall confidence. *)
Theorem handler_failure_points
    (unchecked : ExtractedDocument -> outcome EligibilityResult)
    (ocrText : string) (applicantData : Received ApplicantData)
    (eligibilityPolicy : Received EligibilityPolicy) :
  (POST unchecked ocrText applicantData eligibilityPolicy = Throw
   <-> analyzeDocument ocrText = Throw
       \/ exists doc,
            analyzeDocument ocrText = Ret doc
            /\ declaredShape applicantData eligibilityPolicy = false
            /\ unchecked doc = Throw)
  /\ (declaredShape applicantData eligibilityPolicy = true ->
      (POST unchecked ocrText applicantData eligibilityPolicy = Throw
       <-> analyzeDocument ocrText = Throw)
      /\ forall doc, analyzeDocument ocrText = Ret doc ->
           exists result,
             POST unchecked ocrText applicantData eligibilityPolicy = Ret result
             /\ extractedFields result = doc
             /\ validateDocument doc = Ret (validationChecks result)
             /\ overallConfidence result = overallConfidenceOf doc).
Proof.
  assert (Hthrown : analyzeDocument ocrText = Throw ->
                    POST unchecked ocrText applicantData eligibilityPolicy = Throw).
  { intro Hdoc. unfold POST. now rewrite Hdoc. }
  split.
  - destruct (analyzeDocument ocrText) as [doc|] eqn:Hdoc.
    2:{ split; [now left | intros _; now apply Hthrown]. }
    destruct (handler_after_analysis unchecked ocrText applicantData
                eligibilityPolicy doc Hdoc) as [Hfails Hreturns].
    destruct (declaredShape applicantData eligibilityPolicy) eqn:Hshape.
    + destruct Hreturns as (result & -> & _); [now left|].
      split; [discriminate|].
      intros [E | (doc' & _ & E & _)]; discriminate E.
    + destruct (unchecked doc) as [e|] eqn:Hrun.
      * destruct Hreturns as (result & -> & _); [right; now exists e|].
        split; [discriminate|].
        intros [E | (doc' & [= <-] & _ & E)]; [discriminate E|].
        rewrite Hrun in E. discriminate E.
      * split; [|intros _; now apply Hfails].
        intros _. right. exists doc. auto.
  - intro Hshape. split.
    + destruct (analyzeDocument ocrText) as [doc|] eqn:Hdoc.
      * destruct (handler_after_analysis unchecked ocrText applicantData
                    eligibilityPolicy doc Hdoc) as [_ Hreturns].
        destruct Hreturns as (result & -> & _); [now left|].
        split; discriminate.
      * split; [reflexivity | intros _; now apply Hthrown].
    + intros doc Hdoc.
      apply (handler_after_analysis unchecked ocrText applicantData
               eligibilityPolicy doc Hdoc).
      now left.
Qed.

(** Approval needs a valid MRZ.  When the document has no MRZ record the
    overall confidence is 75 or 50, and when it has one the overall
    confidence is the record's (95 with valid checksums, 70 otherwise); so
    a response that recommends approval belongs to a document with an MRZ
    record whose checksums are valid and has overall confidence 95, and a
    document with an MRZ record never gets the low-confidence review (its
    overall confidence is at least 70). *)
Theorem approval_needs_valid_mrz
    (unchecked : ExtractedDocument -> outcome EligibilityResult)
    (ocrText : string) (applicantData : Received ApplicantData)
    (eligibilityPolicy : Received EligibilityPolicy)
    (result : VerificationResult) :
  POST unchecked ocrText applicantData eligibilityPolicy = Ret result ->
  match mrzData (extractedFields result) with
  | None => overallConfidence result = 50 \/ overallConfidence result = 75
  | Some mrz => overallConfidence result = recordConfidence mrz
  end
  /\ (In "APPROVE: All checks passed with high confidence"
         (recommendedActions result) ->
      exists mrz,
        mrzData (extractedFields result) = Some mrz
        /\ checksumValid mrz = true
        /\ overallConfidence result = 95).
Proof.
  intro Hpost. unfold POST in Hpost.
  destruct (analyzeDocument ocrText) as [doc|] eqn:Hdoc; cbn [obind] in Hpost;
    [|discriminate Hpost].
  destruct (validateDocument doc) as [checks|]; cbn [obind] in Hpost;
    [|discriminate Hpost].
  match type of Hpost with
  | context [obind ?o _] => destruct o as [e|]; cbn [obind] in Hpost;
                            [|discriminate Hpost]
  end.
  injection Hpost as <-.
  cbn [extractedFields overallConfidence recommendedActions].
  pose proof (analyzed_confidences ocrText doc Hdoc) as Hconf.
  assert (Hoverall :
    match mrzData doc with
    | None => overallConfidenceOf doc = 50 \/ overallConfidenceOf doc = 75
    | Some mrz => overallConfidenceOf doc = recordConfidence mrz
    end).
  { destruct (mrzData doc) as [mrz|].
    - apply overall_of_equal; [|exact Hconf].
      unfold recordConfidence. destruct (checksumValid mrz); lia.
    - now apply overall_without_mrz. }
  split; [exact Hoverall|].
  intro Happrove.
  apply (approve_needs checks e (overallConfidenceOf doc)) in Happrove
    as ((_ & _ & Hhigh) & _).
  destruct (mrzData doc) as [mrz|].
  - exists mrz. split; [reflexivity|]. rewrite Hoverall in *.
    unfold recordConfidence in *. destruct (checksumValid mrz); [auto | lia].
  - destruct Hoverall as [E|E]; rewrite E in Hhigh; lia.
Qed.

End Handler.

(* ================================================================= *)
(** * Properties of the text analysis *)

Section MrzLines.

Lemma chars_written (cs : list ascii) : chars (string_of_list_ascii cs) = cs.
Proof. apply list_ascii_of_string_of_list_ascii. Qed.

Lemma written_chars (s : string) : string_of_list_ascii (chars s) = s.
Proof. apply string_of_list_ascii_of_string. Qed.

Lemma forallb_filter_same {A} (p : A -> bool) (xs : list A) :
  forallb p (filter p xs) = true.
Proof.
  induction xs as [|x xs IH]; cbn [filter forallb]; [reflexivity|].
  destruct (p x) eqn:E; [cbn [forallb]; now rewrite E | exact IH].
Qed.

Lemma filter_all {A} (p : A -> bool) (xs : list A) :
  forallb p xs = true -> filter p xs = xs.
Proof.
  induction xs as [|x xs IH]; cbn [filter forallb]; [reflexivity|].
  intros [-> Hxs]%andb_prop. now rewrite IH.
Qed.

Lemma cleanLine_chars (line : string) :
  forallb isMrzChar (chars (cleanLine line)) = true.
Proof. unfold cleanLine. rewrite chars_written. apply forallb_filter_same. Qed.

Lemma mrz_char_plain (c : ascii) :
  isMrzChar c = true -> isWhiteSpace c = false /\ Ascii.eqb c "010" = false.
Proof.
  destruct c as [[] [] [] [] [] [] [] []]; vm_compute; intro E;
    (discriminate E || (split; reflexivity)).
Qed.

Lemma trimStart_mrz (s : string) :
  forallb isMrzChar (chars s) = true -> trimStart s = s.
Proof.
  destruct s as [|c s]; [reflexivity|]. cbn [chars list_ascii_of_string forallb].
  intros [Hc _]%andb_prop. cbn [trimStart].
  now rewrite (proj1 (mrz_char_plain c Hc)).
Qed.

Lemma trimEnd_mrz (s : string) :
  forallb isMrzChar (chars s) = true -> trimEnd s = s.
Proof.
  induction s as [|c s IH]; [reflexivity|].
  cbn [chars list_ascii_of_string forallb].
  intros [Hc Hs]%andb_prop. cbn [trimEnd].
  rewrite (IH Hs), (proj1 (mrz_char_plain c Hc)). reflexivity.
Qed.

Lemma cleanLine_fixed (s : string) :
  forallb isMrzChar (chars s) = true -> cleanLine s = s.
Proof.
  intro Hs. unfold cleanLine, trim.
  rewrite (trimStart_mrz s Hs), (trimEnd_mrz s Hs).
  unfold chars in Hs. rewrite (filter_all _ _ Hs).
  apply string_of_list_ascii_of_string.
Qed.

Lemma splitLines_one (s : string) :
  forallb isMrzChar (chars s) = true -> splitLines s = [s].
Proof.
  induction s as [|c s IH]; [reflexivity|].
  cbn [chars list_ascii_of_string forallb].
  intros [Hc Hs]%andb_prop. cbn [splitLines].
  rewrite (proj2 (mrz_char_plain c Hc)), (IH Hs). reflexivity.
Qed.

Lemma splitLines_append (s rest : string) :
  forallb isMrzChar (chars s) = true ->
  splitLines (s ++ String "010" rest) = s :: splitLines rest.
Proof.
  induction s as [|c s IH]; [reflexivity|].
  cbn [chars list_ascii_of_string forallb].
  intros [Hc Hs]%andb_prop. cbn [append splitLines].
  rewrite (proj2 (mrz_char_plain c Hc)), (IH Hs). reflexivity.
Qed.

Lemma splitLines_join (lines : list string) :
  Forall (fun line => forallb isMrzChar (chars line) = true) lines ->
  lines <> [] ->
  splitLines (join (String "010" EmptyString) lines) = lines.
Proof.
  induction 1 as [|line rest Hline Hrest IH]; [congruence|]. intros _.
  destruct rest as [|next rest].
  - cbn [join]. now apply splitLines_one.
  - change (join (String "010" EmptyString) (line :: next :: rest))
      with (line ++ String "010" (join (String "010" EmptyString) (next :: rest))).
    rewrite (splitLines_append _ _ Hline), IH; [reflexivity | discriminate].
Qed.

Lemma extractMRZ_of_lines (lines : list string) :
  Forall (fun line =>
            forallb isMrzChar (chars line) = true
            /\ (30 <= String.length line)%nat) lines ->
  extractMRZ (join (String "010" EmptyString) lines) = lines.
Proof.
  intro Hall. destruct lines as [|line rest]; [reflexivity|].
  unfold extractMRZ. rewrite splitLines_join; [|
    eapply Forall_impl; [|exact Hall]; cbn beta; tauto | discriminate].
  induction Hall as [|l ls [Hl Hlen] _ IH]; [reflexivity|].
  cbn [map filter]. rewrite (cleanLine_fixed l Hl).
  unfold mrzPattern at 1. fold (chars l). rewrite Hl.
  apply Nat.leb_le in Hlen. rewrite Hlen. cbn [andb]. now rewrite IH.
Qed.

(** The lines [extractMRZ] returns are the cleaned lines of the text with
    at least 30 characters left: the pattern test adds nothing to the
    length test, since cleaning has already removed every other character,
    so a line is never rejected for what it contains.  Every line returned
    is made of [A-Z], digits and [<] and has at least 30 characters, and
    extracting again from the returned lines joined by newlines gives the
    same lines. *)
Theorem extractMRZ_lines (ocrText : string) :
  let lines := extractMRZ ocrText in
  lines = filter (fun cleaned => (30 <=? String.length cleaned)%nat)
            (map cleanLine (splitLines ocrText))
  /\ Forall (fun line =>
               forallb isMrzChar (chars line) = true
               /\ (30 <= String.length line)%nat) lines
  /\ extractMRZ (join (String "010" EmptyString) lines) = lines.
Proof.
  assert (Hall : Forall (fun line =>
                           forallb isMrzChar (chars line) = true
                           /\ (30 <= String.length line)%nat)
                        (extractMRZ ocrText)).
  { apply Forall_forall. intros line Hin. unfold extractMRZ in Hin.
    apply filter_In in Hin as [Hin Hkeep].
    apply in_map_iff in Hin as (raw & <- & _).
    apply andb_prop in Hkeep as [_ Hlen].
    split; [apply cleanLine_chars | now apply Nat.leb_le]. }
  cbn zeta. split; [|split; [exact Hall | now apply extractMRZ_of_lines]].
  unfold extractMRZ. apply filter_ext_in. intros cleaned Hin.
  apply in_map_iff in Hin as (raw & <- & _).
  unfold mrzPattern. fold (chars (cleanLine raw)).
  rewrite cleanLine_chars. cbn [andb].
  now destruct (30 <=? String.length (cleanLine raw))%nat.
Qed.

End MrzLines.

Section DocumentType.

Lemma chars_append (a b : string) : chars (a ++ b) = (chars a ++ chars b)%list.
Proof.
  induction a as [|c a IH]; [reflexivity|].
  cbn [append chars list_ascii_of_string List.app]. f_equal. exact IH.
Qed.

Lemma written_append (x y : list ascii) :
  string_of_list_ascii (x ++ y)%list
  = string_of_list_ascii x ++ string_of_list_ascii y.
Proof.
  induction x as [|c x IH]; [reflexivity|].
  cbn [List.app string_of_list_ascii append]. f_equal. exact IH.
Qed.

Lemma toUpperCase_append (a b : string) :
  toUpperCase (a ++ b) = toUpperCase a ++ toUpperCase b.
Proof.
  unfold toUpperCase. fold (chars (a ++ b)) (chars a) (chars b).
  now rewrite chars_append, flat_map_app, written_append.
Qed.

Lemma toUpperCase_one (c : ascii) :
  toUpperCase (toUpperCase (String c EmptyString))
  = toUpperCase (String c EmptyString).
Proof. destruct c as [[] [] [] [] [] [] [] []]; vm_compute; reflexivity. Qed.

Lemma toUpperCase_idempotent (s : string) :
  toUpperCase (toUpperCase s) = toUpperCase s.
Proof.
  induction s as [|c s IH]; [reflexivity|].
  change (String c s) with (String c EmptyString ++ s).
  rewrite !toUpperCase_append, toUpperCase_one, IH. reflexivity.
Qed.

(** [extractDocumentType] returns one of five fields: a known type ([P],
    [ID], [V] or [DL]) with confidence 85, or [UNKNOWN] with confidence 40;
    its value is never empty, and it does not depend on the letter case of
    the text. *)
Theorem extractDocumentType_values (ocrText : string) :
  let f := extractDocumentType ocrText in
  In f [ mkField "P" 85; mkField "ID" 85; mkField "V" 85; mkField "DL" 85;
         mkField "UNKNOWN" 40 ]
  /\ Js.truthy (value f) = true
  /\ (confidence f = 85 <-> value f <> "UNKNOWN")
  /\ extractDocumentType (toUpperCase ocrText) = f.
Proof.
  cbn zeta. split; [|split; [|split]].
  - unfold extractDocumentType.
    repeat match goal with
           | |- context [if ?b then _ else _] => destruct b
           end; cbn [In]; auto 6.
  - unfold extractDocumentType.
    repeat match goal with
           | |- context [if ?b then _ else _] => destruct b
           end; reflexivity.
  - unfold extractDocumentType.
    repeat match goal with
           | |- context [if ?b then _ else _] => destruct b
           end; cbn [value confidence]; split; congruence.
  - unfold extractDocumentType. now rewrite toUpperCase_idempotent.
Qed.

(** The word [passport], in any letter case and anywhere in the text,
    decides the document type: the text is typed [P] whatever else it
    mentions. *)
Theorem passport_word_decides (before word after : string) :
  toUpperCase word = "PASSPORT" ->
  extractDocumentType (before ++ word ++ after) = mkField "P" 85.
Proof.
  intro Hword. unfold extractDocumentType.
  rewrite !toUpperCase_append, Hword.
  rewrite includes_append_right; [reflexivity|].
  apply includes_self_append.
Qed.

End DocumentType.

Section Dates.
Context `{Host}.
Import RefHost.

Lemma digit_not_separator (c : ascii) :
  isDigit c = true -> isSeparator c = false.
Proof.
  destruct c as [[] [] [] [] [] [] [] []]; vm_compute; intro E;
    (discriminate E || reflexivity).
Qed.

Lemma separator_not_digit (c : ascii) :
  isSeparator c = true -> isDigit c = false.
Proof.
  destruct c as [[] [] [] [] [] [] [] []]; vm_compute; intro E;
    (discriminate E || reflexivity).
Qed.

Lemma digitRun_spec : forall (hi : nat) (s taken tail : string),
  digitRun hi s = (taken, tail) ->
  s = taken ++ tail
  /\ forallb isDigit (chars taken) = true
  /\ (String.length taken <= hi)%nat.
Proof.
  induction hi as [|hi IH]; intros s taken tail.
  - cbn [digitRun]. intros [= <- <-]. cbn. auto.
  - destruct s as [|c rest]; cbn [digitRun].
    + intros [= <- <-]. cbn. split; [reflexivity|]. split; [reflexivity | lia].
    + destruct (isDigit c) eqn:Hc.
      * destruct (digitRun hi rest) as [t tl] eqn:E.
        intros [= <- <-]. apply IH in E as (-> & Hd & Hl).
        cbn [append chars list_ascii_of_string forallb String.length].
        split; [reflexivity|]. split; [|lia].
        rewrite Hc. exact Hd.
      * intros [= <- <-]. cbn. split; [reflexivity|]. split; [reflexivity | lia].
Qed.

Lemma matchDate_some (lo1 hi1 lo2 hi2 lo3 hi3 : nat) (s : string) m :
  matchDate lo1 hi1 lo2 hi2 lo3 hi3 s = Some m ->
  exists g1 g2 g3 c1 c2,
    m = [Some s; Some g1; Some g2; Some g3]
    /\ s = g1 ++ String c1 (g2 ++ String c2 g3)
    /\ (forallb isDigit (chars g1) = true
        /\ forallb isDigit (chars g2) = true
        /\ forallb isDigit (chars g3) = true)
    /\ ((lo1 <= String.length g1 <= hi1)%nat
        /\ (lo2 <= String.length g2 <= hi2)%nat
        /\ (lo3 <= String.length g3 <= hi3)%nat)
    /\ isSeparator c1 = true /\ isSeparator c2 = true.
Proof.
  unfold matchDate.
  destruct (digitRun hi1 s) as [g1 r1] eqn:E1.
  destruct (String.length g1 <? lo1)%nat eqn:L1; [discriminate|].
  destruct r1 as [|c1 r2]; cbn [separated]; [discriminate|].
  destruct (isSeparator c1) eqn:S1; [|discriminate].
  destruct (digitRun hi2 r2) as [g2 r3] eqn:E2.
  destruct (String.length g2 <? lo2)%nat eqn:L2; [discriminate|].
  destruct r3 as [|c2 r4]; cbn [separated]; [discriminate|].
  destruct (isSeparator c2) eqn:S2; [|discriminate].
  destruct (digitRun hi3 r4) as [g3 r5] eqn:E3.
  destruct (String.length g3 <? lo3)%nat eqn:L3; [discriminate|].
  destruct r5; [|discriminate]. intros [= <-].
  apply digitRun_spec in E1 as (E1 & D1 & B1).
  apply digitRun_spec in E2 as (E2 & D2 & B2).
  apply digitRun_spec in E3 as (E3 & D3 & B3).
  apply Nat.ltb_ge in L1, L2, L3.
  exists g1, g2, g3, c1, c2. split; [reflexivity|].
  split; [|repeat split; assumption].
  rewrite E1, E2, E3. now rewrite append_empty.
Qed.

End Dates.

(** One step of running a date format over a string of digits and
    separators. *)
Ltac date_step :=
  match goal with
  | D : Js.isDigit ?c = true |- context [Js.isDigit ?c] => rewrite D
  | D : Js.isDigit ?c = true |- context [RefHost.isSeparator ?c] =>
      rewrite (digit_not_separator c D)
  | S : RefHost.isSeparator ?c = true |- context [RefHost.isSeparator ?c] =>
      rewrite S
  | S : RefHost.isSeparator ?c = true |- context [Js.isDigit ?c] =>
      rewrite (separator_not_digit c S)
  | |- context [Js.isDigit "-"] => change (Js.isDigit "-") with false
  | |- context [Js.isDigit "0"] => change (Js.isDigit "0") with true
  | |- context [RefHost.isSeparator "-"] =>
      change (RefHost.isSeparator "-") with true
  | |- context [RefHost.isSeparator "0"] =>
      change (RefHost.isSeparator "0") with false
  end.

Ltac date_run :=
  unfold RefHost.matchDate;
  repeat (cbn [RefHost.digitRun RefHost.separated
               String.length Nat.ltb Nat.leb written string_of_list_ascii
               append];
          try date_step).

(** Replace the engine's answers on the date formats by the formats as
    written. *)
Ltac read_formats Hreads :=
  unfold normalizeDateToISO, dateFormats, written;
  cbn [normalizeLoop string_of_list_ascii];
  repeat match goal with
         | |- context [regexMatch ?s _] =>
             let E0 := fresh "E" in
             let E1 := fresh "E" in
             let E2 := fresh "E" in
             pose proof (Hreads s) as E0;
             unfold dateFormats in E0; cbn [map] in E0;
             injection E0 as E0 E1 E2;
             rewrite ?E0, ?E1, ?E2; clear E0 E1 E2
         end.

Ltac split_digits :=
  repeat match goal with
         | D : forallb Js.isDigit (chars _) = true |- _ =>
             cbn [chars list_ascii_of_string forallb] in D
         | D : forallb Js.isDigit (_ :: _) = true |- _ =>
             cbn [forallb] in D
         | D : (_ && _)%bool = true |- _ =>
             let D' := fresh "D" in apply andb_prop in D as [D D']
         | D : true = true |- _ => clear D
         end.

Section Normalisation.
Context `{Host}.
Import RefHost.

Lemma iso_fixed (y1 y2 y3 y4 m1 m2 d1 d2 : ascii) :
  readsDates ->
  forallb isDigit [y1; y2; y3; y4; m1; m2; d1; d2] = true ->
  normalizeDateToISO (written [y1; y2; y3; y4; "-"; m1; m2; "-"; d1; d2])%char
  = Ret (written [y1; y2; y3; y4; "-"; m1; m2; "-"; d1; d2])%char.
Proof.
  intros Hreads D. split_digits. read_formats Hreads. date_run.
  reflexivity.
Qed.

Lemma normalize_shape (dateStr : string) :
  readsDates ->
  exists r,
    normalizeDateToISO dateStr = Ret r
    /\ (r = EmptyString
        \/ (isoDate r = true /\ normalizeDateToISO r = Ret r)).
Proof.
  intro Hreads.
  pose proof (Hreads dateStr) as E. unfold dateFormats in E. cbn [map] in E.
  injection E as E0 E1 E2.
  unfold normalizeDateToISO, dateFormats. cbn [normalizeLoop].
  rewrite E0, E1, E2. clear E0 E1 E2.
  destruct (matchDate 2 2 2 2 4 4 dateStr) as [m|] eqn:M0;
    [|destruct (matchDate 4 4 2 2 2 2 dateStr) as [m|] eqn:M1;
      [|destruct (matchDate 1 1 1 2 4 4 dateStr) as [m|] eqn:M2]].
  4:{ exists EmptyString. split; [reflexivity | now left]. }
  all: match goal with
       | M : matchDate _ _ _ _ _ _ _ = Some _ |- _ =>
           apply matchDate_some in M
             as (g1 & g2 & g3 & c1 & c2 & -> & _ & (D1 & D2 & D3)
                 & (L1 & L2 & L3) & _ & _)
       end.
  - assert (N1 : String.length g1 = 2%nat) by lia.
    assert (N2 : String.length g2 = 2%nat) by lia.
    assert (N3 : String.length g3 = 4%nat) by lia.
    explode N1. explode N2. explode N3. split_digits.
    eexists. split; [reflexivity|]. right. split.
    + cbn. repeat match goal with D : isDigit _ = true |- _ => rewrite D; clear D end.
      reflexivity.
    + apply (iso_fixed _ _ _ _ _ _ _ _ Hreads). cbn [forallb].
      repeat match goal with D : isDigit _ = true |- _ => rewrite D; clear D end.
      reflexivity.
  - assert (N1 : String.length g1 = 4%nat) by lia.
    assert (N2 : String.length g2 = 2%nat) by lia.
    assert (N3 : String.length g3 = 2%nat) by lia.
    explode N1. explode N2. explode N3. split_digits.
    eexists. split; [reflexivity|]. right. split.
    + cbn. repeat match goal with D : isDigit _ = true |- _ => rewrite D; clear D end.
      reflexivity.
    + apply (iso_fixed _ _ _ _ _ _ _ _ Hreads). cbn [forallb].
      repeat match goal with D : isDigit _ = true |- _ => rewrite D; clear D end.
      reflexivity.
  - assert (N1 : String.length g1 = 1%nat) by lia.
    assert (N3 : String.length g3 = 4%nat) by lia.
    assert (N2 : String.length g2 = 1%nat \/ String.length g2 = 2%nat) by lia.
    explode N1. explode N3. destruct N2 as [N2|N2]; explode N2; split_digits.
    all: eexists; (split; [reflexivity|]); right; split;
      [ cbn;
        repeat match goal with D : isDigit _ = true |- _ => rewrite D; clear D end;
        reflexivity
      | apply (iso_fixed _ _ _ _ _ _ _ _ Hreads); cbn [forallb];
        change (isDigit "0") with true;
        repeat match goal with D : isDigit _ = true |- _ => rewrite D; clear D end;
        reflexivity ].
Qed.

Lemma extractDateField_shape (ocrText : string) (patterns : list RegExp) :
  readsDates ->
  exists f,
    extractDateField ocrText patterns = Ret f
    /\ (f = mkField EmptyString 0
        \/ (confidence f = 75 /\ isoDate (value f) = true)).
Proof.
  intro Hreads. induction patterns as [|pattern rest IH]; cbn [extractDateField].
  - eexists. split; [reflexivity | now left].
  - destruct (capture ocrText pattern 1) as [g|]; [|exact IH].
    destruct (normalize_shape (trim g) Hreads) as (r & -> & Hr). cbn [obind].
    destruct r as [|c r]; cbn [Js.truthy]; [exact IH|].
    eexists. split; [reflexivity|]. right.
    destruct Hr as [Hr | [Hr _]]; [discriminate Hr|].
    split; [reflexivity | exact Hr].
Qed.

(** With an engine that reads the three date formats as written,
    [normalizeDateToISO] never throws, and what it returns is either the
    empty string or a date in the shape [YYYY-MM-DD] that it maps to
    itself; accordingly [extractDateField] returns either the empty field
    with confidence 0 or a [YYYY-MM-DD] value with confidence 75. *)
Theorem dates_are_normalised :
  readsDates ->
  (forall dateStr, exists r,
      normalizeDateToISO dateStr = Ret r
      /\ (r = EmptyString
          \/ (isoDate r = true /\ normalizeDateToISO r = Ret r)))
  /\ (forall ocrText patterns, exists f,
        extractDateField ocrText patterns = Ret f
        /\ (f = mkField EmptyString 0
            \/ (confidence f = 75 /\ isoDate (value f) = true))).
Proof.
  intro Hreads. split.
  - intro dateStr. now apply normalize_shape.
  - intros ocrText patterns. now apply extractDateField_shape.
Qed.

(** With an engine that reads the three date formats as written: a
    day-first date with a two-digit day and a two-digit month, or with a
    one-digit day, is reordered to [YYYY-MM-DD] with day and month padded
    to two digits, and a year-first date with two-digit month and day is
    kept with hyphens; but a two-digit day followed by a one-digit month,
    and a year-first date with a one-digit month or day, match no format
    and give the empty string, although the label patterns of
    [analyzeDocument] capture them. *)
Theorem date_formats_read (d1 d2 m1 m2 y1 y2 y3 y4 a b : ascii) :
  readsDates ->
  forallb isDigit [d1; d2; m1; m2; y1; y2; y3; y4] = true ->
  isSeparator a = true ->
  isSeparator b = true ->
  normalizeDateToISO (written [d1; d2; a; m1; m2; b; y1; y2; y3; y4])
  = Ret (written [y1; y2; y3; y4; "-"; m1; m2; "-"; d1; d2])%char
  /\ normalizeDateToISO (written [d1; a; m1; m2; b; y1; y2; y3; y4])
     = Ret (written [y1; y2; y3; y4; "-"; m1; m2; "-"; "0"; d1])%char
  /\ normalizeDateToISO (written [d1; a; m1; b; y1; y2; y3; y4])
     = Ret (written [y1; y2; y3; y4; "-"; "0"; m1; "-"; "0"; d1])%char
  /\ normalizeDateToISO (written [y1; y2; y3; y4; a; m1; m2; b; d1; d2])
     = Ret (written [y1; y2; y3; y4; "-"; m1; m2; "-"; d1; d2])%char
  /\ normalizeDateToISO (written [d1; d2; a; m1; b; y1; y2; y3; y4])
     = Ret EmptyString
  /\ normalizeDateToISO (written [y1; y2; y3; y4; a; m1; b; d1; d2])
     = Ret EmptyString
  /\ normalizeDateToISO (written [y1; y2; y3; y4; a; m1; m2; b; d1])
     = Ret EmptyString.
Proof.
  intros Hreads D Sa Sb. split_digits.
  repeat split; read_formats Hreads; date_run; reflexivity.
Qed.





End Normalisation.

(* ================================================================= *)
(** * Further properties of dates and of the format checks *)

(** A date column whose year is not two digits.  When its first character
    is not a digit, a sign or white space (the fill character of an unknown
    date, a letter), [parseInt] gives NaN and the year is written [NaN];
    when only the first character is a digit (and the two are not the
    hexadecimal prefix [0x]), the year is that digit alone, in the 2000s.
    Month and day are copied as they stand, and the result of a
    six-character column is never empty, so the date checks of
    [validateDocument] run on it. *)
Theorem parseDate_unreadable_year (y1 y2 m1 m2 d1 d2 : ascii) :
  (isDigit y1 = false -> isWhiteSpace y1 = false ->
   y1 <> "+"%char -> y1 <> "-"%char ->
   parseDate (yymmdd y1 y2 m1 m2 d1 d2)
   = "NaN-" ++ String m1 (String m2 EmptyString)
     ++ "-" ++ String d1 (String d2 EmptyString))
  /\ (isDigit y1 = true -> isDigit y2 = false ->
      ~ (y1 = "0"%char /\ (y2 = "x"%char \/ y2 = "X"%char)) ->
      parseDate (yymmdd y1 y2 m1 m2 d1 d2)
      = Num.Z_toString (2000 + (code y1 - 48))
        ++ "-" ++ String m1 (String m2 EmptyString)
        ++ "-" ++ String d1 (String d2 EmptyString))
  /\ Js.truthy (parseDate (yymmdd y1 y2 m1 m2 d1 d2)) = true.
Proof.
  split; [|split].
  - intros Hd Hw Hplus Hminus.
    destruct y1 as [[] [] [] [] [] [] [] []]; vm_compute in Hd, Hw;
      try discriminate Hd; try discriminate Hw;
      try solve [exfalso; apply Hplus; reflexivity];
      try solve [exfalso; apply Hminus; reflexivity];
      reflexivity.
  - intros H1 H2 Hhex.
    assert (Hvalue : digitValue 10 y2 = None).
    { destruct y2 as [[] [] [] [] [] [] [] []]; vm_compute in H2;
        try discriminate H2; reflexivity. }
    assert (Hprefix : y1 = "0"%char ->
                      Ascii.eqb y2 "x" = false /\ Ascii.eqb y2 "X" = false).
    { intro E. split; apply Ascii.eqb_neq; intro E'; apply Hhex; auto. }
    each_digit H1; try destruct (Hprefix eq_refl) as [Ex EX];
      cbv - [digitValue Ascii.eqb Num.Z_toString append];
      rewrite ?Ex, ?EX, ?Hvalue; reflexivity.
  - unfold parseDate, yymmdd. cbn [String.length Nat.eqb negb].
    match goal with
    | |- Js.truthy (?year ++ _) = true => destruct year; reflexivity
    end.
Qed.

Section FormatChecks.
Context `{Host}.

Lemma own_checks_of_validateDocument doc :
  exists checks,
    validateDocument doc = Ret checks
    /\ checksFor "documentNumber" checks = emitted (checkDocumentNumber doc)
    /\ checksFor "name" checks = emitted (checkName doc)
    /\ checksFor "nationality" checks = emitted (checkNationality doc).
Proof.
  eexists. split; [apply validateDocument_blocks|].
  rewrite !checksFor_app.
  rewrite (checksFor_same _ _ (checkDocumentNumber_fields doc)),
          (checksFor_same _ _ (checkName_fields doc)),
          (checksFor_same _ _ (checkNationality_fields doc)).
  repeat match goal with
         | |- context [checksFor ?name (emitted (?block doc))] =>
             rewrite (checksFor_other name (emitted (block doc)) _
                        ltac:(first [ apply checkDocumentNumber_fields
                                    | apply checkExpiryDate_fields
                                    | apply checkDateOfBirth_fields
                                    | apply checkName_fields
                                    | apply checkNationality_fields
                                    | apply checkMRZ_fields ]))
               by (cbv beta; intros c E;
                   first [ rewrite E; discriminate
                         | cbn [In] in E;
                           destruct E as [E|[E|[E|[]]]]; rewrite <- E;
                           discriminate ])
         end.
  cbn [app]. now rewrite !app_nil_r.
Qed.

Lemma not_pass_blocks_approval (checks : list ValidationCheck)
    (name : string) (c : ValidationCheck) :
  checksFor name checks = [c] ->
  status c <> st_pass ->
  forall eligibility overallConfidence,
    ~ In "APPROVE: All checks passed with high confidence"
         (generateRecommendations checks eligibility overallConfidence).
Proof.
  intros Hc Hst eligibility overallConfidence Happrove.
  apply approve_needs in Happrove as ((Hpass & _) & _).
  rewrite Forall_forall in Hpass. apply Hst, Hpass.
  assert (Hin : In c (checksFor name checks)) by (rewrite Hc; now left).
  unfold checksFor in Hin. now apply filter_In in Hin.
Qed.

(** The three format checks of [validateDocument].  A non-empty document
    number that is not 6 to 12 capital letters and digits (the five
    characters left of a short number after its fill was stripped, for
    one) fails, and the recommendations start with the REJECT heading.  A
    one-character given name or surname beside a non-empty other name, and
    a non-empty nationality that is not three capital letters (the [D] left
    of [D<<], for one), draw a warning, and a document with that warning is
    never approved, whatever the eligibility and the overall confidence. *)
Theorem format_checks (doc : ExtractedDocument) :
  exists checks,
    validateDocument doc = Ret checks
    /\ (Js.truthy (value (documentNumber doc)) = true ->
        isDocumentNumber (value (documentNumber doc)) = false ->
        checksFor "documentNumber" checks
        = [ {| field := "documentNumber"; status := st_fail;
               message := "Invalid document number format";
               checkConfidence := confidence (documentNumber doc) |} ]
        /\ forall eligibility overallConfidence,
             hd EmptyString
                (generateRecommendations checks eligibility overallConfidence)
             = "REJECT: Critical validation failures detected")
    /\ (Js.truthy (value (firstName doc)) = true ->
        Js.truthy (value (lastName doc)) = true ->
        (String.length (value (firstName doc)) <= 1)%nat
        \/ (String.length (value (lastName doc)) <= 1)%nat ->
        checksFor "name" checks
        = [ {| field := "name"; status := st_warning;
               message := "Name fields may be incomplete";
               checkConfidence :=
                 Z.min (confidence (firstName doc)) (confidence (lastName doc)) |} ]
        /\ forall eligibility overallConfidence,
             ~ In "APPROVE: All checks passed with high confidence"
                  (generateRecommendations checks eligibility overallConfidence))
    /\ (Js.truthy (value (nationality doc)) = true ->
        isNationalityCode (value (nationality doc)) = false ->
        checksFor "nationality" checks
        = [ {| field := "nationality"; status := st_warning;
               message := "Nationality code format unusual";
               checkConfidence := confidence (nationality doc) |} ]
        /\ forall eligibility overallConfidence,
             ~ In "APPROVE: All checks passed with high confidence"
                  (generateRecommendations checks eligibility overallConfidence))
    /\ ((String.length (value (documentNumber doc)) < 6)%nat ->
        isDocumentNumber (value (documentNumber doc)) = false)
    /\ ((String.length (value (nationality doc)) < 3)%nat ->
        isNationalityCode (value (nationality doc)) = false).
Proof.
  destruct (own_checks_of_validateDocument doc)
    as (checks & Hrun & Hnumber & Hname & Hnat).
  exists checks. split; [exact Hrun|].
  split; [|split; [|split; [|split]]].
  - intros Hvalue Hformat.
    assert (Hcheck : checksFor "documentNumber" checks
                     = [ {| field := "documentNumber"; status := st_fail;
                            message := "Invalid document number format";
                            checkConfidence := confidence (documentNumber doc) |} ]).
    { rewrite Hnumber. unfold checkDocumentNumber. rewrite Hvalue, Hformat.
      reflexivity. }
    split; [exact Hcheck|].
    intros eligibility overallConfidence. unfold generateRecommendations.
    rewrite failures_nonempty; [reflexivity|].
    exists {| field := "documentNumber"; status := st_fail;
              message := "Invalid document number format";
              checkConfidence := confidence (documentNumber doc) |}.
    split; [|reflexivity].
    assert (Hin : In {| field := "documentNumber"; status := st_fail;
                        message := "Invalid document number format";
                        checkConfidence := confidence (documentNumber doc) |}
                     (checksFor "documentNumber" checks))
      by (rewrite Hcheck; now left).
    unfold checksFor in Hin. apply filter_In in Hin as [Hin _]. exact Hin.
  - intros Hfirst Hlast Hshort.
    assert (Hcheck : checksFor "name" checks
                     = [ {| field := "name"; status := st_warning;
                            message := "Name fields may be incomplete";
                            checkConfidence :=
                              Z.min (confidence (firstName doc))
                                    (confidence (lastName doc)) |} ]).
    { rewrite Hname. unfold checkName. rewrite Hfirst, Hlast.
      assert (Hinvalid : (1 <? String.length (value (firstName doc)))%nat
                         && (1 <? String.length (value (lastName doc)))%nat
                         = false).
      { apply andb_false_iff.
        destruct Hshort as [Hs|Hs]; [left | right]; apply Nat.ltb_ge; exact Hs. }
      cbv zeta. rewrite Hinvalid. reflexivity. }
    split; [exact Hcheck|].
    apply (not_pass_blocks_approval checks "name" _ Hcheck). discriminate.
  - intros Hvalue Hformat.
    assert (Hcheck : checksFor "nationality" checks
                     = [ {| field := "nationality"; status := st_warning;
                            message := "Nationality code format unusual";
                            checkConfidence := confidence (nationality doc) |} ]).
    { rewrite Hnat. unfold checkNationality. rewrite Hvalue, Hformat.
      reflexivity. }
    split; [exact Hcheck|].
    apply (not_pass_blocks_approval checks "nationality" _ Hcheck). discriminate.
  - intro Hshort. unfold isDocumentNumber.
    apply Nat.leb_gt in Hshort. rewrite Hshort.
    now rewrite andb_false_r.
  - intro Hshort. unfold isNationalityCode.
    assert (E : (String.length (value (nationality doc)) =? 3)%nat = false)
      by (apply Nat.eqb_neq; lia).
    rewrite E. now rewrite andb_false_r.
Qed.

End FormatChecks.

(* ================================================================= *)
(** * The further properties at concrete inputs *)

(** The specimen passport and its second line cut after column 28 have the
    same validity. *)
Lemma td3_validity_reads_28_columns_specimen :
  checksumValid (parseTD3 specimenLine1 specimenLine2)
  = checksumValid (parseTD3 mononymLine1 "L898902C36UTO7408122F1204159").
Proof.
  exact (proj1 (td3_validity_reads_28_columns
                  specimenLine1 mononymLine1 specimenLine2
                  "L898902C36UTO7408122F1204159" eq_refl)).
Defined.

(** The specimen card with its second line cut before the expiry check
    digit. *)
Lemma td1_short_second_line_specimen :
  parseMRZ [cardLine1; "7408122F120415"; cardLine3]
  = Ret (Some (parseTD1 cardLine1 "7408122F120415" cardLine3))
  /\ checksumValid (parseTD1 cardLine1 "7408122F120415" cardLine3) = false
  /\ recordConfidence (parseTD1 cardLine1 "7408122F120415" cardLine3) = 70.
Proof.
  apply (td1_short_second_line cardLine1 "7408122F120415" cardLine3);
    [reflexivity | cbn; lia].
Defined.

(** The columns of the specimen passport. *)
Lemma parseTD3_columns_specimen :
  let m := parseTD3 specimenLine1 specimenLine2 in
  value (mrz_documentNumber m) = "L898902C3"
  /\ value (mrz_dateOfBirth m) = "1974-08-12"
  /\ value (mrz_personalNumber m) = "ZE184226B"
  /\ checksumValid m = true.
Proof.
  pose proof (parseTD3_columns "P<" "UTO"
                "ERIKSSON<<ANNA<MARIA<<<<<<<<<<<<<<<<<<<"
                "L898902C3" "6" "UTO" "740812" "2" "F" "120415" "9"
                "ZE184226B<<<<<" "1" "0"
                eq_refl eq_refl eq_refl eq_refl eq_refl eq_refl eq_refl
                eq_refl eq_refl eq_refl eq_refl) as T.
  cbv zeta in T.
  destruct T as (_ & _ & _ & _ & Hnumber & _ & Hdob & _ & _ & Hpersonal & Hvalid).
  cbv zeta. split; [exact Hnumber|]. split; [exact Hdob|].
  split; [exact Hpersonal | exact Hvalid].
Defined.

(** The columns of the specimen card. *)
Lemma parseTD1_columns_specimen :
  let m := parseTD1 cardLine1 cardLine2 cardLine3 in
  value (mrz_documentNumber m) = "D23145890"
  /\ value (mrz_expiryDate m) = "2012-04-15"
  /\ mrz_personalNumber m = mkField EmptyString 0
  /\ checksumValid m = true.
Proof.
  pose proof (parseTD1_columns "I<" "UTO" "D23145890" "7" "<<<<<<<<<<<<<<<"
                "740812" "2" "F" "120415" "9" "UTO" "<<<<<<<<<<<6" cardLine3
                eq_refl eq_refl eq_refl eq_refl eq_refl eq_refl eq_refl
                eq_refl eq_refl eq_refl) as T.
  cbv zeta in T.
  destruct T as (_ & _ & Hnumber & _ & _ & Hexpiry & _ & _ & _ & Hpersonal & Hvalid).
  cbv zeta. split; [exact Hnumber|]. split; [exact Hexpiry|].
  split; [exact Hpersonal | exact Hvalid].
Defined.

(** A text whose surname pattern finds nothing and whose given-name pattern
    captures [JOHN]. *)
Lemma extractFieldFromText_first_match_given_name :
  @extractFieldFromText host2026Matching "Given names: JOHN"
    [ mkRegExp "(?:surname|last\s*name|family\s*name)[:\s]*([A-Z\s]+)" "i";
      mkRegExp "(?:given\s*names?|first\s*name)[:\s]*([A-Z\s]+)" "i" ]
  = mkField "JOHN" 75.
Proof.
  assert (Hearlier :
            Forall (fun p => @capture host2026Matching "Given names: JOHN" p 1 = None)
              [ mkRegExp "(?:surname|last\s*name|family\s*name)[:\s]*([A-Z\s]+)" "i" ])
    by (apply Forall_cons; [reflexivity | apply Forall_nil]).
  exact (proj1 (@extractFieldFromText_first_match host2026Matching
                  "Given names: JOHN" _ []
                  (mkRegExp "(?:given\s*names?|first\s*name)[:\s]*([A-Z\s]+)" "i")
                  "JOHN" Hearlier)
               eq_refl).
Defined.

(** A passport that expires three months after today: the expiry check
    passes and a warning follows it. *)
Lemma expiry_checks_on_a_date_three_months :
  exists checks,
    @validateDocument host2026 (textDocument "UTO" "1974-08-12" "2027-02-01")
    = Ret checks
    /\ checksFor "expiryDate" checks
       = [ {| field := "expiryDate"; status := st_pass;
              message := "Document is valid"; checkConfidence := 75 |};
           {| field := "expiryDate"; status := st_warning;
              message := "Document expires in 3 months";
              checkConfidence := 75 |} ].
Proof.
  destruct (@expiry_checks_on_a_date host2026
              (textDocument "UTO" "1974-08-12" "2027-02-01") eq_refl)
    as (checks & Hrun & _ & Hdate).
  exists checks. split; [exact Hrun|].
  exact (Hdate (RefHost.parseCalendarDate "2027-02-01") false (Int 3)
           eq_refl eq_refl eq_refl).
Defined.

(** A holder born on 12 August 1974 is 52 on 1 November 2026. *)
Lemma birth_check_by_age_52 :
  exists checks,
    @validateDocument host2026 (textDocument "UTO" "1974-08-12" "2027-02-01")
    = Ret checks
    /\ checksFor "dateOfBirth" checks
       = [ {| field := "dateOfBirth"; status := st_pass;
              message := "Age: 52 years"; checkConfidence := 75 |} ].
Proof.
  destruct (@birth_check_by_age host2026
              (textDocument "UTO" "1974-08-12" "2027-02-01") eq_refl)
    as (checks & Hrun & _ & Hage & _).
  exists checks. split; [exact Hrun|].
  exact (Hage (RefHost.parseCalendarDate "1974-08-12") 52 eq_refl eq_refl).
Defined.

(** A passport valid for three more months under a six-month minimum. *)
Lemma passport_validity_rule_three_months :
  exists r,
    @checkEligibility host2026 (textDocument "UTO" "1974-08-12" "2027-02-01")
      touristApplicant agePolicy = Ret r
    /\ eligible r = false
    /\ includes (reason r) "Passport must be valid for at least 6 months" = true.
Proof.
  assert (Hsafe : safeInteger (minPassportValidity agePolicy))
    by (unfold safeInteger; cbn [minPassportValidity agePolicy]; lia).
  destruct (@passport_validity_rule host2026
              (textDocument "UTO" "1974-08-12" "2027-02-01")
              touristApplicant agePolicy eq_refl Hsafe)
    as (_ & Hdate & _).
  destruct (Hdate (RefHost.parseCalendarDate "2027-02-01") 3 eq_refl eq_refl)
    as [Hlow _].
  exact (Hlow eq_refl).
Defined.

(** A holder of 16 under a minimum age of 18. *)
Lemma age_rule_by_outcome_minor :
  emitted (@issueAge host2026 (textDocument "UTO" "2010-05-05" "2031-03-01")
             agePolicy)
  = ["Applicant must be at least 18 years old"].
Proof.
  assert (Hmin : safeBound (minAge agePolicy))
    by (unfold safeBound, safeInteger; cbn [minAge agePolicy]; lia).
  assert (Hmax : safeBound (maxAge agePolicy))
    by (unfold safeBound, safeInteger; cbn [maxAge agePolicy]; lia).
  exact (proj2 (@age_rule_by_outcome host2026
                  (textDocument "UTO" "2010-05-05" "2031-03-01") agePolicy
                  eq_refl Hmin Hmax)
               (RefHost.parseCalendarDate "2010-05-05") 16 eq_refl eq_refl).
Defined.

(** The text of the single-name passport: both cross-checks pass. *)
Lemma analyzed_cross_checks_always_pass_mononym :
  exists doc checks,
    @analyzeDocument host2026Matching mononymText = Ret doc
    /\ @validateDocument host2026Matching doc = Ret checks
    /\ forall c, In c checks ->
         In (field c) ["documentNumberMatch"; "nameMatch"] ->
         status c = st_pass.
Proof.
  assert (Hrun : exists doc,
             @analyzeDocument host2026Matching mononymText = Ret doc
             /\ mrzData doc = Some (parseTD3 mononymLine1 specimenLine2)).
  { eexists. split; [vm_compute; reflexivity | reflexivity]. }
  destruct Hrun as (doc & Hdoc & Hmrz).
  destruct (@analyzed_cross_checks_always_pass host2026Matching mononymText doc
              (parseTD3 mononymLine1 specimenLine2) Hdoc Hmrz)
    as (checks & Hchecks & Hpass).
  exists doc, checks. split; [exact Hdoc|]. split; [exact Hchecks | exact Hpass].
Defined.

(** The specimen passport with a wrong check digit is rejected. *)
Lemma failed_checksum_is_rejected_tampered :
  exists doc checks,
    @analyzeDocument host2026 tamperedText = Ret doc
    /\ @validateDocument host2026 doc = Ret checks
    /\ In {| field := "mrzChecksum"; status := st_fail;
             message := "MRZ checksums failed"; checkConfidence := 60 |} checks.
Proof.
  assert (Hrun : exists doc,
             @analyzeDocument host2026 tamperedText = Ret doc
             /\ mrzData doc = Some (parseTD3 specimenLine1 tamperedLine2)).
  { eexists. split; [vm_compute; reflexivity | reflexivity]. }
  destruct Hrun as (doc & Hdoc & Hmrz).
  destruct (@failed_checksum_is_rejected host2026 doc
              (parseTD3 specimenLine1 tamperedLine2) Hmrz eq_refl)
    as (checks & Hchecks & Hfail & _).
  exists doc, checks. split; [exact Hdoc|]. split; [exact Hchecks | exact Hfail].
Defined.

(** The handler on the text of the single-name passport: the overall
    confidence is the record's 95. *)
Lemma approval_needs_valid_mrz_mononym :
  exists result,
    @Route.POST host2026 (fun _ => Throw) mononymText
      Route.Missing Route.Missing = Ret result
    /\ Route.overallConfidence result = 95.
Proof.
  assert (Hrun : exists result,
             @Route.POST host2026 (fun _ => Throw) mononymText
               Route.Missing Route.Missing = Ret result
             /\ mrzData (Route.extractedFields result)
                = Some (parseTD3 mononymLine1 specimenLine2)).
  { eexists. split; [vm_compute; reflexivity | reflexivity]. }
  destruct Hrun as (result & Hpost & Hmrz).
  exists result. split; [exact Hpost|].
  pose proof (proj1 (@approval_needs_valid_mrz host2026 (fun _ => Throw)
                       mononymText Route.Missing Route.Missing
                       result Hpost)) as Hoverall.
  rewrite Hmrz in Hoverall. exact Hoverall.
Defined.

(** The handler on the text of the single-name passport with a policy that
    is not of the declared type, on which [checkEligibility] throws: the
    analysis returns and the handler fails. *)
Lemma handler_failure_points_untyped_policy :
  @Route.POST host2026 (fun _ => Throw) mononymText
    (Route.Typed touristApplicant) Route.Untyped = Throw.
Proof.
  apply (proj2 (proj1 (@handler_failure_points host2026 (fun _ => Throw)
                         mononymText (Route.Typed touristApplicant)
                         Route.Untyped))).
  right. eexists. split; [vm_compute; reflexivity|]. split; reflexivity.
Defined.

(** A text that mentions a visa page and a passport is typed as a
    passport. *)
Lemma passport_word_decides_visa_page :
  extractDocumentType "Visa page of the Passport of Utopia" = mkField "P" 85.
Proof.
  exact (passport_word_decides "Visa page of the " "Passport" " of Utopia"
           eq_refl).
Defined.

(** The reference engine reads the date formats. *)
Lemma dates_are_normalised_reference :
  @readsDates host2026Dates
  /\ exists r,
       @normalizeDateToISO host2026Dates "12/08/1974" = Ret r
       /\ (r = EmptyString
           \/ (isoDate r = true /\ @normalizeDateToISO host2026Dates r = Ret r)).
Proof.
  assert (Hreads : @readsDates host2026Dates) by (intro s; reflexivity).
  split; [exact Hreads|].
  exact (proj1 (@dates_are_normalised host2026Dates Hreads) "12/08/1974").
Defined.

(** 11 November 1974 as written day-first, and with a one-digit month. *)
Lemma date_formats_read_november :
  @normalizeDateToISO host2026Dates "11/11/1974" = Ret "1974-11-11"
  /\ @normalizeDateToISO host2026Dates "1/1-1974" = Ret "1974-01-01"
  /\ @normalizeDateToISO host2026Dates "11/1-1974" = Ret EmptyString.
Proof.
  assert (Hreads : @readsDates host2026Dates) by (intro s; reflexivity).
  pose proof (@date_formats_read host2026Dates
                "1" "1" "1" "1" "1" "9" "7" "4" "/" "/"
                Hreads eq_refl eq_refl eq_refl)%char
    as (Hfull & _ & _ & _ & _).
  pose proof (@date_formats_read host2026Dates
                "1" "1" "1" "1" "1" "9" "7" "4" "/" "-"
                Hreads eq_refl eq_refl eq_refl)%char
    as (_ & _ & Hshort & _ & Hgap & _).
  split; [exact Hfull|]. split; [exact Hshort | exact Hgap].
Defined.

